(** * ContentBlitz: the heuristic analyzers

    A shallow embedding of [src/utils/content_scorer.py] (class
    [ContentScorer]) and [src/utils/seo_optimizer.py] (class
    [SEOOptimizer]), with the properties of their reports, and of the code
    around them that runs without a language model: the keyword fields of
    [src/ui/app.py], the document store of [src/core/vector_store.py], the
    brand voice of [src/core/brand_voice.py], the session data and the
    history string of [src/core/memory.py], the routing by keywords of
    [src/agents/router_agent.py] and the summary of a result of
    [src/core/orchestrator.py].

    Conventions of the embedding.

    - A Python [str] is a list of Unicode code points ([str := list N]), so
      [len], slicing, [count], [split] and [in] are list operations.
    - What CPython takes from the Unicode character database ([str.lower],
      [str.title], and the classes behind [\s], [\w], [\d] and [str.strip])
      is a parameter [U : Unicode] of every analyzer.  General theorems hold
      for every such table; evaluations use the table [tables] defined
      below.
    - The regular expressions of the source are values of a small pattern
      type, run by a backtracking matcher that follows [re]'s greedy and
      lazy repetition, [^] and [$] under [re.MULTILINE], and [\b].
    - A Python [float] is the rational number it stands for.  In the
      scorer float arithmetic is exact arithmetic: that is what binary64
      computes where the scorer adds and compares, every score being a
      multiple of 0.5, every threshold a binary64 value, and a quotient of
      two lengths below 2^48 lying on the same side of a threshold as its
      binary64 rounding; the means it rounds are tenths and sixths, which
      are never halfway between two numbers of one decimal.  The optimizer
      rounds quotients of arbitrary lengths, and there a quotient and a
      product are rounded to binary64 as the code rounds them ([Py.float]),
      so that [round] sees the value the code gives it.  The section on
      binary64 checks the sums, the grades and [Py.float] on the floats
      themselves.  [round(x, n)] is the multiple of [10^-n] nearest to the
      value of [x], a tie going to the even one.
    - [datetime.now().isoformat()] is an argument [now] of the scorer and
      of the session data, and [str(uuid.uuid4())] an argument [uuid] of
      the brand voice.
    - An object that methods update in place (the store, the brand voice,
      the session data) is passed to the method and returned by it. *)

From Stdlib Require Import String Ascii List ZArith NArith QArith Qround Bool Lia.
From Stdlib Require Import Sorted DecimalString.
From Stdlib Require Floats.PrimFloat.
Import ListNotations.

Set Implicit Arguments.
Open Scope nat_scope.

(** ** Python strings *)

Definition char := N.
Bind Scope N_scope with char.
Definition str := list char.

(** A string literal of the source. *)
Definition py (s : string) : str := map N_of_ascii (list_ascii_of_string s).

Definition NL : char := 10%N.

Fixpoint str_eqb (a b : str) : bool :=
  match a, b with
  | [], [] => true
  | x :: a', y :: b' => N.eqb x y && str_eqb a' b'
  | _, _ => false
  end.

Module Str.

(** [s.startswith(p)] *)
Fixpoint startswith (p s : str) : bool :=
  match p, s with
  | [], _ => true
  | x :: p', y :: s' => N.eqb x y && startswith p' s'
  | _ :: _, [] => false
  end.

(** [sub in s] *)
Fixpoint contains (sub s : str) : bool :=
  startswith sub s ||
  match s with
  | [] => false
  | _ :: s' => contains sub s'
  end.

(** The scan behind [s.count(sub)] for a non-empty [sub]: occurrences are
    found left to right and the scan resumes after each one ([skip]
    characters of a found occurrence are still to be passed). *)
Fixpoint count_from (sub : str) (skip : nat) (s : str) : nat :=
  match s with
  | [] => 0
  | _ :: s' =>
      match skip with
      | S k => count_from sub k s'
      | O => if startswith sub s
             then S (count_from sub (length sub - 1) s')
             else count_from sub 0 s'
      end
  end.

(** [s.count(sub)]; the empty string occurs [len(s) + 1] times. *)
Definition count (s sub : str) : nat :=
  match sub with
  | [] => length s + 1
  | _ :: _ => count_from sub 0 s
  end.

(** The scan behind [s.split(sep)] for a non-empty [sep]; [cur] is the
    segment being read, last character first. *)
Fixpoint split_from (sep : str) (skip : nat) (cur : str) (s : str) : list str :=
  match s with
  | [] => [rev cur]
  | c :: s' =>
      match skip with
      | S k => split_from sep k cur s'
      | O => if startswith sep s
             then rev cur :: split_from sep (length sep - 1) [] s'
             else split_from sep 0 (c :: cur) s'
      end
  end.

(** [s.split(sep)].  Python raises [ValueError] on an empty separator;
    the source only splits on the literals ['\n\n'] and ['\n']. *)
Definition split (s sep : str) : list str := split_from sep 0 [] s.

(** [sep.join(parts)] *)
Fixpoint join (sep : str) (parts : list str) : str :=
  match parts with
  | [] => []
  | [p] => p
  | p :: rest => p ++ sep ++ join sep rest
  end.

(** [s[:n]] and [s[-n:]] for a positive literal [n] *)
Definition prefix (n : nat) (s : str) : str := firstn n s.
Definition suffix (n : nat) (s : str) : str := skipn (length s - n) s.

Fixpoint lstrip (isspace : char -> bool) (s : str) : str :=
  match s with
  | [] => []
  | c :: s' => if isspace c then lstrip isspace s' else s
  end.

(** [s.strip()] *)
Definition strip (isspace : char -> bool) (s : str) : str :=
  rev (lstrip isspace (rev (lstrip isspace s))).

(** [s.endswith(c)] for a one-character literal *)
Definition endswith_char (c : char) (s : str) : bool :=
  match rev s with
  | [] => false
  | x :: _ => N.eqb x c
  end.

(** [s.replace(a, b)] for one-character literals *)
Definition replace_char (a b : char) (s : str) : str :=
  map (fun c => if N.eqb c a then b else c) s.

End Str.

(** ** The Unicode tables CPython consults *)

Record Unicode := {
  lower : str -> str;          (* str.lower *)
  title : str -> str;          (* str.title *)
  isspace : char -> bool;      (* str.isspace; \s and str.strip *)
  isalnum : char -> bool;      (* str.isalnum; \w is isalnum or '_' *)
  isdecimal : char -> bool     (* str.isdecimal; \d *)
}.

(** ** Regular expressions *)

Module Re.

(** The fragment of [re] the source uses: a pattern is a sequence of
    atoms, and every repetition is over a one-character class. *)
Inductive atom :=
| Bol                                   (* ^ with re.MULTILINE *)
| Eol                                   (* $ with re.MULTILINE *)
| WordB (w : char -> bool)              (* \b, for the class \w *)
| One (cs : char -> bool)               (* one character of a class *)
| Rep (capture : bool) (cs : char -> bool)
      (lo : nat) (hi : option nat) (greedy : bool).
                                        (* cs{lo,hi}, cs{lo,hi}? and (cs{lo,hi}) *)

Definition pattern := list atom.

Definition lit (c : char) : atom := One (N.eqb c).
Definition lits (s : str) : pattern := map lit s.
Definition plus (cs : char -> bool) : atom := Rep false cs 1 None true.
Definition star (cs : char -> bool) : atom := Rep false cs 0 None true.
Definition plus_lazy (cs : char -> bool) : atom := Rep false cs 1 None false.
Definition group_plus (cs : char -> bool) : atom := Rep true cs 1 None true.

(** Character classes *)
Definition dot : char -> bool := fun c => negb (N.eqb c NL).
Definition range (a b : N) : char -> bool := fun c => N.leb a c && N.leb c b.
Definition oneof (s : str) : char -> bool := fun c => existsb (N.eqb c) s.
Definition word (U : Unicode) : char -> bool :=
  fun c => isalnum U c || N.eqb c 95.

Definition at_bol (prev : option char) : bool :=
  match prev with
  | None => true
  | Some c => N.eqb c NL
  end.

Definition at_eol (s : str) : bool :=
  match s with
  | [] => true
  | c :: _ => N.eqb c NL
  end.

Definition is_word (w : char -> bool) (c : option char) : bool :=
  match c with
  | None => false
  | Some x => w x
  end.

Definition at_boundary (w : char -> bool) (prev : option char) (s : str) : bool :=
  xorb (is_word w prev) (is_word w (hd_error s)).

(** Length of the run of class characters at the head of [s]. *)
Fixpoint run (cs : char -> bool) (s : str) : nat :=
  match s with
  | [] => 0
  | c :: s' => if cs c then S (run cs s') else 0
  end.

(** The character before position [k] of [s], [prev] standing before [s]. *)
Definition prev_at (prev : option char) (s : str) (k : nat) : option char :=
  match k with
  | O => prev
  | S j => nth_error s j
  end.

Fixpoint first_some (A : Type) (f : nat -> option A) (ks : list nat) : option A :=
  match ks with
  | [] => None
  | k :: ks' =>
      match f k with
      | Some a => Some a
      | None => first_some f ks'
      end
  end.

(** Repetition counts in the order the backtracking matcher tries them. *)
Definition counts (lo : nat) (hi : option nat) (greedy : bool) (n : nat) : list nat :=
  let n := match hi with
           | Some h => Nat.min n h
           | None => n
           end in
  let ks := seq lo (S n - lo) in
  if greedy then rev ks else ks.

(** [match_here r prev s]: the match of [r] at the head of [s] that the
    backtracking search finds first, as the number of characters it
    spans and the text of its capturing groups. *)
Fixpoint match_here (r : pattern) (prev : option char) (s : str)
  : option (nat * list str) :=
  match r with
  | [] => Some (0, [])
  | Bol :: r' => if at_bol prev then match_here r' prev s else None
  | Eol :: r' => if at_eol s then match_here r' prev s else None
  | WordB w :: r' => if at_boundary w prev s then match_here r' prev s else None
  | One cs :: r' =>
      match s with
      | [] => None
      | c :: s' =>
          if cs c
          then match match_here r' (Some c) s' with
               | Some (n, g) => Some (S n, g)
               | None => None
               end
          else None
      end
  | Rep capture cs lo hi greedy :: r' =>
      first_some
        (fun k =>
           match match_here r' (prev_at prev s k) (skipn k s) with
           | Some (n, g) =>
               Some (k + n, if capture then firstn k s :: g else g)
           | None => None
           end)
        (counts lo hi greedy (run cs s))
  end.

(** The left-to-right scan of [re.finditer]: each match as its text and
    its groups.  No pattern of the source matches the empty string, and
    an empty match is not recorded. *)
Fixpoint scan (r : pattern) (prev : option char) (skip : nat) (s : str)
  : list (str * list str) :=
  match s with
  | [] => []
  | c :: s' =>
      match skip with
      | S k => scan r (Some c) k s'
      | O =>
          match match_here r prev s with
          | Some (S k, g) => (firstn (S k) s, g) :: scan r (Some c) k s'
          | _ => scan r (Some c) 0 s'
          end
      end
  end.

(** [re.findall(r, s)] for a pattern without a group *)
Definition findall (r : pattern) (s : str) : list str :=
  map fst (scan r None 0 s).

(** [re.findall(r, s)] for a pattern with one group *)
Definition findall_group (r : pattern) (s : str) : list str :=
  map (fun m => hd [] (snd m)) (scan r None 0 s).

(** truth of [re.search(r, s)] *)
Definition search (r : pattern) (s : str) : bool :=
  match scan r None 0 s with
  | [] => false
  | _ :: _ => true
  end.

(** [re.split(r, s)] for a pattern without a group *)
Fixpoint split_from (r : pattern) (prev : option char) (skip : nat)
         (cur : str) (s : str) : list str :=
  match s with
  | [] => [rev cur]
  | c :: s' =>
      match skip with
      | S k => split_from r (Some c) k cur s'
      | O =>
          match match_here r prev s with
          | Some (S k, _) => rev cur :: split_from r (Some c) k [] s'
          | _ => split_from r (Some c) 0 (c :: cur) s'
          end
      end
  end.

Definition split (r : pattern) (s : str) : list str :=
  split_from r None 0 [] s.

End Re.

(** ** The tables used for evaluation

    CPython's tables on the ASCII range, on its white-space characters, and
    on the one code point whose lower case is longer than itself: the
    letter U+0130, which [str.lower] maps to U+0069 U+0307.  Further
    non-ASCII letters and digits are left unclassified and unchanged. *)

Module Tables.

Definition is_upper (c : char) : bool := N.leb 65 c && N.leb c 90.
Definition is_lower (c : char) : bool := N.leb 97 c && N.leb c 122.
Definition is_digit (c : char) : bool := N.leb 48 c && N.leb c 57.

Definition lower_char (c : char) : str :=
  if is_upper c then [(c + 32)%N]
  else if N.eqb c 0x130 then [0x69%N; 0x307%N]
  else [c].

Definition lower (s : str) : str := flat_map lower_char s.

(** [str.title]: a letter is upper-cased after an uncased character and
    lower-cased after a cased one. *)
Fixpoint title_from (cased : bool) (s : str) : str :=
  match s with
  | [] => []
  | c :: s' =>
      if is_lower c then (if cased then c else (c - 32)%N) :: title_from true s'
      else if is_upper c || N.eqb c 0x130
      then (if cased then lower_char c else [c]) ++ title_from true s'
      else c :: title_from false s'
  end.

Definition title (s : str) : str := title_from false s.

Definition isspace (c : char) : bool :=
  (N.leb 9 c && N.leb c 13) || (N.leb 28 c && N.leb c 32)
  || N.eqb c 133 || N.eqb c 160 || N.eqb c 5760
  || (N.leb 8192 c && N.leb c 8202)
  || N.eqb c 8232 || N.eqb c 8233 || N.eqb c 8239 || N.eqb c 8287
  || N.eqb c 12288.

Definition isalnum (c : char) : bool :=
  is_upper c || is_lower c || is_digit c || N.eqb c 0x130.

End Tables.

Definition tables : Unicode := {|
  lower := Tables.lower;
  title := Tables.title;
  isspace := Tables.isspace;
  isalnum := Tables.isalnum;
  isdecimal := Tables.is_digit
|}.

(** ** Python numbers *)

Module Py.
Local Open Scope Q_scope.

Definition ltb (a b : Q) : bool := negb (Qle_bool b a).
Definition gtb (a b : Q) : bool := ltb b a.
Definition geb (a b : Q) : bool := Qle_bool b a.

(** [min(a, b)] and [max(a, b)] *)
Definition min (a b : Q) : Q := if ltb b a then b else a.
Definition max (a b : Q) : Q := if gtb b a then b else a.

(** [len(x)] where a float is wanted *)
Definition of_nat (n : nat) : Q := inject_Z (Z.of_nat n).

(** [sum(xs)] *)
Definition sum (xs : list Q) : Q := fold_left Qplus xs 0.

(** [round(x, ndigits)]: the multiple of [10^-ndigits] nearest to the
    value of the float [x], a tie going to the even one.  (Python returns
    the float nearest to that decimal; the model keeps the decimal.) *)
Definition round (x : Q) (ndigits : nat) : Q :=
  let p := inject_Z (10 ^ Z.of_nat ndigits) in
  let y := x * p in
  let f := Qfloor y in
  let n := match (y - inject_Z f) ?= (1 # 2) with
           | Lt => f
           | Gt => (f + 1)%Z
           | Eq => if Z.even f then f else (f + 1)%Z
           end in
  inject_Z n / p.

(** [x * 2^e] *)
Definition scale (x : Q) (e : Z) : Q :=
  match e with
  | Z0 => x
  | Zpos p => x * inject_Z (2 ^ Zpos p)
  | Zneg p => x / inject_Z (2 ^ Zpos p)
  end.

(** The integer nearest to [y], a tie going to the even one. *)
Definition nearest_even (y : Q) : Z :=
  let f := Qfloor y in
  match ((y - inject_Z f) ?= (1 # 2))%Q with
  | Lt => f
  | Gt => (f + 1)%Z
  | Eq => if Z.even f then f else (f + 1)%Z
  end.

(** The [e] with [2^e <= x < 2^(e+1)], for a positive [x]. *)
Definition exponent (x : Q) : Z :=
  let k := (Z.log2 (Qnum x) - Z.log2 (Zpos (Qden x)))%Z in
  if Qle_bool 1%Q (scale x (- k)%Z) then k else (k - 1)%Z.

(** The binary64 number nearest to a positive [x], a tie going to the even
    significand of 53 bits. *)
Definition float_pos (x : Q) : Q :=
  let e := (exponent x - 52)%Z in
  scale (inject_Z (nearest_even (scale x (- e)%Z))) e.

(** What a float operation returns whose exact result is [x]: [a / b] of
    two integers, the product of two floats.  The range of the exponent is
    not modelled; quotients of lengths and their products with 100 are far
    inside it. *)
Definition float (x : Q) : Q :=
  match Qnum x with
  | Z0 => 0
  | Zpos _ => float_pos x
  | Zneg _ => - float_pos (- x)
  end.

End Py.

(** ** Dictionaries

    A [dict] keeps its keys in the order of their first insertion;
    assigning to a key that is present replaces the value in place. *)

Module Dict.
Section WithValue.
Variable V : Type.

Definition t := list (str * V).

(** [d[k] = v] *)
Fixpoint set (d : t) (k : str) (v : V) : t :=
  match d with
  | [] => [(k, v)]
  | (k', v') :: d' =>
      if str_eqb k' k then (k', v) :: d' else (k', v') :: set d' k v
  end.

(** [d.get(k)] *)
Fixpoint get (d : t) (k : str) : option V :=
  match d with
  | [] => None
  | (k', v') :: d' => if str_eqb k' k then Some v' else get d' k
  end.

Definition keys (d : t) : list str := map fst d.
Definition values (d : t) : list V := map snd d.
End WithValue.
End Dict.

(** ** [content_scorer.py] *)

Module ContentScorer.
Local Open Scope Q_scope.

(** The report dictionary; a key that a variant leaves out is [None]. *)
Record ScoreReport := {
  overall_score : Q;
  dimension_scores : Dict.t Q;
  grade : str;
  character_count : option nat;
  strengths : option (list str);
  improvements : option (list str);
  timestamp : str
}.

Section WithUnicode.
Variable U : Unicode.

Let s_ := isspace U.
Let d_ := isdecimal U.
Let w_ := Re.word U.

(* r'\b\w+\b' *)
Definition re_words : Re.pattern := [Re.WordB w_; Re.plus w_; Re.WordB w_].
(* r'[.!?]+' *)
Definition re_sentence_end : Re.pattern := [Re.plus (Re.oneof (py ".!?"))].
(* r'^#\s+' and r'^##\s+' *)
Definition re_h1 : Re.pattern := [Re.Bol; Re.lit 35; Re.plus s_].
Definition re_h2 : Re.pattern := [Re.Bol; Re.lit 35; Re.lit 35; Re.plus s_].
(* r'^\s*[-*+]\s+' *)
Definition re_list_item : Re.pattern :=
  [Re.Bol; Re.star s_; Re.One (Re.oneof (py "-*+")); Re.plus s_].
(* r'\d+%' and r'\d+ percent'; their alternation is r'\d+%|\d+ percent' *)
Definition re_percent : Re.pattern := [Re.plus d_; Re.lit 37].
Definition re_percent_word : Re.pattern := Re.plus d_ :: Re.lits (py " percent").
(* r'\d+\.' *)
Definition re_numbered : Re.pattern := [Re.plus d_; Re.lit 46].
(* r'\b[A-Z]{4,}\b' *)
Definition re_caps : Re.pattern :=
  [Re.WordB w_; Re.Rep false (Re.range 65 90) 4 None true; Re.WordB w_].
(* "[" u"\U0001F600-\U0001F64F" u"\U0001F300-\U0001F5FF" "]+" *)
Definition emoji_pattern : Re.pattern :=
  [Re.plus (fun c => Re.range 0x1F600 0x1F64F c || Re.range 0x1F300 0x1F5FF c)].

(** [any(word in text for word in words)] *)
Definition any_in (words : list str) (text : str) : bool :=
  existsb (fun word => Str.contains word text) words.

Definition _score_engagement (content : str) : Q :=
  let score := 5.0 in
  let score := if Str.contains (py "?") content then score + 1.0 else score in
  let story_words := map py ["story"; "experience"; "learned"; "discovered"; "realized"]%string in
  let score := if any_in story_words (lower U content) then score + 1.0 else score in
  let score := if Str.contains (py "example") (lower U content)
                  || Str.contains (py "for instance") (lower U content)
               then score + 0.5 else score in
  let score := if Re.search re_percent content || Re.search re_percent_word content
               then score + 1.0 else score in
  let emotion_words := map py ["amazing"; "incredible"; "excited"; "surprised"; "frustrated"; "happy"]%string in
  let score := if any_in emotion_words (lower U content) then score + 0.5 else score in
  Py.min 10.0 score.

Definition _score_structure (content : str) : Q :=
  let score := 5.0 in
  let h2_count := length (Re.findall re_h2 content) in
  let score := if (3 <=? h2_count)%nat then score + 2.0
               else if (2 <=? h2_count)%nat then score + 1.0
               else score in
  let score := if Re.search re_list_item content then score + 1.0 else score in
  let paragraphs := Str.split content [NL; NL] in
  let score := if (5 <=? length paragraphs)%nat then score + 1.0 else score in
  let score :=
    if (500 <? length content)%nat then
      let score :=
        if any_in (map py ["introduction"; "in this"; "today"]%string)
                  (lower U (Str.prefix 200 content))
        then score + 0.5 else score in
      let score :=
        if any_in (map py ["conclusion"; "in summary"; "to wrap up"]%string)
                  (lower U (Str.suffix 200 content))
        then score + 0.5 else score in
      score
    else score in
  Py.min 10.0 score.

(** [[s.strip() for s in sentences if s.strip()]] *)
Definition stripped_sentences (content : str) : list str :=
  map (Str.strip s_)
      (filter (fun s => negb (str_eqb (Str.strip s_ s) []))
              (Re.split re_sentence_end content)).

Definition _score_clarity (content : str) : Q :=
  let score := 7.0 in
  let sentences := stripped_sentences content in
  let words := Re.findall re_words content in
  let score :=
    match sentences with
    | [] => score
    | _ :: _ =>
        let avg_sentence_length := Py.of_nat (length words) / Py.of_nat (length sentences) in
        let score := if Py.gtb avg_sentence_length 25 then score - 2.0
                     else if Py.gtb avg_sentence_length 20 then score - 1.0
                     else score in
        let score := if Py.ltb avg_sentence_length 15 then score + 1.0 else score in
        score
    end in
  let transitions := map py ["however"; "therefore"; "moreover"; "furthermore"; "additionally"; "consequently"]%string in
  let score := if any_in transitions (lower U content) then score + 1.0 else score in
  Py.min 10.0 (Py.max 0.0 score).

Definition _score_actionability (content : str) : Q :=
  let score := 5.0 in
  let action_words := map py ["learn"; "discover"; "implement"; "apply"; "use"; "try"; "start"; "begin"]%string in
  let action_count :=
    length (filter (fun word => Str.contains word (lower U content)) action_words) in
  let score := score + Py.min 2.0 (Py.of_nat action_count * 0.5) in
  let score := if Str.contains (py "step") (lower U content) || Re.search re_numbered content
               then score + 1.5 else score in
  let score := if Str.contains (py "example") (lower U content)
                  || Str.contains (py "here's how") (lower U content)
               then score + 1.0 else score in
  let cta_words := map py ["try"; "start"; "download"; "sign up"; "learn more"; "get started"]%string in
  let score := if any_in cta_words (lower U content) then score + 0.5 else score in
  Py.min 10.0 score.

Definition _score_professionalism (content : str) : Q :=
  let score := 8.0 in
  let exclamation_count := Str.count content (py "!") in
  let score := if (5 <? exclamation_count)%nat then score - 2.0
               else if (3 <? exclamation_count)%nat then score - 1.0
               else score in
  let caps_words := Re.findall re_caps content in
  let score := if (3 <? length caps_words)%nat then score - 1.0 else score in
  let score := if Re.search re_h1 content then score + 1.0 else score in
  Py.min 10.0 (Py.max 0.0 score).

Definition _score_hook (content : str) : Q :=
  let score := 5.0 in
  let first_line := match content with
                    | [] => []
                    | _ :: _ => hd [] (Str.split content [NL])
                    end in
  let score := if Str.endswith_char 63 (Str.strip s_ first_line) then score + 2.0 else score in
  let score := if Re.search re_percent first_line then score + 2.0 else score in
  let score := if any_in (map py ["never"; "always"; "secret"; "truth"]%string) (lower U first_line)
               then score + 1.0 else score in
  let score := if (length first_line <? 100)%nat then score + 1.0 else score in
  Py.min 10.0 score.

Definition _score_linkedin_engagement (content : str) : Q :=
  let score := 5.0 in
  let line_breaks := Str.count content [NL; NL] in
  let score := if (3 <=? line_breaks)%nat then score + 1.5 else score in
  let score := if Str.contains (py "?") content then score + 1.0 else score in
  let score := if any_in (map py ["you"; "your"; "we"; "our"]%string) (lower U content)
               then score + 1.0 else score in
  let score := if Str.contains (py "#") content then score + 0.5 else score in
  let score := if any_in (map py ["what do you think"; "share your"; "comment below"]%string)
                         (lower U content)
               then score + 1.0 else score in
  Py.min 10.0 score.

Definition _score_cta (content : str) : Q :=
  let score := 5.0 in
  let cta_phrases := map py ["comment"; "share"; "follow"; "connect"; "reach out";
                             "let me know"; "what do you think"; "join"; "learn more"]%string in
  let cta_count :=
    length (filter (fun phrase => Str.contains phrase (lower U content)) cta_phrases) in
  let score := score + Py.min 3.0 (Py.of_nat cta_count * 1.5) in
  let last_section := lower U (Str.suffix 200 content) in
  let score := if any_in cta_phrases last_section then score + 2.0 else score in
  Py.min 10.0 score.

Definition _score_linkedin_formatting (content : str) : Q :=
  let score := 5.0 in
  let score := if Str.contains [NL; NL] content then score + 2.0 else score in
  let emoji_count := length (Re.findall emoji_pattern content) in
  let score := if ((1 <=? emoji_count) && (emoji_count <=? 5))%nat then score + 1.5
               else if (10 <? emoji_count)%nat then score - 1.0
               else score in
  let char_count := length content in
  let score := if ((500 <=? char_count) && (char_count <=? 2000))%nat then score + 1.5
               else if (3000 <? char_count)%nat then score - 1.0
               else score in
  Py.min 10.0 (Py.max 0.0 score).

Definition _get_grade (score : Q) : str :=
  if Py.geb score 9.0 then py "A+"
  else if Py.geb score 8.5 then py "A"
  else if Py.geb score 8.0 then py "A-"
  else if Py.geb score 7.5 then py "B+"
  else if Py.geb score 7.0 then py "B"
  else if Py.geb score 6.5 then py "B-"
  else if Py.geb score 6.0 then py "C+"
  else if Py.geb score 5.5 then py "C"
  else py "C-".

(** [xs or [fallback]] *)
Definition or_default (xs : list str) (fallback : str) : list str :=
  match xs with
  | [] => [fallback]
  | _ :: _ => xs
  end.

Definition _identify_strengths (scores : Dict.t Q) : list str :=
  let strengths :=
    flat_map (fun item : str * Q =>
                let (dimension, score) := item in
                if Py.geb score 8.0
                then [title U (Str.replace_char 95 32 dimension)]
                else [])
             scores in
  or_default strengths (py "Good baseline quality").

Definition _identify_improvements (scores : Dict.t Q) : list str :=
  let improvements :=
    flat_map (fun item : str * Q =>
                let (dimension, score) := item in
                if Py.ltb score 6.0
                then [py "Improve " ++ Str.replace_char 95 32 dimension]
                else [])
             scores in
  or_default improvements (py "Minor refinements only").

Definition _score_blog_content (now : str) (content : str) : ScoreReport :=
  let scores := [
    (py "engagement", _score_engagement content);
    (py "structure", _score_structure content);
    (py "clarity", _score_clarity content);
    (py "actionability", _score_actionability content);
    (py "professionalism", _score_professionalism content)
  ] in
  let overall := Py.sum (Dict.values scores) / Py.of_nat (length scores) in
  {| overall_score := Py.round overall 1;
     dimension_scores := scores;
     grade := _get_grade overall;
     character_count := None;
     strengths := Some (_identify_strengths scores);
     improvements := Some (_identify_improvements scores);
     timestamp := now |}.

Definition _score_linkedin_content (now : str) (content : str) : ScoreReport :=
  let scores := [
    (py "hook_strength", _score_hook content);
    (py "engagement_potential", _score_linkedin_engagement content);
    (py "professionalism", _score_professionalism content);
    (py "call_to_action", _score_cta content);
    (py "formatting", _score_linkedin_formatting content)
  ] in
  let overall := Py.sum (Dict.values scores) / Py.of_nat (length scores) in
  {| overall_score := Py.round overall 1;
     dimension_scores := scores;
     grade := _get_grade overall;
     character_count := Some (length content);
     strengths := Some (_identify_strengths scores);
     improvements := Some (_identify_improvements scores);
     timestamp := now |}.

Definition _score_general_content (now : str) (content : str) : ScoreReport :=
  let scores := [
    (py "clarity", _score_clarity content);
    (py "engagement", _score_engagement content);
    (py "professionalism", _score_professionalism content)
  ] in
  let overall := Py.sum (Dict.values scores) / Py.of_nat (length scores) in
  {| overall_score := Py.round overall 1;
     dimension_scores := scores;
     grade := _get_grade overall;
     character_count := None;
     strengths := None;
     improvements := None;
     timestamp := now |}.

(** [now] is what [datetime.now().isoformat()] returns during the call. *)
Definition score_content (now : str) (content : str) (content_type : str) : ScoreReport :=
  if str_eqb content_type (py "blog") then _score_blog_content now content
  else if str_eqb content_type (py "linkedin") then _score_linkedin_content now content
  else _score_general_content now content.

End WithUnicode.
End ContentScorer.

(** ** [seo_optimizer.py] *)

Module SEOOptimizer.
Local Open Scope Q_scope.

(** The attributes [__init__] gives an instance. *)
Record Self := {
  ideal_title_length : nat * nat;
  ideal_meta_desc_length : nat * nat;
  ideal_keyword_density : Q * Q
}.

Definition __init__ : Self := {|
  ideal_title_length := (50, 60)%nat;
  ideal_meta_desc_length := (150, 160)%nat;
  ideal_keyword_density := (1.0, 2.5)
|}.

Record KeywordStat := {
  count : nat;
  density : Q;
  in_first_paragraph : bool;
  in_headings : bool;
  status : str
}.

Record Readability := {
  sentence_count : nat;
  avg_sentence_length : Q;
  readability_level : str;
  paragraph_count : nat
}.

Record Structure := {
  h1_count : nat;
  h2_count : nat;
  h3_count : nat;
  has_lists : bool;
  link_count : nat;
  has_proper_hierarchy : bool
}.

(** The [analysis] dictionary before its ["seo_score"] key is set. *)
Record Analysis := {
  word_count : nat;
  keyword_analysis : Dict.t KeywordStat;
  readability : Readability;
  structure : Structure;
  recommendations : list str
}.

(** The dictionary [analyze_content] returns. *)
Record SEOReport := {
  analysis : Analysis;
  seo_score : Z
}.

Section WithUnicode.
Variable U : Unicode.

Let s_ := isspace U.
Let w_ := Re.word U.

(* r'\b\w+\b' *)
Definition re_words : Re.pattern := [Re.WordB w_; Re.plus w_; Re.WordB w_].
(* r'^#{1,6}\s+(.+)$' *)
Definition re_heading : Re.pattern :=
  [Re.Bol; Re.Rep false (N.eqb 35) 1 (Some 6%nat) true; Re.plus s_;
   Re.group_plus Re.dot; Re.Eol].
(* r'[.!?]+' *)
Definition re_sentence_end : Re.pattern := [Re.plus (Re.oneof (py ".!?"))].
(* r'^#\s+', r'^##\s+' and r'^###\s+' *)
Definition re_h1 : Re.pattern := [Re.Bol; Re.lit 35; Re.plus s_].
Definition re_h2 : Re.pattern := [Re.Bol; Re.lit 35; Re.lit 35; Re.plus s_].
Definition re_h3 : Re.pattern := [Re.Bol; Re.lit 35; Re.lit 35; Re.lit 35; Re.plus s_].
(* r'^\s*[-*+]\s+' *)
Definition re_list_item : Re.pattern :=
  [Re.Bol; Re.star s_; Re.One (Re.oneof (py "-*+")); Re.plus s_].
(* r'\[.+?\]\(.+?\)' *)
Definition re_link : Re.pattern :=
  [Re.lit 91; Re.plus_lazy Re.dot; Re.lit 93; Re.lit 40; Re.plus_lazy Re.dot; Re.lit 41].

Definition _count_words (content : str) : nat :=
  let words := Re.findall re_words (lower U content) in
  length words.

Definition _check_keyword_in_headings (content : str) (keyword : str) : bool :=
  let headings := Re.findall_group re_heading content in
  existsb (fun heading => Str.contains keyword (lower U heading)) headings.

Definition _assess_keyword_usage (self : Self) (density : Q) (count : nat) : str :=
  if (count =? 0)%nat then py "missing"
  else if Py.ltb density (fst (ideal_keyword_density self)) then py "too_low"
  else if Py.gtb density (snd (ideal_keyword_density self)) then py "too_high"
  else py "optimal".

(** The density of the loop of [_analyze_keywords], before [round]: the
    float quotient of the two integers, and the float product of the
    quotient with 100. *)
Definition keyword_density (count total_words : nat) : Q :=
  if (0 <? total_words)%nat
  then Py.float (Py.float (Py.of_nat count / Py.of_nat total_words) * 100)
  else 0.

(** The entry the loop of [_analyze_keywords] stores for one keyword. *)
Definition keyword_entry (self : Self) (content content_lower : str)
           (total_words : nat) (keyword : str) : KeywordStat :=
  let keyword_lower := lower U keyword in
  let count := Str.count content_lower keyword_lower in
  let density := keyword_density count total_words in
  let in_first_paragraph := Str.contains keyword_lower (Str.prefix 500 content_lower) in
  let in_headings := _check_keyword_in_headings content keyword_lower in
  {| count := count;
     density := Py.round density 2;
     in_first_paragraph := in_first_paragraph;
     in_headings := in_headings;
     status := _assess_keyword_usage self density count |}.

Definition _analyze_keywords (self : Self) (content : str) (keywords : list str)
  : Dict.t KeywordStat :=
  let content_lower := lower U content in
  let words := Re.findall re_words content_lower in
  let total_words := length words in
  fold_left
    (fun keyword_data keyword =>
       Dict.set keyword_data keyword
                (keyword_entry self content content_lower total_words keyword))
    keywords [].

(** [[s.strip() for s in sentences if s.strip()]] *)
Definition stripped_sentences (content : str) : list str :=
  map (Str.strip s_)
      (filter (fun s => negb (str_eqb (Str.strip s_ s) []))
              (Re.split re_sentence_end content)).

Definition _analyze_readability (content : str) : Readability :=
  let sentences := stripped_sentences content in
  let words := Re.findall re_words content in
  let avg_sentence_length :=
    match sentences with
    | [] => 0
    | _ :: _ => Py.float (Py.of_nat (length words) / Py.of_nat (length sentences))
    end in
  let readability_level :=
    if Py.ltb avg_sentence_length 15 then py "easy"
    else if Py.ltb avg_sentence_length 20 then py "moderate"
    else py "difficult" in
  {| sentence_count := length sentences;
     avg_sentence_length := Py.round avg_sentence_length 1;
     readability_level := readability_level;
     paragraph_count := length (Str.split content [NL; NL]) |}.

Definition _analyze_structure (content : str) : Structure :=
  let h1_count := length (Re.findall re_h1 content) in
  let h2_count := length (Re.findall re_h2 content) in
  let h3_count := length (Re.findall re_h3 content) in
  let has_lists := Re.search re_list_item content in
  let link_count := length (Re.findall re_link content) in
  {| h1_count := h1_count;
     h2_count := h2_count;
     h3_count := h3_count;
     has_lists := has_lists;
     link_count := link_count;
     has_proper_hierarchy := ((h1_count =? 1) && (2 <=? h2_count))%nat |}.

(** One turn of the keyword loop of [_generate_recommendations]. *)
Definition recommend_keyword (recommendations : list str) (item : str * KeywordStat)
  : list str :=
  let (keyword, data) := item in
  let recommendations :=
    if str_eqb (status data) (py "missing")
    then recommendations ++ [py "Keyword '" ++ keyword ++ py "' is not present. Add it naturally."]
    else if str_eqb (status data) (py "too_low")
    then recommendations ++ [py "Keyword '" ++ keyword ++ py "' density is too low. Use it more frequently."]
    else if str_eqb (status data) (py "too_high")
    then recommendations ++ [py "Keyword '" ++ keyword ++ py "' density is too high. Reduce usage to avoid keyword stuffing."]
    else recommendations in
  let recommendations :=
    if negb (in_first_paragraph data)
    then recommendations ++ [py "Include '" ++ keyword ++ py "' in the first paragraph."]
    else recommendations in
  let recommendations :=
    if negb (in_headings data)
    then recommendations ++ [py "Use '" ++ keyword ++ py "' in at least one heading."]
    else recommendations in
  recommendations.

Definition _generate_recommendations (analysis : Analysis) (keywords : list str)
  : list str :=
  let recommendations := [] in
  let word_count := word_count analysis in
  let recommendations :=
    if (word_count <? 800)%nat
    then recommendations ++ [py "Content is too short. Aim for at least 800 words for better SEO."]
    else recommendations in
  let recommendations :=
    fold_left recommend_keyword (keyword_analysis analysis) recommendations in
  let structure := structure analysis in
  let recommendations :=
    if (h1_count structure =? 0)%nat
    then recommendations ++ [py "Add an H1 heading (title)."]
    else if (1 <? h1_count structure)%nat
    then recommendations ++ [py "Use only one H1 heading."]
    else recommendations in
  let recommendations :=
    if (h2_count structure <? 2)%nat
    then recommendations ++ [py "Add more H2 subheadings to improve structure."]
    else recommendations in
  let recommendations :=
    if negb (has_lists structure)
    then recommendations ++ [py "Consider adding bullet points or lists for better readability."]
    else recommendations in
  let recommendations :=
    if (link_count structure <? 2)%nat
    then recommendations ++ [py "Add internal and external links to improve SEO."]
    else recommendations in
  let readability := readability analysis in
  let recommendations :=
    if str_eqb (readability_level readability) (py "difficult")
    then recommendations ++ [py "Simplify sentence structure for better readability."]
    else recommendations in
  recommendations.

(** One turn of the keyword loop of [_calculate_seo_score]. *)
Definition deduct_keyword (score : Z) (keyword_data : KeywordStat) : Z :=
  let score :=
    if str_eqb (status keyword_data) (py "missing") then (score - 20)%Z
    else if negb (str_eqb (status keyword_data) (py "optimal")) then (score - 10)%Z
    else score in
  let score :=
    if negb (in_first_paragraph keyword_data) then (score - 5)%Z else score in
  score.

Definition _calculate_seo_score (analysis : Analysis) : Z :=
  let score := 100%Z in
  let word_count := word_count analysis in
  let score := if (word_count <? 500)%nat then (score - 30)%Z
               else if (word_count <? 800)%nat then (score - 15)%Z
               else score in
  let score := fold_left deduct_keyword (Dict.values (keyword_analysis analysis)) score in
  let structure := structure analysis in
  let score := if negb (has_proper_hierarchy structure) then (score - 10)%Z else score in
  let score := if (link_count structure <? 2)%nat then (score - 5)%Z else score in
  Z.max 0 (Z.min 100 score).

Definition analyze_content (self : Self) (content : str) (keywords : list str)
  : SEOReport :=
  let word_count := _count_words content in
  let analysis := {|
    word_count := word_count;
    keyword_analysis := _analyze_keywords self content keywords;
    readability := _analyze_readability content;
    structure := _analyze_structure content;
    recommendations := []
  |} in
  let analysis := {|
    word_count := SEOOptimizer.word_count analysis;
    keyword_analysis := keyword_analysis analysis;
    readability := readability analysis;
    structure := structure analysis;
    recommendations := _generate_recommendations analysis keywords
  |} in
  {| analysis := analysis; seo_score := _calculate_seo_score analysis |}.

End WithUnicode.

(** The module's singleton, [seo_optimizer = SEOOptimizer()]. *)
Definition seo_optimizer : Self := __init__.

End SEOOptimizer.

(** ** The scores and the density in binary64

    The arithmetic on the floats themselves, for the comparison with the
    rational model: a score or a sum of scores is [h] halves, the mean
    divides by the number of dimensions, [_get_grade] compares with the
    bounds; the keyword density is a quotient times 100. *)

Module Binary64.
Import PrimFloat.
Local Open Scope float_scope.

(** A small natural number as a float; the doublings are exact. *)
Fixpoint of_pos (p : positive) : float :=
  match p with
  | xH => 1
  | xO p' => 2 * of_pos p'
  | xI p' => 2 * of_pos p' + 1
  end.

Definition of_Z (z : Z) : float :=
  match z with
  | Z0 => 0
  | Zpos p => of_pos p
  | Zneg p => - of_pos p
  end.

Definition of_halves (h : Z) : float := of_Z h * 0.5.

Definition mean (h : Z) (dimensions : Z) : float := of_halves h / of_Z dimensions.

Definition _get_grade (score : float) : str :=
  if 9.0 <=? score then py "A+"
  else if 8.5 <=? score then py "A"
  else if 8.0 <=? score then py "A-"
  else if 7.5 <=? score then py "B+"
  else if 7.0 <=? score then py "B"
  else if 6.5 <=? score then py "B-"
  else if 6.0 <=? score then py "C+"
  else if 5.5 <=? score then py "C"
  else py "C-".

(** Adding a score of [q] halves to a sum of [p] halves is exact. *)
Definition sum_exact (p q : Z) : bool :=
  of_halves p + of_halves q =? of_halves (p + q).

(** The grade of the binary64 mean is the grade of the rational mean. *)
Definition same_grade (dimensions : Z) (h : Z) : bool :=
  str_eqb (_get_grade (mean h dimensions))
          (ContentScorer._get_grade (Qmake h (Z.to_pos (2 * dimensions)))).

(** The float with the value of [q], for a [q] that is a binary64 number
    written with a power of two as denominator: the division is exact. *)
Definition of_Q (q : Q) : float := of_Z (Qnum q) / of_Z (Zpos (Qden q)).

(** [count / total_words * 100] on the floats *)
Definition keyword_density (count total_words : Z) : float :=
  of_Z count / of_Z total_words * 100.

(** The density of the model is the density on the floats. *)
Definition same_density (total_words count : Z) : bool :=
  keyword_density count total_words
  =? of_Q (SEOOptimizer.keyword_density (Z.to_nat count) (Z.to_nat total_words)).

End Binary64.

(** ** More of Python: values, lists, strings *)

(** An object of type [Any], as far as the repository stores one in a
    dictionary: [None], a string, a boolean, an integer, a list, a
    dictionary with string keys. *)
#[local] Unset Elimination Schemes.
Inductive value :=
| VNone
| VStr (s : str)
| VBool (b : bool)
| VInt (z : Z)
| VList (l : list value)
| VDict (d : list (str * value)).
#[local] Set Elimination Schemes.

(** [v == s] for what [d.get(k)] returned and a string literal [s] *)
Definition is_str (v : option value) (s : str) : bool :=
  match v with
  | Some (VStr t) => str_eqb t s
  | _ => false
  end.

Module PyList.

(** [l[:n]] *)
Definition upto (A : Type) (n : Z) (l : list A) : list A :=
  if (0 <=? n)%Z then firstn (Z.to_nat n) l
  else firstn (length l - Z.to_nat (- n)) l.

(** [l[-n:]]; [-0] is [0], so [l[-0:]] is all of [l] *)
Definition last (A : Type) (n : Z) (l : list A) : list A :=
  if (0 <? n)%Z then skipn (length l - Z.to_nat n) l
  else skipn (Z.to_nat (- n)) l.

Section Sort.
Variable A : Type.
Variable key : A -> nat.

Fixpoint insert_desc (x : A) (l : list A) : list A :=
  match l with
  | [] => [x]
  | y :: l' => if key x <? key y then y :: insert_desc x l' else x :: l
  end.

(** [l.sort(reverse=True, key=key)]: the stable sort by decreasing key;
    elements with equal keys keep their order. *)
Definition sort_desc (l : list A) : list A := fold_right insert_desc [] l.

End Sort.

End PyList.

Module Text.

(** The scan behind [s.split()]; [cur] is the word being read, last
    character first. *)
Fixpoint split_ws (isspace : char -> bool) (cur : str) (s : str) : list str :=
  match s with
  | [] => match cur with
          | [] => []
          | _ :: _ => [rev cur]
          end
  | c :: s' =>
      if isspace c
      then match cur with
           | [] => split_ws isspace [] s'
           | _ :: _ => rev cur :: split_ws isspace [] s'
           end
      else split_ws isspace (c :: cur) s'
  end.

(** [s.split()]: the maximal runs of characters that are not white space *)
Definition split_whitespace (U : Unicode) (s : str) : list str :=
  split_ws (isspace U) [] s.

End Text.

(** ** [ui/app.py]: the keyword fields *)

Module App.

(** [[k.strip() for k in text.split(",") if k.strip()]], what the
    sidebar and the blog tab make of a comma-separated keyword field *)
Definition parse_keywords (U : Unicode) (text : str) : list str :=
  map (Str.strip (isspace U))
      (filter (fun k => negb (str_eqb (Str.strip (isspace U) k) []))
              (Str.split text (py ","))).

(** The SEO analysis of the blog tab: run only [if keywords:] *)
Definition blog_tab_seo (U : Unicode) (content blog_keywords : str)
  : option SEOOptimizer.SEOReport :=
  let keywords := parse_keywords U blog_keywords in
  match keywords with
  | [] => None
  | _ :: _ =>
      Some (SEOOptimizer.analyze_content U SEOOptimizer.seo_optimizer content keywords)
  end.

End App.

(** ** [core/vector_store.py] *)

Module VectorStore.

(** An [entry] dictionary *)
Record Entry := {
  id : str;
  document : str;
  metadata : Dict.t value
}.

Record Self := {
  documents : list Entry;
  brand_voice_docs : list Entry;
  research_docs : list Entry
}.

Definition __init__ : Self := {|
  documents := [];
  brand_voice_docs := [];
  research_docs := []
|}.

(** One turn of the loop of [add_documents]. *)
Definition add_entry (self : Self) (item : str * Dict.t value * str) : Self :=
  let '(doc, meta, doc_id) := item in
  let entry := {| id := doc_id; document := doc; metadata := meta |} in
  let self := {| documents := documents self ++ [entry];
                 brand_voice_docs := brand_voice_docs self;
                 research_docs := research_docs self |} in
  if is_str (Dict.get meta (py "type")) (py "brand_voice")
  then {| documents := documents self;
          brand_voice_docs := brand_voice_docs self ++ [entry];
          research_docs := research_docs self |}
  else if is_str (Dict.get meta (py "type")) (py "research")
  then {| documents := documents self;
          brand_voice_docs := brand_voice_docs self;
          research_docs := research_docs self ++ [entry] |}
  else self.

Definition add_documents (self : Self) (documents : list str)
           (metadatas : list (Dict.t value)) (ids : list str) : Self :=
  fold_left add_entry (combine (combine documents metadatas) ids) self.

(** The [results] dictionary of [search] *)
Module Results.
Record t := {
  documents : list (list str);
  metadatas : list (list (Dict.t value));
  ids : list (list str)
}.
End Results.

(** [sum(1 for word in query_lower.split() if word in doc_lower)] *)
Definition score (U : Unicode) (query_lower : str) (doc : str) : nat :=
  let doc_lower := lower U doc in
  length (filter (fun word => Str.contains word doc_lower)
                 (Text.split_whitespace U query_lower)).

(** [filtered_docs] in [search] *)
Definition filtered_docs (self : Self) (filter_dict : option (Dict.t value))
  : list Entry :=
  match filter_dict with
  | Some ((_ :: _) as filter_dict) =>
      let doc_type := Dict.get filter_dict (py "type") in
      if is_str doc_type (py "brand_voice") then brand_voice_docs self
      else if is_str doc_type (py "research") then research_docs self
      else documents self
  | _ => documents self
  end.

(** [scored_docs] in [search], before it is sorted *)
Definition scored_docs (U : Unicode) (query : str) (filtered_docs : list Entry)
  : list (nat * Entry) :=
  let query_lower := lower U query in
  flat_map (fun entry =>
              let score := score U query_lower (document entry) in
              if (0 <? score)%nat then [(score, entry)] else [])
           filtered_docs.

(** [top_docs] in [search] *)
Definition top_docs (U : Unicode) (self : Self) (query : str) (n_results : Z)
           (filter_dict : option (Dict.t value)) : list (nat * Entry) :=
  let filtered_docs := filtered_docs self filter_dict in
  let scored_docs := scored_docs U query filtered_docs in
  let scored_docs := PyList.sort_desc fst scored_docs in
  PyList.upto n_results scored_docs.

Definition search (U : Unicode) (self : Self) (query : str) (n_results : Z)
           (filter_dict : option (Dict.t value)) : Results.t :=
  let top_docs := top_docs U self query n_results filter_dict in
  {| Results.documents := [map (fun item => document (snd item)) top_docs];
     Results.metadatas := [map (fun item => metadata (snd item)) top_docs];
     Results.ids := [map (fun item => id (snd item)) top_docs] |}.

Definition get_brand_voice_examples (self : Self) (n_examples : Z) : list str :=
  map document (PyList.upto n_examples (brand_voice_docs self)).

Definition add_brand_voice_example (self : Self) (content doc_id : str) : Self :=
  add_documents self [content] [[(py "type", VStr (py "brand_voice"))]] [doc_id].

Definition store_research (self : Self) (topic content source doc_id : str) : Self :=
  add_documents self [content]
                [[(py "type", VStr (py "research"));
                  (py "topic", VStr topic);
                  (py "source", VStr source)]]
                [doc_id].

Definition retrieve_research (U : Unicode) (self : Self) (topic : str) (n_results : Z)
  : Results.t :=
  search U self topic n_results (Some [(py "type", VStr (py "research"))]).

End VectorStore.

(** ** [agents/router_agent.py]: routing without the model *)

Module RouterAgent.

(** The routing dictionary *)
Record Routing := {
  primary_agent : str;
  secondary_agents : list str;
  requires_research : bool;
  content_type : str;
  reasoning : str
}.

(** [any(word in query_lower for word in words)] *)
Definition any_word (words : list str) (query_lower : str) : bool :=
  existsb (fun word => Str.contains word query_lower) words.

(** The [except] branch of [route_query]: the routing by keywords, taken
    when the answer of the model is not the JSON asked for. *)
Definition route_query_fallback (U : Unicode) (user_query : str) : Routing :=
  let query_lower := lower U user_query in
  if any_word (map py ["blog"; "article"; "write"; "post"]%string) query_lower then
    if Str.contains (py "linkedin") query_lower then
      {| primary_agent := py "linkedin_agent";
         secondary_agents := [];
         requires_research := Str.contains (py "research") query_lower;
         content_type := py "linkedin";
         reasoning := py "Detected LinkedIn content request" |}
    else
      {| primary_agent := py "blog_agent";
         secondary_agents := [];
         requires_research := true;
         content_type := py "blog";
         reasoning := py "Detected blog content request" |}
  else if any_word (map py ["image"; "visual"; "graphic"; "picture"]%string) query_lower then
    {| primary_agent := py "image_agent";
       secondary_agents := [];
       requires_research := false;
       content_type := py "image";
       reasoning := py "Detected image generation request" |}
  else if any_word (map py ["research"; "find"; "search"; "analyze"]%string) query_lower then
    {| primary_agent := py "research_agent";
       secondary_agents := [];
       requires_research := true;
       content_type := py "research";
       reasoning := py "Detected research request" |}
  else
    {| primary_agent := py "blog_agent";
       secondary_agents := [];
       requires_research := true;
       content_type := py "general";
       reasoning := py "Default routing" |}.

End RouterAgent.

(** ** [core/orchestrator.py]: the summary of a result *)

Module ContentOrchestrator.

(** [key in d] for a dictionary [d] *)
Definition has_key (V : Type) (d : Dict.t V) (key : str) : bool :=
  match Dict.get d key with
  | Some _ => true
  | None => false
  end.

(** [result] is the dictionary [_execute_workflow] builds: its values, the
    routing and the outputs, are dictionaries. *)
Definition _create_result_summary (V : Type) (result : Dict.t (Dict.t V)) : str :=
  let outputs := match Dict.get result (py "outputs") with
                 | Some outputs => outputs
                 | None => []
                 end in
  let summary_parts := [] in
  let summary_parts :=
    if has_key outputs (py "research")
    then summary_parts ++ [py "Completed research on the topic"] else summary_parts in
  let summary_parts :=
    if has_key outputs (py "blog")
    then summary_parts ++ [py "Generated blog post"] else summary_parts in
  let summary_parts :=
    if has_key outputs (py "linkedin")
    then summary_parts ++ [py "Created LinkedIn post"] else summary_parts in
  let summary_parts :=
    if has_key outputs (py "image")
    then summary_parts ++ [py "Generated image"] else summary_parts in
  match summary_parts with
  | [] => py "Processed request"
  | _ :: _ => Str.join (py " | ") summary_parts
  end.

End ContentOrchestrator.

(** ** [core/brand_voice.py] *)

Module BrandVoice.

Record Self := {
  brand_guidelines : Dict.t str;
  examples : list str
}.

Definition __init__ : Self := {| brand_guidelines := []; examples := [] |}.

Definition add_brand_guideline (self : Self) (category guideline : str) : Self :=
  {| brand_guidelines := Dict.set (brand_guidelines self) category guideline;
     examples := examples self |}.

(** [uuid] is [str(uuid.uuid4())]; the second component is the module's
    [vector_store]. *)
Definition add_example_content (uuid : str) (self : Self) (vector_store : VectorStore.Self)
           (content : str) : Self * VectorStore.Self :=
  let self := {| brand_guidelines := brand_guidelines self;
                 examples := examples self ++ [content] |} in
  let doc_id := py "brand_voice_" ++ uuid in
  (self, VectorStore.add_brand_voice_example vector_store content doc_id).

(** [str(i)] for a natural number *)
Definition str_of_nat (i : nat) : str := py (NilEmpty.string_of_uint (Nat.to_uint i)).

Definition get_brand_voice_prompt (self : Self) (vector_store : VectorStore.Self) : str :=
  let prompt_parts := [] in
  let prompt_parts :=
    match brand_guidelines self with
    | [] => prompt_parts
    | _ :: _ =>
        (prompt_parts ++ [py "## Brand Voice Guidelines:"])
        ++ map (fun item : str * str =>
                  let (category, guideline) := item in
                  py "- " ++ category ++ py ": " ++ guideline)
               (brand_guidelines self)
    end in
  let examples := VectorStore.get_brand_voice_examples vector_store 3 in
  let prompt_parts :=
    match examples with
    | [] => prompt_parts
    | _ :: _ =>
        (prompt_parts ++ [NL :: py "## Brand Voice Examples:"])
        ++ map (fun item : nat * str =>
                  let (i, example) := item in
                  NL :: py "Example " ++ str_of_nat i ++ py ":" ++ NL :: example)
               (combine (seq 1 (length examples)) examples)
    end in
  match prompt_parts with
  | [] => []
  | _ :: _ => Str.join [NL] prompt_parts
  end.

(** [uuids] are the ids drawn for the samples, one each. *)
Fixpoint train_from_content (uuids : list str) (self : Self)
         (vector_store : VectorStore.Self) (content_samples : list str)
  : Self * VectorStore.Self :=
  match content_samples, uuids with
  | content :: content_samples', uuid :: uuids' =>
      let (self, vector_store) := add_example_content uuid self vector_store content in
      train_from_content uuids' self vector_store content_samples'
  | _, _ => (self, vector_store)
  end.

(** [d.get(key, default)] *)
Definition get_or (d : Dict.t str) (key default : str) : str :=
  match Dict.get d key with
  | Some v => v
  | None => default
  end.

Definition get_tone_analysis (self : Self) : Dict.t str :=
  [(py "formality", get_or (brand_guidelines self) (py "formality") (py "balanced"));
   (py "emotion", get_or (brand_guidelines self) (py "emotion") (py "professional"));
   (py "voice", get_or (brand_guidelines self) (py "voice") (py "active"));
   (py "perspective", get_or (brand_guidelines self) (py "perspective") (py "second person"))].

End BrandVoice.

(** ** [core/memory.py]: the session data *)

Module ConversationMemory.

(** [self.session_data]; [now] is [datetime.now().isoformat()] *)
Definition fresh_session_data (now : str) : Dict.t value :=
  [(py "brand_voice", VNone);
   (py "current_project", VNone);
   (py "user_preferences", VDict []);
   (py "session_start", VStr now)].

Definition set_brand_voice (session_data : Dict.t value) (brand_voice : str)
  : Dict.t value :=
  Dict.set session_data (py "brand_voice") (VStr brand_voice).

(** [session_data.get(key, default)] *)
Definition get_or (session_data : Dict.t value) (key : str) (default : value) : value :=
  match Dict.get session_data key with
  | Some v => v
  | None => default
  end.

Definition get_brand_voice (session_data : Dict.t value) : value :=
  get_or session_data (py "brand_voice") (VStr []).

(** [None] where Python raises: [KeyError] without the key
    "user_preferences", [TypeError] or [AttributeError] when its value is
    not a dictionary. *)
Definition set_user_preference (session_data : Dict.t value) (key : str) (v : value)
  : option (Dict.t value) :=
  match Dict.get session_data (py "user_preferences") with
  | Some (VDict preferences) =>
      Some (Dict.set session_data (py "user_preferences")
                     (VDict (Dict.set preferences key v)))
  | _ => None
  end.

Definition get_user_preference (session_data : Dict.t value) (key : str) (default : value)
  : option value :=
  match Dict.get session_data (py "user_preferences") with
  | Some (VDict preferences) => Some (get_or preferences key default)
  | _ => None
  end.

Definition set_current_project (session_data : Dict.t value)
           (project_info : Dict.t value) : Dict.t value :=
  Dict.set session_data (py "current_project") (VDict project_info).

Definition get_current_project (session_data : Dict.t value) : value :=
  get_or session_data (py "current_project") (VDict []).

(** What [clear] leaves of the session data. *)
Definition clear (now : str) (session_data : Dict.t value) : Dict.t value :=
  fresh_session_data now.

(** A message of the history: [isinstance(msg, HumanMessage)] and
    [msg.content]. *)
Record Message := {
  is_human : bool;
  content : str
}.

(** [get_history_string], of the list [get_history()] returns *)
Definition get_history_string (history : list Message) (last_n : Z) : str :=
  let messages := PyList.last last_n history in
  let history_str :=
    map (fun msg =>
           let role := if is_human msg then py "User" else py "Assistant" in
           role ++ py ": " ++ content msg)
        messages in
  Str.join [NL] history_str.

End ConversationMemory.

(** ** Vocabulary of the properties *)

(** The keys of a dictionary with keys [ks] after [d[k] = v]. *)
Definition add_key (ks : list str) (k : str) : list str :=
  if existsb (str_eqb k) ks then ks else ks ++ [k].

(** The distinct elements of a list, each at its first occurrence. *)
Fixpoint first_occurrences (ks : list str) : list str :=
  match ks with
  | [] => []
  | k :: ks' => k :: filter (fun x => negb (str_eqb x k)) (first_occurrences ks')
  end.

Module Spec.
Local Open Scope Q_scope.

(** The dimension sets of the three variants. *)
Definition blog_keys : list str :=
  map py ["engagement"; "structure"; "clarity"; "actionability"; "professionalism"]%string.
Definition short_form_keys : list str :=
  map py ["hook_strength"; "engagement_potential"; "professionalism";
          "call_to_action"; "formatting"]%string.
Definition general_keys : list str :=
  map py ["clarity"; "engagement"; "professionalism"]%string.

(** A mapping has exactly the keys [ks]. *)
Definition has_exactly_keys (ks : list str) (d : Dict.t Q) : Prop :=
  NoDup (Dict.keys d) /\ forall k, In k ks <-> In k (Dict.keys d).

(** The dimension set a selector string stands for in [score_content]. *)
Definition dimension_set (content_type : str) : list str :=
  if str_eqb content_type (py "blog") then blog_keys
  else if str_eqb content_type (py "linkedin") then short_form_keys
  else general_keys.

Definition arithmetic_mean (xs : list Q) : Q :=
  fold_right Qplus 0 xs / inject_Z (Z.of_nat (length xs)).

(** The threshold table of the grades, inclusive lower bounds. *)
Definition grade_table : list (Q * str) :=
  [(9.0, py "A+"); (8.5, py "A"); (8.0, py "A-"); (7.5, py "B+"); (7.0, py "B");
   (6.5, py "B-"); (6.0, py "C+"); (5.5, py "C")].

Fixpoint lookup_grade (table : list (Q * str)) (score : Q) : str :=
  match table with
  | [] => py "C-"
  | (bound, letter) :: rest =>
      if Qle_bool bound score then letter else lookup_grade rest score
  end.

(** A score on the grid of the analyzers: a multiple of 0.5 in [0, 10]. *)
Definition on_grid (q : Q) : Prop :=
  exists h : Z, (0 <= h <= 20)%Z /\ q == h # 2.

Definition on_grid_b (q : Q) : bool :=
  let h := Qfloor (q * 2) in
  (0 <=? h)%Z && (h <=? 20)%Z && Qeq_bool q (h # 2).

(** Tenths and sixths: the means of five and of three grid scores. *)
Definition grade_stable (den : positive) (h : Z) : bool :=
  str_eqb (ContentScorer._get_grade (h # den))
          (ContentScorer._get_grade (Py.round (h # den) 1)).

Definition upto (n : nat) : list Z := map Z.of_nat (seq 0 (S n)).

(** The status rule with the thresholds 1.0 and 2.5. *)
Definition spec_status (count : nat) (density : Q) : str :=
  if (count =? 0)%nat then py "missing"
  else if Py.ltb density 1.0 then py "too_low"
  else if Py.gtb density 2.5 then py "too_high"
  else py "optimal".

(** missing < too_low, too_high < optimal *)
Definition status_rank (status : str) : nat :=
  if str_eqb status (py "missing") then 0%nat
  else if str_eqb status (py "optimal") then 2%nat
  else 1%nat.

(** What one entry of [keyword_analysis] takes off the score: the status
    penalty plus the first-paragraph penalty. *)
Definition keyword_penalty (data : SEOOptimizer.KeywordStat) : Z :=
  ((if str_eqb (SEOOptimizer.status data) (py "missing") then 20
    else if str_eqb (SEOOptimizer.status data) (py "optimal") then 0
    else 10)
   + (if SEOOptimizer.in_first_paragraph data then 0 else 5))%Z.

Definition word_count_penalty (word_count : nat) : Z :=
  if (word_count <? 500)%nat then 30%Z
  else if (word_count <? 800)%nat then 15%Z
  else 0%Z.

Definition structure_penalty (structure : SEOOptimizer.Structure) : Z :=
  ((if SEOOptimizer.has_proper_hierarchy structure then 0 else 10)
   + (if (SEOOptimizer.link_count structure <? 2)%nat then 5 else 0))%Z.

Definition total (xs : list Z) : Z := fold_right Z.add 0%Z xs.

Definition clamp (score : Z) : Z := Z.max 0 (Z.min 100 score).

(** The messages one entry of [keyword_analysis] adds. *)
Definition keyword_messages (keyword : str) (data : SEOOptimizer.KeywordStat)
  : list str :=
  SEOOptimizer.recommend_keyword [] (keyword, data).

(** The messages that come before and after the per-keyword ones. *)
Definition messages_before (word_count : nat) : list str :=
  if (word_count <? 800)%nat
  then [py "Content is too short. Aim for at least 800 words for better SEO."]
  else [].

Definition messages_after (structure : SEOOptimizer.Structure)
           (readability : SEOOptimizer.Readability) : list str :=
  (if (SEOOptimizer.h1_count structure =? 0)%nat then [py "Add an H1 heading (title)."]
   else if (1 <? SEOOptimizer.h1_count structure)%nat then [py "Use only one H1 heading."]
   else [])
  ++ (if (SEOOptimizer.h2_count structure <? 2)%nat
      then [py "Add more H2 subheadings to improve structure."] else [])
  ++ (if negb (SEOOptimizer.has_lists structure)
      then [py "Consider adding bullet points or lists for better readability."] else [])
  ++ (if (SEOOptimizer.link_count structure <? 2)%nat
      then [py "Add internal and external links to improve SEO."] else [])
  ++ (if str_eqb (SEOOptimizer.readability_level readability) (py "difficult")
      then [py "Simplify sentence structure for better readability."] else []).

(** A keyword put where the optimizer looks for it: in a heading and in
    the first paragraph, in front of the text. *)
Definition add_occurrences (keyword content : str) : str :=
  py "# " ++ keyword ++ [NL; NL] ++ keyword ++ py " " ++ content.

(** The example texts of the specification. *)
Definition text_title_ai : str :=
  py "# Title" ++ [NL; NL]
  ++ py "AI is transforming marketing. AI AI AI AI AI AI AI AI.".

Definition text_engaging : str :=
  py "Is it so?" ++ [NL; NL] ++ py "A #tag" ++ [NL; NL] ++ py "More"
  ++ [NL; NL] ++ py "comment below".

(** A text of 201 words in which the word "ab" occurs twice. *)
Definition text_201_words : str :=
  py "ab ab" ++ concat (repeat (py " x") 199).

(** The four status strings. *)
Definition statuses : list str :=
  map py ["missing"; "too_low"; "too_high"; "optimal"]%string.

(** A text that the optimizer has nothing to say about, for the keyword
    "seo": over 800 words in short sentences, one H1 and two H2 headings,
    a list, two links, and the keyword in a heading, in the first
    paragraph and at a density between 1 and 2.5 percent. *)
Definition text_without_issues : str :=
  py "# Seo guide" ++ [NL; NL] ++ py "## First seo" ++ [NL; NL]
  ++ py "## Second" ++ [NL; NL] ++ py "- item" ++ [NL; NL]
  ++ py "[a](b) and [c](d)." ++ [NL; NL]
  ++ concat (repeat (py "seo is good. ") 12)
  ++ concat (repeat (py "we like it. ") 280).

(** A multiple of 0.5 between [lo] and [hi] halves. *)
Definition within (lo hi : Z) (q : Q) : Prop :=
  exists h : Z, (lo <= h <= hi)%Z /\ q == h # 2.

Definition within_b (lo hi : Z) (q : Q) : bool :=
  let h := Qfloor (q * 2) in
  (lo <=? h)%Z && (h <=? hi)%Z && Qeq_bool q (h # 2).

(** The rounded mean of [h] halves over [n] dimensions lies in [lo, hi]. *)
Definition rounded_mean_within (den : positive) (lo hi : Q) (h : Z) : bool :=
  Qle_bool lo (Py.round (h # den) 1) && Qle_bool (Py.round (h # den) 1) hi.

(** The text up to its first line break. *)
Fixpoint first_line (s : str) : str :=
  match s with
  | [] => []
  | c :: s' => if N.eqb c NL then [] else c :: first_line s'
  end.

(** The number of dimensions a list of strengths or improvements names. *)
Definition qualifying (test : Q -> bool) (scores : Dict.t Q) : nat :=
  length (filter (fun item : str * Q => test (snd item)) scores).

(** The dimensions whose score passes [test], in the order of the
    dictionary. *)
Definition dimensions_where (test : Q -> bool) (scores : Dict.t Q) : list str :=
  map fst (filter (fun item : str * Q => test (snd item)) scores).

(** One line for each of the dimensions, or else the single fallback
    line. *)
Definition lines_or_fallback (line : str -> str) (dimensions : list str)
           (fallback : str) : list str :=
  match dimensions with
  | [] => [fallback]
  | _ :: _ => map line dimensions
  end.

(** A dimension with its underscores turned into spaces. *)
Definition spaced (dimension : str) : str :=
  map (fun c => if N.eqb c 95 then 32%N else c) dimension.

(** A blog post with every feature the scorer rewards. *)
Definition text_model_post : str :=
  py "# A story for today" ++ [NL; NL]
  ++ py "## Learn" ++ [NL; NL] ++ py "Is it amazing? Gains of 50% are real. "
  ++ py "However, discover it first. For example, apply one step."
  ++ [NL; NL] ++ py "## Use" ++ [NL; NL] ++ py "- try it" ++ [NL; NL]
  ++ concat (repeat (py "It is good. ") 40)
  ++ [NL; NL] ++ py "## End" ++ [NL; NL] ++ py "In conclusion, it works.".

(** One long sentence with six exclamation marks. *)
Definition text_weak_post : str :=
  concat (repeat (py "x ") 30) ++ py "!!!!!!".

(** Neither the first nor the last character is white space. *)
Definition stripped (isspace : char -> bool) (k : str) : Prop :=
  match k with
  | [] => True
  | c :: _ => isspace c = false
  end
  /\ match rev k with
     | [] => True
     | c :: _ => isspace c = false
     end.

(** A keyword as the keyword fields deliver it. *)
Definition clean_keyword (U : Unicode) (k : str) : Prop :=
  k <> [] /\ ~ In 44%N k /\ stripped (isspace U) k.

(** The entry [add_documents] makes of a document, its metadata and its
    id. *)
Definition entry_of (item : str * Dict.t value * str) : VectorStore.Entry :=
  let '(doc, meta, doc_id) := item in
  {| VectorStore.id := doc_id; VectorStore.document := doc;
     VectorStore.metadata := meta |}.

(** The metadata names the type [t]. *)
Definition has_type (t : str) (e : VectorStore.Entry) : bool :=
  is_str (Dict.get (VectorStore.metadata e) (py "type")) t.

(** The stores that calls of [add_documents] make of the empty store. *)
Inductive reachable : VectorStore.Self -> Prop :=
| reach_init : reachable VectorStore.__init__
| reach_add (self : VectorStore.Self) (documents : list str)
            (metadatas : list (Dict.t value)) (ids : list str) :
    reachable self ->
    reachable (VectorStore.add_documents self documents metadatas ids).

(** A query selects a document: some word of the lower-cased query occurs
    in the lower-cased document. *)
Definition matches (U : Unicode) (query doc : str) : Prop :=
  (1 <= VectorStore.score U (lower U query) doc)%nat.

(** A store with three brand voice examples and two pieces of research. *)
Definition example_store : VectorStore.Self :=
  let s := VectorStore.__init__ in
  let s := VectorStore.add_brand_voice_example s (py "We keep it plain.") (py "bv1") in
  let s := VectorStore.add_brand_voice_example s (py "Short words win.") (py "bv2") in
  let s := VectorStore.store_research s (py "ai") (py "AI helps writers write.")
                                      (py "serper_api") (py "r1") in
  let s := VectorStore.add_brand_voice_example s (py "No jargon.") (py "bv3") in
  VectorStore.store_research s (py "seo") (py "Writers like lists.")
                             (py "serper_api") (py "r2").

(** The agents a routing names. *)
Definition agents : list str :=
  map py ["blog_agent"; "linkedin_agent"; "image_agent"; "research_agent"]%string.

(** The keys of [outputs] that the summary of a result mentions. *)
Definition summary_keys : list str :=
  map py ["research"; "blog"; "linkedin"; "image"]%string.

(** The keys of the tone analysis. *)
Definition tone_keys : list str :=
  map py ["formality"; "emotion"; "voice"; "perspective"]%string.

(** The keys of the session data. *)
Definition session_keys : list str :=
  map py ["brand_voice"; "current_project"; "user_preferences"; "session_start"]%string.

(** The session data that the methods of [ConversationMemory] make of the
    initial one. *)
Inductive session : Dict.t value -> Prop :=
| session_fresh (now : str) : session (ConversationMemory.fresh_session_data now)
| session_brand_voice (sd : Dict.t value) (brand_voice : str) :
    session sd -> session (ConversationMemory.set_brand_voice sd brand_voice)
| session_project (sd : Dict.t value) (project_info : Dict.t value) :
    session sd -> session (ConversationMemory.set_current_project sd project_info)
| session_preference (sd sd' : Dict.t value) (key : str) (v : value) :
    session sd -> ConversationMemory.set_user_preference sd key v = Some sd' ->
    session sd'
| session_clear (now : str) (sd : Dict.t value) :
    session sd -> session (ConversationMemory.clear now sd).

End Spec.

(** * Properties *)

(** ** Strings and dictionaries *)

Lemma str_eqb_eq (a b : str) : str_eqb a b = true <-> a = b.
Proof.
  revert b; induction a as [|x a IH]; intros [|y b]; simpl;
    try (split; [discriminate | congruence]); try tauto.
  rewrite andb_true_iff, N.eqb_eq, IH.
  split; [intros [-> ->]; reflexivity | intros E; inversion E; auto].
Qed.

Lemma str_eqb_refl (a : str) : str_eqb a a = true.
Proof. apply str_eqb_eq; reflexivity. Qed.

Lemma str_eqb_neq (a b : str) : str_eqb a b = false <-> a <> b.
Proof.
  rewrite <- str_eqb_eq. destruct (str_eqb a b); split; congruence.
Qed.

Lemma startswith_firstn (sub s : str) (n : nat) :
  Str.startswith sub (firstn n s) = true -> Str.startswith sub s = true.
Proof.
  revert s n; induction sub as [|x sub IH]; intros s n; simpl; auto.
  destruct n, s; simpl; try discriminate.
  rewrite !andb_true_iff. intros [H1 H2]. eauto.
Qed.

Lemma contains_firstn (sub s : str) (n : nat) :
  Str.contains sub (firstn n s) = true -> Str.contains sub s = true.
Proof.
  revert n; induction s as [|c s IH]; intros n.
  - rewrite firstn_nil. auto.
  - destruct n.
    + destruct sub; simpl; [auto | discriminate].
    + simpl firstn. cbn [Str.contains].
      rewrite !orb_true_iff. intros [H|H].
      * left. apply (startswith_firstn sub (c :: s) (S n)). exact H.
      * right. eauto.
Qed.

(** A substring that is present is counted. *)
Lemma contains_count_from (sub s : str) :
  Str.contains sub s = true -> 0 < Str.count_from sub 0 s \/ sub = [].
Proof.
  induction s as [|c s IH]; cbn [Str.contains Str.count_from].
  - rewrite orb_false_r. destruct sub; [auto | discriminate].
  - destruct (Str.startswith sub (c :: s)); simpl.
    + intros _. left. lia.
    + exact IH.
Qed.

Lemma contains_count (sub s : str) :
  Str.contains sub s = true -> 0 < Str.count s sub.
Proof.
  intros H. unfold Str.count. destruct sub as [|x sub]; [lia|].
  destruct (contains_count_from _ _ H) as [G|G]; [exact G | discriminate].
Qed.

Lemma count_empty (s : str) : Str.count s [] = length s + 1.
Proof. reflexivity. Qed.

(** [split] yields one segment more than [count] finds separators. *)
Lemma split_from_length (sep : str) (s : str) :
  forall skip cur,
    length (Str.split_from sep skip cur s) = Str.count_from sep skip s + 1.
Proof.
  induction s as [|c s IH]; intros skip cur; cbn [Str.split_from Str.count_from].
  - reflexivity.
  - destruct skip as [|k].
    + destruct (Str.startswith sep (c :: s)); simpl; rewrite IH; lia.
    + apply IH.
Qed.

Lemma split_length (s sep : str) :
  sep <> [] -> length (Str.split s sep) = Str.count s sep + 1.
Proof.
  intros Hsep. unfold Str.split, Str.count.
  destruct sep; [congruence|]. apply split_from_length.
Qed.

Lemma split_nonempty (s sep : str) : 1 <= length (Str.split s sep).
Proof.
  unfold Str.split.
  assert (G : forall skip cur, 1 <= length (Str.split_from sep skip cur s)).
  { induction s as [|c s IH]; intros skip cur; cbn [Str.split_from].
    - simpl; lia.
    - destruct skip; [destruct (Str.startswith sep (c :: s))|];
        simpl; try lia; apply IH. }
  apply G.
Qed.

Section DictLemmas.
Variable V : Type.
Variable f : str -> V.

Lemma set_entry (ks : list str) (k : str) :
  Dict.set (map (fun k => (k, f k)) ks) k (f k) = map (fun k => (k, f k)) (add_key ks k).
Proof.
  unfold add_key. induction ks as [|k' ks IH]; simpl; [reflexivity|].
  destruct (str_eqb k k') eqn:E.
  - apply str_eqb_eq in E; subst k'. rewrite str_eqb_refl. reflexivity.
  - assert (E' : str_eqb k' k = false).
    { apply str_eqb_neq. apply str_eqb_neq in E. congruence. }
    rewrite E'. simpl. rewrite IH.
    destruct (existsb (str_eqb k) ks); reflexivity.
Qed.

Lemma fold_set_entries (keywords ks : list str) :
  fold_left (fun d k => Dict.set d k (f k)) keywords (map (fun k => (k, f k)) ks)
  = map (fun k => (k, f k)) (fold_left add_key keywords ks).
Proof.
  revert ks; induction keywords as [|k keywords IH]; intros ks; simpl.
  - reflexivity.
  - rewrite set_entry. apply IH.
Qed.

Lemma get_entries (ks : list str) (k : str) :
  In k ks -> Dict.get (map (fun k => (k, f k)) ks) k = Some (f k).
Proof.
  induction ks as [|k' ks IH]; simpl; [tauto|].
  intros [-> | H].
  - rewrite str_eqb_refl. reflexivity.
  - destruct (str_eqb k' k) eqn:E; [|auto].
    apply str_eqb_eq in E; subst; reflexivity.
Qed.

End DictLemmas.

Lemma existsb_str_eqb (k : str) (ks : list str) :
  existsb (str_eqb k) ks = true <-> In k ks.
Proof.
  rewrite existsb_exists. split.
  - intros [x [H E]]. apply str_eqb_eq in E. subst; exact H.
  - intros H. exists k. split; [exact H | apply str_eqb_refl].
Qed.

Lemma add_key_in (ks : list str) (k x : str) :
  In x (add_key ks k) <-> In x ks \/ x = k.
Proof.
  unfold add_key. destruct (existsb (str_eqb k) ks) eqn:E.
  - apply existsb_str_eqb in E. split; [tauto | intros [H | ->]; assumption].
  - rewrite in_app_iff. simpl. intuition congruence.
Qed.

Lemma add_key_nodup (ks : list str) (k : str) :
  NoDup ks -> NoDup (add_key ks k).
Proof.
  intros H. unfold add_key. destruct (existsb (str_eqb k) ks) eqn:E; [exact H|].
  apply NoDup_app; [exact H | repeat constructor; simpl; tauto |].
  intros x Hx [<- | []].
  apply existsb_str_eqb in Hx. congruence.
Qed.

Lemma fold_add_key_in (keywords ks : list str) (x : str) :
  In x (fold_left add_key keywords ks) <-> In x ks \/ In x keywords.
Proof.
  revert ks; induction keywords as [|k keywords IH]; intros ks; simpl.
  - tauto.
  - rewrite IH, add_key_in. intuition congruence.
Qed.

Lemma fold_add_key_nodup (keywords ks : list str) :
  NoDup ks -> NoDup (fold_left add_key keywords ks).
Proof.
  revert ks; induction keywords as [|k keywords IH]; intros ks H; simpl.
  - exact H.
  - apply IH, add_key_nodup, H.
Qed.

Lemma filter_twice (A : Type) (p q : A -> bool) (l : list A) :
  filter p (filter q l) = filter (fun x => q x && p x) l.
Proof.
  induction l as [|x l IH]; simpl; [reflexivity|].
  destruct (q x); simpl; [destruct (p x)|]; rewrite IH; reflexivity.
Qed.

Lemma str_eqb_sym (a b : str) : str_eqb a b = str_eqb b a.
Proof.
  destruct (str_eqb b a) eqn:E.
  - apply str_eqb_eq in E. subst. apply str_eqb_refl.
  - apply str_eqb_neq. apply str_eqb_neq in E. congruence.
Qed.

(** The keys a loop of assignments leaves: those it started with, then the
    new ones, each at its first occurrence. *)
Lemma fold_add_key_first (keywords ks : list str) :
  fold_left add_key keywords ks
  = ks ++ filter (fun x => negb (existsb (str_eqb x) ks)) (first_occurrences keywords).
Proof.
  revert ks; induction keywords as [|k keywords IH]; intros ks; simpl.
  - rewrite app_nil_r. reflexivity.
  - rewrite IH. unfold add_key. destruct (existsb (str_eqb k) ks) eqn:E; simpl.
    + f_equal. rewrite filter_twice. apply filter_ext. intros x.
      destruct (str_eqb x k) eqn:X; simpl; [|reflexivity].
      apply str_eqb_eq in X. subst x. rewrite E. reflexivity.
    + rewrite <- app_assoc. simpl. f_equal. f_equal.
      rewrite filter_twice. apply filter_ext. intros x.
      rewrite existsb_app. simpl. rewrite orb_false_r, negb_orb.
      apply andb_comm.
Qed.

Lemma first_occurrences_fold (keywords : list str) :
  first_occurrences keywords = fold_left add_key keywords [].
Proof.
  rewrite fold_add_key_first. simpl.
  induction (first_occurrences keywords) as [|x l IH]; simpl; congruence.
Qed.

Lemma first_occurrences_in (keywords : list str) (x : str) :
  In x (first_occurrences keywords) <-> In x keywords.
Proof. rewrite first_occurrences_fold, fold_add_key_in. simpl. tauto. Qed.

Lemma first_occurrences_nodup (keywords : list str) :
  NoDup (first_occurrences keywords).
Proof. rewrite first_occurrences_fold. apply fold_add_key_nodup. constructor. Qed.

(** ** Numbers *)

Open Scope Q_scope.

Lemma round_comp (x y : Q) (n : nat) : x == y -> Py.round x n = Py.round y n.
Proof.
  intros E. unfold Py.round.
  assert (E1 : x * inject_Z (10 ^ Z.of_nat n) == y * inject_Z (10 ^ Z.of_nat n))
    by (rewrite E; reflexivity).
  rewrite (Qfloor_comp _ _ E1).
  rewrite (Qcompare_comp _ _ (Qminus_comp _ _ E1 _ _ (Qeq_refl _)) _ _ (Qeq_refl (1 # 2))).
  reflexivity.
Qed.

Lemma geb_comp (x y t : Q) : x == y -> Py.geb x t = Py.geb y t.
Proof. intros E. unfold Py.geb. rewrite E. reflexivity. Qed.

Lemma get_grade_comp (x y : Q) :
  x == y -> ContentScorer._get_grade x = ContentScorer._get_grade y.
Proof.
  intros E. unfold ContentScorer._get_grade.
  rewrite !(geb_comp _ E). reflexivity.
Qed.

(** [_get_grade] is the lookup in the threshold table. *)
Lemma get_grade_table (score : Q) :
  ContentScorer._get_grade score = Spec.lookup_grade Spec.grade_table score.
Proof. reflexivity. Qed.

Lemma on_grid_b_sound (q : Q) : Spec.on_grid_b q = true -> Spec.on_grid q.
Proof.
  unfold Spec.on_grid_b, Spec.on_grid.
  rewrite !andb_true_iff, !Z.leb_le, Qeq_bool_iff.
  intros [[H1 H2] H3]. exists (Qfloor (q * 2)). auto.
Qed.

Lemma on_grid_bounds (q : Q) : Spec.on_grid q -> 0 <= q /\ q <= 10.
Proof.
  intros [h [[H1 H2] E]]. rewrite E. unfold Qle; simpl. lia.
Qed.

(** A capped bonus [min(cap, n * step)] is the cap from [k] hits on. *)
Lemma min_cap (cap step : Q) (k n : nat) :
  cap <= Py.of_nat k * step -> 0 <= step -> (k <= n)%nat ->
  Py.min cap (Py.of_nat n * step) = cap.
Proof.
  intros Hcap Hstep Hk. unfold Py.min, Py.ltb.
  assert (G : Qle_bool cap (Py.of_nat n * step) = true).
  { apply Qle_bool_iff. eapply Qle_trans; [exact Hcap|].
    apply Qmult_le_compat_r; [|exact Hstep].
    unfold Py.of_nat. rewrite <- Zle_Qle. lia. }
  rewrite G. reflexivity.
Qed.

Ltac split_ifs :=
  repeat match goal with
         | |- context [if ?b then _ else _] => destruct b
         end.

Ltac grid := apply on_grid_b_sound; vm_compute; reflexivity.

Section DimensionsOnGrid.
Variable U : Unicode.
Variable content : str.

Lemma engagement_on_grid : Spec.on_grid (ContentScorer._score_engagement U content).
Proof. unfold ContentScorer._score_engagement; cbv zeta. split_ifs; grid. Qed.

Lemma structure_on_grid : Spec.on_grid (ContentScorer._score_structure U content).
Proof. unfold ContentScorer._score_structure; cbv zeta. split_ifs; grid. Qed.

Lemma clarity_on_grid : Spec.on_grid (ContentScorer._score_clarity U content).
Proof.
  unfold ContentScorer._score_clarity; cbv zeta.
  destruct (ContentScorer.stripped_sentences U content); split_ifs; grid.
Qed.

Lemma actionability_on_grid : Spec.on_grid (ContentScorer._score_actionability U content).
Proof.
  unfold ContentScorer._score_actionability; cbv zeta.
  match goal with |- context [Py.of_nat ?n] => generalize n end.
  intros n. destruct (Nat.lt_ge_cases n 4) as [H|H].
  - destruct n as [|[|[|[|n]]]]; [split_ifs; grid .. | lia].
  - rewrite (@min_cap 2.0 0.5 4 n); [split_ifs; grid | | | exact H].
    + vm_compute; discriminate.
    + vm_compute; discriminate.
Qed.

Lemma professionalism_on_grid : Spec.on_grid (ContentScorer._score_professionalism U content).
Proof. unfold ContentScorer._score_professionalism; cbv zeta. split_ifs; grid. Qed.

Lemma hook_on_grid : Spec.on_grid (ContentScorer._score_hook U content).
Proof. unfold ContentScorer._score_hook; cbv zeta. split_ifs; grid. Qed.

Lemma linkedin_engagement_on_grid :
  Spec.on_grid (ContentScorer._score_linkedin_engagement U content).
Proof. unfold ContentScorer._score_linkedin_engagement; cbv zeta. split_ifs; grid. Qed.

Lemma cta_on_grid : Spec.on_grid (ContentScorer._score_cta U content).
Proof.
  unfold ContentScorer._score_cta; cbv zeta.
  match goal with |- context [Py.of_nat ?n] => generalize n end.
  intros n. destruct (Nat.lt_ge_cases n 2) as [H|H].
  - destruct n as [|[|n]]; [split_ifs; grid .. | lia].
  - rewrite (@min_cap 3.0 1.5 2 n); [split_ifs; grid | | | exact H].
    + vm_compute; discriminate.
    + vm_compute; discriminate.
Qed.

Lemma formatting_on_grid : Spec.on_grid (ContentScorer._score_linkedin_formatting content).
Proof. unfold ContentScorer._score_linkedin_formatting; cbv zeta. split_ifs; grid. Qed.

End DimensionsOnGrid.

Lemma sum_fold_right (xs : list Q) : Py.sum xs == fold_right Qplus 0 xs.
Proof.
  unfold Py.sum.
  assert (G : forall acc, fold_left Qplus xs acc == acc + fold_right Qplus 0 xs).
  { induction xs as [|x xs IH]; intros acc; simpl; [ring | rewrite IH; ring]. }
  rewrite G. ring.
Qed.

Lemma mean_of_five (a b c d e : Q) :
  Spec.on_grid a -> Spec.on_grid b -> Spec.on_grid c -> Spec.on_grid d -> Spec.on_grid e ->
  exists h : Z, (0 <= h <= 100)%Z /\ Py.sum [a; b; c; d; e] / Py.of_nat 5 == h # 10.
Proof.
  intros [ha [Ha Ea]] [hb [Hb Eb]] [hc [Hc Ec]] [hd [Hd Ed]] [he [He Ee]].
  exists (ha + hb + hc + hd + he)%Z. split; [lia|].
  unfold Py.sum; simpl fold_left. rewrite Ea, Eb, Ec, Ed, Ee.
  unfold Py.of_nat, Qeq, Qdiv, Qmult, Qplus, Qinv; simpl. lia.
Qed.

Lemma mean_of_three (a b c : Q) :
  Spec.on_grid a -> Spec.on_grid b -> Spec.on_grid c ->
  exists h : Z, (0 <= h <= 60)%Z /\ Py.sum [a; b; c] / Py.of_nat 3 == h # 6.
Proof.
  intros [ha [Ha Ea]] [hb [Hb Eb]] [hc [Hc Ec]].
  exists (ha + hb + hc)%Z. split; [lia|].
  unfold Py.sum; simpl fold_left. rewrite Ea, Eb, Ec.
  unfold Py.of_nat, Qeq, Qdiv, Qmult, Qplus, Qinv; simpl. lia.
Qed.

Lemma upto_in (n : nat) (h : Z) : (0 <= h <= Z.of_nat n)%Z -> In h (Spec.upto n).
Proof.
  intros H. unfold Spec.upto. apply in_map_iff.
  exists (Z.to_nat h). split; [lia|]. apply in_seq. lia.
Qed.

(** Rounding a mean to one decimal never moves it across a grade bound. *)
Lemma grade_stable_tenths (h : Z) :
  (0 <= h <= 100)%Z ->
  ContentScorer._get_grade (h # 10) = ContentScorer._get_grade (Py.round (h # 10) 1).
Proof.
  intros H. apply str_eqb_eq.
  assert (G : forallb (Spec.grade_stable 10) (Spec.upto 100) = true)
    by (vm_compute; reflexivity).
  rewrite forallb_forall in G. apply G. apply (upto_in 100). exact H.
Qed.

Lemma grade_stable_sixths (h : Z) :
  (0 <= h <= 60)%Z ->
  ContentScorer._get_grade (h # 6) = ContentScorer._get_grade (Py.round (h # 6) 1).
Proof.
  intros H. apply str_eqb_eq.
  assert (G : forallb (Spec.grade_stable 6) (Spec.upto 60) = true)
    by (vm_compute; reflexivity).
  rewrite forallb_forall in G. apply G. apply (upto_in 60). exact H.
Qed.

Lemma grade_of_mean (den : positive) (h : Z) (overall : Q) :
  overall == h # den ->
  ContentScorer._get_grade (h # den) = ContentScorer._get_grade (Py.round (h # den) 1) ->
  ContentScorer._get_grade overall = ContentScorer._get_grade (Py.round overall 1).
Proof.
  intros E G. rewrite (get_grade_comp E), (round_comp 1 E). exact G.
Qed.

(** ** The Content Scorer *)

(** C1, as the claim states it, fails: the selector string ["short_form"] is
    none of the two strings [score_content] tests for, so the empty text
    scored under it gets the three general dimensions. *)
Lemma short_form_string_selects_general :
  ~ Spec.has_exactly_keys Spec.short_form_keys
      (ContentScorer.dimension_scores
         (ContentScorer.score_content tables (py "2026-01-01T00:00:00") []
                                      (py "short_form"))).
Proof.
  intros [_ H].
  assert (G : In (py "formatting") Spec.short_form_keys) by (vm_compute; tauto).
  apply H in G. vm_compute in G.
  repeat (destruct G as [G|G]; [discriminate G|]). exact G.
Qed.

(** C1 (amended): for every text, the selector string ["linkedin"] yields a
    report whose [dimension_scores] has exactly the five short-form keys,
    in the order hook_strength, engagement_potential, professionalism,
    call_to_action, formatting; every selector string other than ["blog"]
    and ["linkedin"], ["short_form"] among them, yields the three general
    keys. *)
Theorem linkedin_selects_short_form_keys
        (U : Unicode) (now content content_type : str) :
  let scores c := ContentScorer.dimension_scores (ContentScorer.score_content U now content c) in
  Spec.has_exactly_keys Spec.short_form_keys (scores (py "linkedin"))
  /\ Dict.keys (scores (py "linkedin")) = Spec.short_form_keys
  /\ Spec.has_exactly_keys (Spec.dimension_set content_type) (scores content_type)
  /\ Spec.dimension_set (py "short_form") = Spec.general_keys.
Proof.
  assert (N5 : NoDup Spec.short_form_keys).
  { repeat constructor; vm_compute; intuition discriminate. }
  assert (N3 : NoDup Spec.general_keys).
  { repeat constructor; vm_compute; intuition discriminate. }
  assert (NB : NoDup Spec.blog_keys).
  { repeat constructor; vm_compute; intuition discriminate. }
  cbv zeta. repeat split; try tauto; try exact N5.
  - unfold ContentScorer.score_content, Spec.dimension_set.
    destruct (str_eqb content_type (py "blog")); [exact NB|].
    destruct (str_eqb content_type (py "linkedin")); [exact N5 | exact N3].
  - unfold ContentScorer.score_content, Spec.dimension_set.
    destruct (str_eqb content_type (py "blog")); [tauto|].
    destruct (str_eqb content_type (py "linkedin")); tauto.
  - unfold ContentScorer.score_content, Spec.dimension_set.
    destruct (str_eqb content_type (py "blog")); [tauto|].
    destruct (str_eqb content_type (py "linkedin")); tauto.
Qed.

(** C2: for every text and every variant, [overall_score] is the arithmetic
    mean of the values of [dimension_scores], rounded to one decimal, and
    the keys of [dimension_scores] are the variant's dimension set. *)
Theorem overall_score_is_rounded_mean
        (U : Unicode) (now content content_type : str) :
  let r := ContentScorer.score_content U now content content_type in
  Dict.keys (ContentScorer.dimension_scores r) = Spec.dimension_set content_type
  /\ ContentScorer.overall_score r
     = Py.round (Spec.arithmetic_mean (Dict.values (ContentScorer.dimension_scores r))) 1.
Proof.
  cbv zeta. unfold ContentScorer.score_content, Spec.dimension_set.
  destruct (str_eqb content_type (py "blog"));
    [|destruct (str_eqb content_type (py "linkedin"))];
    (split; [reflexivity|]);
    cbn [ContentScorer.overall_score ContentScorer.dimension_scores
         ContentScorer._score_blog_content ContentScorer._score_linkedin_content
         ContentScorer._score_general_content];
    apply round_comp; unfold Spec.arithmetic_mean, Py.of_nat;
    rewrite sum_fold_right; unfold Dict.values; rewrite length_map; reflexivity.
Qed.

(** C3: for every text and selector, [grade] is the threshold table applied
    to the report's [overall_score] field; the table sends 8.0 to A- and
    7.99 to B+. *)
Theorem grade_is_table_of_overall_score
        (U : Unicode) (now content content_type : str) :
  let r := ContentScorer.score_content U now content content_type in
  ContentScorer.grade r
  = Spec.lookup_grade Spec.grade_table (ContentScorer.overall_score r)
  /\ Spec.lookup_grade Spec.grade_table 8.0 = py "A-"
  /\ Spec.lookup_grade Spec.grade_table 7.99 = py "B+".
Proof.
  cbv zeta. split; [|split; reflexivity].
  rewrite <- get_grade_table.
  unfold ContentScorer.score_content.
  destruct (str_eqb content_type (py "blog"));
    [|destruct (str_eqb content_type (py "linkedin"))];
    cbn [ContentScorer.overall_score ContentScorer.grade
         ContentScorer._score_blog_content ContentScorer._score_linkedin_content
         ContentScorer._score_general_content].
  - destruct (mean_of_five (engagement_on_grid U content) (structure_on_grid U content)
                (clarity_on_grid U content) (actionability_on_grid U content)
                (professionalism_on_grid U content)) as [h [H E]].
    exact (grade_of_mean E (grade_stable_tenths H)).
  - destruct (mean_of_five (hook_on_grid U content) (linkedin_engagement_on_grid U content)
                (professionalism_on_grid U content) (cta_on_grid U content)
                (formatting_on_grid content)) as [h [H E]].
    exact (grade_of_mean E (grade_stable_tenths H)).
  - destruct (mean_of_three (clarity_on_grid U content) (engagement_on_grid U content)
                (professionalism_on_grid U content)) as [h [H E]].
    exact (grade_of_mean E (grade_stable_sixths H)).
Qed.

(** The examples of the specification, evaluated. *)
Example empty_text_scored_as_general :
  let r := ContentScorer.score_content tables (py "2026-01-01T00:00:00") [] (py "general") in
  ContentScorer.dimension_scores r
  = [(py "clarity", 7.0); (py "engagement", 5.0); (py "professionalism", 8.0)]
  /\ ContentScorer.overall_score r == 6.7
  /\ ContentScorer.grade r = py "B-".
Proof. vm_compute. repeat split; reflexivity. Qed.

Example engagement_potential_of_example :
  ContentScorer._score_linkedin_engagement tables Spec.text_engaging == 9.0.
Proof. vm_compute. reflexivity. Qed.

Lemma dimension_scores_on_grid (U : Unicode) (now content content_type : str) :
  Forall (fun item : str * Q => Spec.on_grid (snd item))
         (ContentScorer.dimension_scores
            (ContentScorer.score_content U now content content_type)).
Proof.
  unfold ContentScorer.score_content.
  destruct (str_eqb content_type (py "blog"));
    [|destruct (str_eqb content_type (py "linkedin"))];
    cbn [ContentScorer.dimension_scores
         ContentScorer._score_blog_content ContentScorer._score_linkedin_content
         ContentScorer._score_general_content];
    repeat constructor; cbn [snd];
    auto using engagement_on_grid, structure_on_grid, clarity_on_grid,
      actionability_on_grid, professionalism_on_grid, hook_on_grid,
      linkedin_engagement_on_grid, cta_on_grid, formatting_on_grid.
Qed.

(** C6: for every text, selector and keyword list, every dimension score of
    the scorer's report lies in [0, 10], and the optimizer's [seo_score]
    lies in [0, 100]. *)
Theorem scores_within_bounds
        (U : Unicode) (self : SEOOptimizer.Self)
        (now content content_type : str) (keywords : list str) :
  Forall (fun item : str * Q => 0 <= snd item /\ snd item <= 10)
         (ContentScorer.dimension_scores
            (ContentScorer.score_content U now content content_type))
  /\ (0 <= SEOOptimizer.seo_score (SEOOptimizer.analyze_content U self content keywords)
      <= 100)%Z.
Proof.
  split.
  - eapply Forall_impl; [|apply dimension_scores_on_grid].
    intros item H. apply on_grid_bounds, H.
  - unfold SEOOptimizer.analyze_content, SEOOptimizer._calculate_seo_score.
    cbn [SEOOptimizer.seo_score]. lia.
Qed.

(** ** The SEO Optimizer *)

Lemma deduct_keyword_penalty (score : Z) (data : SEOOptimizer.KeywordStat) :
  SEOOptimizer.deduct_keyword score data = (score - Spec.keyword_penalty data)%Z.
Proof.
  unfold SEOOptimizer.deduct_keyword, Spec.keyword_penalty; cbv zeta.
  destruct (str_eqb (SEOOptimizer.status data) (py "missing")) eqn:E1.
  - destruct (SEOOptimizer.in_first_paragraph data); simpl; lia.
  - destruct (str_eqb (SEOOptimizer.status data) (py "optimal"));
      destruct (SEOOptimizer.in_first_paragraph data); simpl; lia.
Qed.

Lemma fold_deduct (entries : list SEOOptimizer.KeywordStat) (score : Z) :
  fold_left SEOOptimizer.deduct_keyword entries score
  = (score - Spec.total (map Spec.keyword_penalty entries))%Z.
Proof.
  revert score; induction entries as [|d entries IH]; intros score; simpl.
  - lia.
  - rewrite IH, deduct_keyword_penalty. lia.
Qed.

Lemma append_if (b : bool) (recs : list str) (message : str) :
  (if b then recs ++ [message] else recs) = recs ++ (if b then [message] else []).
Proof. destruct b; [reflexivity | rewrite app_nil_r; reflexivity]. Qed.

Lemma append_if_elif (b c : bool) (recs : list str) (m1 m2 : str) :
  (if b then recs ++ [m1] else if c then recs ++ [m2] else recs)
  = recs ++ (if b then [m1] else if c then [m2] else []).
Proof. destruct b, c; rewrite ?app_nil_r; reflexivity. Qed.

Lemma recommend_keyword_app (recs : list str) (item : str * SEOOptimizer.KeywordStat) :
  SEOOptimizer.recommend_keyword recs item
  = recs ++ SEOOptimizer.recommend_keyword [] item.
Proof.
  unfold SEOOptimizer.recommend_keyword. destruct item as [keyword data]; cbv zeta.
  destruct (str_eqb (SEOOptimizer.status data) (py "missing"));
    [|destruct (str_eqb (SEOOptimizer.status data) (py "too_low"));
      [|destruct (str_eqb (SEOOptimizer.status data) (py "too_high"))]];
    destruct (negb (SEOOptimizer.in_first_paragraph data));
    destruct (negb (SEOOptimizer.in_headings data));
    simpl; rewrite <- ?app_assoc; simpl; rewrite ?app_nil_r; reflexivity.
Qed.

Lemma fold_recommend (items : list (str * SEOOptimizer.KeywordStat)) (recs : list str) :
  fold_left SEOOptimizer.recommend_keyword items recs
  = recs ++ flat_map (SEOOptimizer.recommend_keyword []) items.
Proof.
  revert recs; induction items as [|item items IH]; intros recs; simpl.
  - rewrite app_nil_r; reflexivity.
  - rewrite IH, (recommend_keyword_app recs), app_assoc. reflexivity.
Qed.

(** The loop of [_analyze_keywords] leaves one entry for each distinct
    keyword, in the order of the first occurrences. *)
Lemma analyze_keywords_entries
      (U : Unicode) (self : SEOOptimizer.Self) (content : str) (keywords : list str) :
  SEOOptimizer._analyze_keywords U self content keywords
  = map (fun k => (k, SEOOptimizer.keyword_entry U self content (lower U content)
                        (SEOOptimizer._count_words U content) k))
        (first_occurrences keywords).
Proof.
  unfold SEOOptimizer._analyze_keywords; cbv zeta. rewrite first_occurrences_fold.
  exact (fold_set_entries
           (SEOOptimizer.keyword_entry U self content (lower U content)
              (SEOOptimizer._count_words U content))
           keywords []).
Qed.

Lemma get_keyword_entry
      (U : Unicode) (self : SEOOptimizer.Self) (content : str)
      (keywords : list str) (keyword : str) :
  In keyword keywords ->
  Dict.get (SEOOptimizer._analyze_keywords U self content keywords) keyword
  = Some (SEOOptimizer.keyword_entry U self content (lower U content)
            (SEOOptimizer._count_words U content) keyword).
Proof.
  intros H. rewrite analyze_keywords_entries.
  apply (get_entries (SEOOptimizer.keyword_entry U self content (lower U content)
                        (SEOOptimizer._count_words U content))).
  apply first_occurrences_in, H.
Qed.

Lemma get_in_keys (V : Type) (d : Dict.t V) (k : str) (v : V) :
  Dict.get d k = Some v -> In k (Dict.keys d).
Proof.
  induction d as [|[k' v'] d IH]; simpl; [discriminate|].
  destruct (str_eqb k' k) eqn:E.
  - apply str_eqb_eq in E. auto.
  - auto.
Qed.

Lemma get_keyword_entry_inv
      (U : Unicode) (self : SEOOptimizer.Self) (content : str)
      (keywords : list str) (keyword : str) (data : SEOOptimizer.KeywordStat) :
  Dict.get (SEOOptimizer._analyze_keywords U self content keywords) keyword = Some data ->
  data = SEOOptimizer.keyword_entry U self content (lower U content)
           (SEOOptimizer._count_words U content) keyword.
Proof.
  intros H. assert (G : In keyword keywords).
  { apply get_in_keys in H. rewrite analyze_keywords_entries in H.
    unfold Dict.keys in H. rewrite map_map in H. simpl in H. rewrite map_id in H.
    apply first_occurrences_in, H. }
  rewrite (get_keyword_entry U self content keywords keyword G) in H.
  congruence.
Qed.

Example keyword_ai_of_example :
  let a := SEOOptimizer.analysis
             (SEOOptimizer.analyze_content tables SEOOptimizer.seo_optimizer
                                           Spec.text_title_ai [py "AI"]) in
  SEOOptimizer.word_count a = 13%nat
  /\ option_map SEOOptimizer.count (Dict.get (SEOOptimizer.keyword_analysis a) (py "AI"))
     = Some 9%nat
  /\ option_map SEOOptimizer.status (Dict.get (SEOOptimizer.keyword_analysis a) (py "AI"))
     = Some (py "too_high")
  /\ SEOOptimizer.h1_count (SEOOptimizer.structure a) = 1%nat
  /\ SEOOptimizer.h2_count (SEOOptimizer.structure a) = 0%nat
  /\ SEOOptimizer.has_proper_hierarchy (SEOOptimizer.structure a) = false.
Proof. vm_compute. repeat split; reflexivity. Qed.

(** C4, as the claim states it, fails: a keyword given twice leaves one
    entry, and its penalties are taken once (100 - 30 - 25 - 10 - 5 = 30
    for the empty text, not 5). *)
Lemma duplicate_keyword_is_one_entry :
  let keywords := [py "seo"; py "seo"] in
  let r := SEOOptimizer.analyze_content tables SEOOptimizer.seo_optimizer [] keywords in
  length (SEOOptimizer.keyword_analysis (SEOOptimizer.analysis r)) <> length keywords
  /\ SEOOptimizer.seo_score r = 30%Z
  /\ SEOOptimizer.seo_score r
     <> Spec.clamp (100 - 30
                    - Spec.total (map (fun k => Spec.keyword_penalty
                                         (SEOOptimizer.keyword_entry tables
                                            SEOOptimizer.seo_optimizer [] [] 0 k))
                                      keywords)
                    - 15)%Z.
Proof. vm_compute. repeat split; discriminate. Qed.

(** C4 (amended): for every text and keyword list, the keywords are
    processed in input order and [keyword_analysis] is a mapping with one
    entry per distinct keyword, in the order of the first occurrences (a
    repeated keyword overwrites its entry with an equal one); the
    per-keyword penalties of [seo_score] and the per-keyword
    recommendations are applied once for each distinct keyword. *)
Theorem keywords_processed_once_each
        (U : Unicode) (self : SEOOptimizer.Self) (content : str) (keywords : list str) :
  let r := SEOOptimizer.analyze_content U self content keywords in
  let a := SEOOptimizer.analysis r in
  let entry := SEOOptimizer.keyword_entry U self content (lower U content)
                 (SEOOptimizer.word_count a) in
  let distinct := first_occurrences keywords in
  NoDup distinct
  /\ (forall k, In k distinct <-> In k keywords)
  /\ SEOOptimizer.keyword_analysis a = map (fun k => (k, entry k)) distinct
  /\ SEOOptimizer.seo_score r
     = Spec.clamp (100 - Spec.word_count_penalty (SEOOptimizer.word_count a)
                   - Spec.total (map (fun k => Spec.keyword_penalty (entry k)) distinct)
                   - Spec.structure_penalty (SEOOptimizer.structure a))%Z
  /\ SEOOptimizer.recommendations a
     = Spec.messages_before (SEOOptimizer.word_count a)
       ++ flat_map (fun k => Spec.keyword_messages k (entry k)) distinct
       ++ Spec.messages_after (SEOOptimizer.structure a) (SEOOptimizer.readability a).
Proof.
  cbv zeta.
  split; [apply first_occurrences_nodup|].
  split; [apply first_occurrences_in|].
  split; [apply analyze_keywords_entries|].
  split.
  - unfold SEOOptimizer.analyze_content; cbv zeta.
    cbn [SEOOptimizer.seo_score SEOOptimizer.analysis SEOOptimizer.word_count
         SEOOptimizer.structure SEOOptimizer.keyword_analysis].
    unfold SEOOptimizer._calculate_seo_score; cbv zeta.
    cbn [SEOOptimizer.word_count SEOOptimizer.structure SEOOptimizer.keyword_analysis].
    rewrite fold_deduct, analyze_keywords_entries.
    unfold Dict.values. rewrite !map_map. cbn [snd].
    unfold Spec.clamp, Spec.word_count_penalty, Spec.structure_penalty.
    destruct (SEOOptimizer._count_words U content <? 500)%nat;
      [|destruct (SEOOptimizer._count_words U content <? 800)%nat];
      destruct (SEOOptimizer.has_proper_hierarchy (SEOOptimizer._analyze_structure U content));
      destruct (SEOOptimizer.link_count (SEOOptimizer._analyze_structure U content) <? 2)%nat;
      simpl negb; cbv iota; f_equal; f_equal; lia.
  - unfold SEOOptimizer.analyze_content; cbv zeta.
    cbn [SEOOptimizer.analysis SEOOptimizer.word_count SEOOptimizer.recommendations
         SEOOptimizer.structure SEOOptimizer.readability].
    unfold SEOOptimizer._generate_recommendations; cbv zeta.
    cbn [SEOOptimizer.word_count SEOOptimizer.structure SEOOptimizer.keyword_analysis
         SEOOptimizer.readability].
    rewrite append_if_elif, !append_if, fold_recommend, analyze_keywords_entries.
    rewrite flat_map_concat_map, map_map, <- flat_map_concat_map.
    unfold Spec.keyword_messages, Spec.messages_before, Spec.messages_after.
    rewrite <- !app_assoc. reflexivity.
Qed.

Lemma assess_missing (self : SEOOptimizer.Self) (density : Q) (count : nat) :
  SEOOptimizer._assess_keyword_usage self density count = py "missing"
  <-> count = 0%nat.
Proof.
  unfold SEOOptimizer._assess_keyword_usage.
  destruct (Nat.eqb_spec count 0) as [E|E].
  - tauto.
  - split; [|tauto]. split_ifs; intros H; vm_compute in H; discriminate H.
Qed.

(** C5, as the claim states it, fails: in a text of 201 words with two
    occurrences of the keyword the density is 0.995..., the [density] field
    is 1.0, and the status is "too_low", where the rule applied to the
    field gives "optimal". *)
Lemma status_not_from_density_field :
  let a := SEOOptimizer.analysis
             (SEOOptimizer.analyze_content tables SEOOptimizer.seo_optimizer
                                           Spec.text_201_words [py "ab"]) in
  exists data,
    Dict.get (SEOOptimizer.keyword_analysis a) (py "ab") = Some data
    /\ SEOOptimizer.word_count a = 201%nat
    /\ SEOOptimizer.count data = 2%nat
    /\ SEOOptimizer.density data == 1.0
    /\ SEOOptimizer.status data = py "too_low"
    /\ SEOOptimizer.status data
       <> Spec.spec_status (SEOOptimizer.count data) (SEOOptimizer.density data).
Proof.
  cbv zeta. eexists. split; [vm_compute; reflexivity|].
  vm_compute. repeat split; discriminate.
Qed.

(** C5 (amended): for every text and keyword of the list, the status is
    "missing" iff count = 0, else "too_low" iff the density before rounding
    (the float count / total_word_count * 100, 0 when total_word_count is
    0) is below 1.0, else "too_high" iff that density is above 2.5, else
    "optimal"; the [density] field is that float rounded to two
    decimals. *)
Theorem status_from_unrounded_density
        (U : Unicode) (content : str) (keywords : list str) (keyword : str) :
  In keyword keywords ->
  let a := SEOOptimizer.analysis
             (SEOOptimizer.analyze_content U SEOOptimizer.seo_optimizer content keywords) in
  exists data,
    Dict.get (SEOOptimizer.keyword_analysis a) keyword = Some data
    /\ let d := SEOOptimizer.keyword_density (SEOOptimizer.count data)
                                             (SEOOptimizer.word_count a) in
       SEOOptimizer.density data = Py.round d 2
       /\ SEOOptimizer.status data = Spec.spec_status (SEOOptimizer.count data) d
       /\ (SEOOptimizer.status data = py "missing" <-> SEOOptimizer.count data = 0%nat).
Proof.
  intros H; cbv zeta. eexists. split.
  - unfold SEOOptimizer.analyze_content; cbv zeta.
    cbn [SEOOptimizer.analysis SEOOptimizer.keyword_analysis].
    apply get_keyword_entry, H.
  - unfold SEOOptimizer.analyze_content; cbv zeta.
    cbn [SEOOptimizer.analysis SEOOptimizer.word_count SEOOptimizer.keyword_entry
         SEOOptimizer.count SEOOptimizer.density SEOOptimizer.status].
    split; [reflexivity|]. split; [reflexivity|]. apply assess_missing.
Qed.

(** The theorem at the text of 201 words. *)
Lemma status_from_unrounded_density_witness :
  In (py "ab") [py "ab"]
  /\ exists data,
      Dict.get (SEOOptimizer.keyword_analysis
                  (SEOOptimizer.analysis
                     (SEOOptimizer.analyze_content tables SEOOptimizer.seo_optimizer
                                                   Spec.text_201_words [py "ab"])))
               (py "ab") = Some data
      /\ SEOOptimizer.status data = py "too_low".
Proof.
  split; [left; reflexivity|].
  destruct (@status_from_unrounded_density tables Spec.text_201_words [py "ab"] (py "ab"))
    as [data [G [_ [E _]]]]; [left; reflexivity|].
  exists data. split; [exact G|]. rewrite E.
  vm_compute in G. injection G as <-. vm_compute. reflexivity.
Defined.

(** ** Monotonicity for a missing keyword *)

Lemma missing_not_in_first_paragraph
      (U : Unicode) (self : SEOOptimizer.Self) (content content_lower : str)
      (total_words : nat) (keyword : str) :
  let data := SEOOptimizer.keyword_entry U self content content_lower total_words keyword in
  SEOOptimizer.status data = py "missing" ->
  SEOOptimizer.in_first_paragraph data = false.
Proof.
  cbv zeta. cbn [SEOOptimizer.keyword_entry SEOOptimizer.status SEOOptimizer.in_first_paragraph].
  rewrite assess_missing. intros E.
  destruct (Str.contains (lower U keyword) (Str.prefix 500 content_lower)) eqn:C; [|reflexivity].
  apply contains_firstn, contains_count in C. lia.
Qed.

Lemma keyword_penalty_max (data : SEOOptimizer.KeywordStat) :
  (Spec.keyword_penalty data <= 25)%Z.
Proof. unfold Spec.keyword_penalty. split_ifs; lia. Qed.

(** C7: when a keyword has status "missing" in a text, then in any other
    text (so in every text made from it by adding occurrences of the
    keyword, in a heading, in the first paragraph or elsewhere) its status
    rank is not lower, and its penalties (status penalty plus
    first-paragraph penalty) are not higher. *)
Theorem missing_keyword_cannot_get_worse
        (U : Unicode) (self : SEOOptimizer.Self)
        (content content' : str) (keywords : list str) (keyword : str)
        (data data' : SEOOptimizer.KeywordStat) :
  Dict.get (SEOOptimizer.keyword_analysis
              (SEOOptimizer.analysis (SEOOptimizer.analyze_content U self content keywords)))
           keyword = Some data ->
  SEOOptimizer.status data = py "missing" ->
  Dict.get (SEOOptimizer.keyword_analysis
              (SEOOptimizer.analysis (SEOOptimizer.analyze_content U self content' keywords)))
           keyword = Some data' ->
  (Spec.status_rank (SEOOptimizer.status data)
   <= Spec.status_rank (SEOOptimizer.status data'))%nat
  /\ (Spec.keyword_penalty data' <= Spec.keyword_penalty data)%Z.
Proof.
  intros G M G'.
  unfold SEOOptimizer.analyze_content in G; cbv zeta in G.
  cbn [SEOOptimizer.analysis SEOOptimizer.keyword_analysis] in G.
  apply get_keyword_entry_inv in G.
  split.
  - rewrite M. cbv [Spec.status_rank]. rewrite str_eqb_refl. lia.
  - assert (F : SEOOptimizer.in_first_paragraph data = false).
    { subst data. apply missing_not_in_first_paragraph. exact M. }
    assert (E : Spec.keyword_penalty data = 25%Z).
    { unfold Spec.keyword_penalty. rewrite M, F, str_eqb_refl. reflexivity. }
    rewrite E. apply keyword_penalty_max.
Qed.

(** The theorem at a text without the keyword and the same text with the
    keyword added in a heading and in the first paragraph. *)
Lemma missing_keyword_cannot_get_worse_witness :
  let content := py "Plain words about gardens." in
  let keyword := py "seo" in
  let entry c := SEOOptimizer.keyword_entry tables SEOOptimizer.seo_optimizer c
                   (lower tables c) (SEOOptimizer._count_words tables c) keyword in
  let data := entry content in
  let data' := entry (Spec.add_occurrences keyword content) in
  SEOOptimizer.status data = py "missing"
  /\ (Spec.status_rank (SEOOptimizer.status data)
      <= Spec.status_rank (SEOOptimizer.status data'))%nat
  /\ (Spec.keyword_penalty data' <= Spec.keyword_penalty data)%Z.
Proof.
  cbv zeta. split; [vm_compute; reflexivity|].
  apply (@missing_keyword_cannot_get_worse tables SEOOptimizer.seo_optimizer
           (py "Plain words about gardens.")
           (Spec.add_occurrences (py "seo") (py "Plain words about gardens."))
           [py "seo"] (py "seo")); vm_compute; reflexivity.
Defined.

(** ** Splitting into paragraphs *)

Lemma startswith_app (p s : str) :
  Str.startswith p s = true -> exists t, s = p ++ t.
Proof.
  revert s; induction p as [|x p IH]; intros s; simpl.
  - exists s; reflexivity.
  - destruct s as [|y s]; [discriminate|].
    rewrite andb_true_iff, N.eqb_eq. intros [-> H].
    destruct (IH _ H) as [t ->]. exists t; reflexivity.
Qed.

Lemma split_from_skip (sep p t cur : str) :
  Str.split_from sep (length p) cur (p ++ t) = Str.split_from sep 0 cur t.
Proof.
  induction p as [|c p IH]; simpl; [reflexivity | exact IH].
Qed.

Lemma join_cons (sep p : str) (rest : list str) :
  rest <> [] -> Str.join sep (p :: rest) = p ++ sep ++ Str.join sep rest.
Proof. destruct rest; [congruence | reflexivity]. Qed.

Lemma split_from_not_nil (sep : str) (skip : nat) (cur s : str) :
  Str.split_from sep skip cur s <> [].
Proof.
  intros E. pose proof (split_from_length sep s skip cur) as L.
  rewrite E in L. simpl in L. lia.
Qed.

(** Joining the segments with the separator gives the text back. *)
Lemma join_split_from (sep : str) (n : nat) :
  sep <> [] ->
  forall s cur, (length s <= n)%nat ->
    Str.join sep (Str.split_from sep 0 cur s) = rev cur ++ s.
Proof.
  intros Hsep. induction n as [|n IH]; intros s cur Hn.
  - destruct s; [|simpl in Hn; lia]. simpl. rewrite app_nil_r. reflexivity.
  - destruct s as [|c s]; [simpl; rewrite app_nil_r; reflexivity|].
    cbn [Str.split_from].
    destruct (Str.startswith sep (c :: s)) eqn:E.
    + destruct (startswith_app _ _ E) as [t Et].
      destruct sep as [|x sep]; [congruence|].
      simpl in Et. injection Et as -> ->.
      change (length (x :: sep) - 1)%nat with (length sep - 0)%nat.
      rewrite Nat.sub_0_r.
      rewrite split_from_skip, join_cons by apply split_from_not_nil.
      rewrite (IH t []); [reflexivity|].
      simpl in Hn. rewrite length_app in Hn. lia.
    + rewrite (IH s (c :: cur)); [|simpl in Hn; lia].
      simpl. rewrite <- app_assoc. reflexivity.
Qed.

Lemma join_split (s sep : str) : sep <> [] -> Str.join sep (Str.split s sep) = s.
Proof.
  intros H. unfold Str.split. apply (@join_split_from sep (length s) H s []). lia.
Qed.

(** C9: for every text, [paragraph_count] is the number of segments that
    splitting the text on the two-character separator "\n\n" produces,
    empty segments included (joining them with the separator gives the
    text back); it is the number of separators found plus one, so at
    least 1, and it is 1 for the empty string. *)
Theorem paragraph_count_is_segment_count
        (U : Unicode) (self : SEOOptimizer.Self) (content : str) (keywords : list str) :
  let paragraphs c :=
    SEOOptimizer.paragraph_count
      (SEOOptimizer.readability
         (SEOOptimizer.analysis (SEOOptimizer.analyze_content U self c keywords))) in
  let segments := Str.split content [NL; NL] in
  paragraphs content = length segments
  /\ Str.join [NL; NL] segments = content
  /\ paragraphs content = (Str.count content [NL; NL] + 1)%nat
  /\ (1 <= paragraphs content)%nat
  /\ paragraphs [] = 1%nat.
Proof.
  cbv zeta. unfold SEOOptimizer.analyze_content; cbv zeta.
  cbn [SEOOptimizer.analysis SEOOptimizer.readability SEOOptimizer._analyze_readability
       SEOOptimizer.paragraph_count].
  repeat split.
  - apply join_split. discriminate.
  - apply split_length. discriminate.
  - apply split_nonempty.
Qed.

(** ** The empty keyword *)

(** C10, as the claim states it, fails: lower-casing the one-character text
    U+0130 gives two characters, and the empty keyword is counted in the
    lower-cased text: 3 times, not 1 + 1. *)
Lemma empty_keyword_counts_lowered_text :
  let content := [0x130%N] in
  exists data,
    Dict.get (SEOOptimizer.keyword_analysis
                (SEOOptimizer.analysis
                   (SEOOptimizer.analyze_content tables SEOOptimizer.seo_optimizer
                                                 content [[]])))
             [] = Some data
    /\ SEOOptimizer.count data = 3%nat
    /\ SEOOptimizer.count data <> (length content + 1)%nat.
Proof.
  cbv zeta. eexists. split; [vm_compute; reflexivity|].
  vm_compute. split; [reflexivity | discriminate].
Qed.

(** C10 (amended): for the empty-string keyword and every text, the empty
    text included, the reported count is the length of the lower-cased
    text plus 1, which is the length of the text plus 1 whenever
    lower-casing keeps the length (as for every ASCII text); the status of
    the empty keyword is never "missing". *)
Theorem empty_keyword_count
        (U : Unicode) (self : SEOOptimizer.Self) (content : str) (keywords : list str) :
  lower U [] = [] ->
  In [] keywords ->
  exists data,
    Dict.get (SEOOptimizer.keyword_analysis
                (SEOOptimizer.analysis
                   (SEOOptimizer.analyze_content U self content keywords)))
             [] = Some data
    /\ SEOOptimizer.count data = (length (lower U content) + 1)%nat
    /\ (length (lower U content) = length content ->
        SEOOptimizer.count data = (length content + 1)%nat)
    /\ SEOOptimizer.status data <> py "missing".
Proof.
  intros L H. eexists. split.
  - unfold SEOOptimizer.analyze_content; cbv zeta.
    cbn [SEOOptimizer.analysis SEOOptimizer.keyword_analysis].
    apply get_keyword_entry, H.
  - cbn [SEOOptimizer.keyword_entry SEOOptimizer.count SEOOptimizer.status].
    rewrite L, count_empty.
    split; [reflexivity|]. split; [intros ->; reflexivity|].
    rewrite assess_missing. lia.
Qed.

(** The theorem at a three-letter text. *)
Lemma empty_keyword_count_witness :
  lower tables [] = []
  /\ In [] [py "seo"; []]
  /\ exists data,
      Dict.get (SEOOptimizer.keyword_analysis
                  (SEOOptimizer.analysis
                     (SEOOptimizer.analyze_content tables SEOOptimizer.seo_optimizer
                                                   (py "Seo") [py "seo"; []])))
               [] = Some data
      /\ SEOOptimizer.count data = 4%nat.
Proof.
  split; [reflexivity|]. split; [right; left; reflexivity|].
  destruct (@empty_keyword_count tables SEOOptimizer.seo_optimizer (py "Seo") [py "seo"; []])
    as [data [G [E _]]]; [reflexivity | right; left; reflexivity |].
  exists data. split; [exact G | exact E].
Defined.

(** ** The rational model and binary64

    Sums of up to five scores are exact in binary64, and the grade of the
    binary64 mean is the grade [_get_grade] gives the rational mean, for
    every sum of five and of three scores. *)

Lemma binary64_sums_exact (p q : Z) :
  (0 <= p <= 80)%Z -> (0 <= q <= 20)%Z -> Binary64.sum_exact p q = true.
Proof.
  intros Hp Hq.
  assert (G : forallb (fun p => forallb (Binary64.sum_exact p) (Spec.upto 20))
                      (Spec.upto 80) = true)
    by (vm_compute; reflexivity).
  rewrite forallb_forall in G. specialize (G p (upto_in 80 Hp)).
  rewrite forallb_forall in G. exact (G q (upto_in 20 Hq)).
Qed.

Lemma binary64_grade_of_five (h : Z) :
  (0 <= h <= 100)%Z ->
  Binary64._get_grade (Binary64.mean h 5) = ContentScorer._get_grade (h # 10).
Proof.
  intros H. apply str_eqb_eq.
  assert (G : forallb (Binary64.same_grade 5) (Spec.upto 100) = true)
    by (vm_compute; reflexivity).
  rewrite forallb_forall in G. exact (G h (upto_in 100 H)).
Qed.

Lemma binary64_grade_of_three (h : Z) :
  (0 <= h <= 60)%Z ->
  Binary64._get_grade (Binary64.mean h 3) = ContentScorer._get_grade (h # 6).
Proof.
  intros H. apply str_eqb_eq.
  assert (G : forallb (Binary64.same_grade 3) (Spec.upto 60) = true)
    by (vm_compute; reflexivity).
  rewrite forallb_forall in G. exact (G h (upto_in 60 H)).
Qed.

(** The keyword density of the model, rounded by [Py.float], is the
    density that the float division and multiplication give, for every
    count up to 120 in every text of up to 120 words. *)
Lemma binary64_density (count total_words : Z) :
  (0 <= count <= 120)%Z -> (1 <= total_words <= 120)%Z ->
  Binary64.same_density total_words count = true.
Proof.
  intros Hc Ht.
  assert (G : forallb (fun t => (t =? 0)%Z || forallb (Binary64.same_density t) (Spec.upto 120))
                      (Spec.upto 120) = true)
    by (vm_compute; reflexivity).
  rewrite forallb_forall in G.
  assert (I : In total_words (Spec.upto 120)) by (apply (upto_in 120); lia).
  specialize (G total_words I).
  destruct (Z.eqb_spec total_words 0) as [E | _]; [lia|].
  cbn [orb] in G. rewrite forallb_forall in G.
  apply G. apply (upto_in 120); lia.
Qed.

(** The density at 23 occurrences in 160 words: the quotient times 100 is
    just below 14.375 in binary64, and [round] gives 14.37. *)
Example density_of_23_in_160 :
  SEOOptimizer.keyword_density 23 160 < 14.375
  /\ Py.round (SEOOptimizer.keyword_density 23 160) 2 == 14.37.
Proof. split; vm_compute; reflexivity. Qed.

(** * More properties of the two analyzers *)

(** ** The SEO report as a function of the distinct keywords *)

Lemma first_occurrences_nodup_id (ks : list str) :
  NoDup ks -> first_occurrences ks = ks.
Proof.
  induction 1 as [|k ks Hk Hnd IH]; simpl; [reflexivity|].
  rewrite IH. f_equal.
  rewrite <- (filter_ext_in (fun _ => true)).
  - clear. induction ks as [|x l IHl]; simpl; congruence.
  - intros x Hx. symmetry. apply negb_true_iff, str_eqb_neq. congruence.
Qed.

Lemma first_occurrences_idem (ks : list str) :
  first_occurrences (first_occurrences ks) = first_occurrences ks.
Proof. apply first_occurrences_nodup_id, first_occurrences_nodup. Qed.

Lemma first_occurrences_snoc (ks : list str) (k : str) :
  first_occurrences (ks ++ [k]) = add_key (first_occurrences ks) k.
Proof. rewrite !first_occurrences_fold, fold_left_app. reflexivity. Qed.

Lemma analyze_keywords_distinct
      (U : Unicode) (self : SEOOptimizer.Self) (content : str) (keywords : list str) :
  SEOOptimizer._analyze_keywords U self content keywords
  = SEOOptimizer._analyze_keywords U self content (first_occurrences keywords).
Proof. rewrite !analyze_keywords_entries, first_occurrences_idem. reflexivity. Qed.

(** X1: the SEO report depends on the keyword list only through its
    distinct keywords in the order of their first occurrences: two lists
    with the same first occurrences give the same report, in full. *)
Theorem report_depends_on_distinct_keywords
        (U : Unicode) (self : SEOOptimizer.Self) (content : str)
        (keywords keywords' : list str) :
  first_occurrences keywords = first_occurrences keywords' ->
  SEOOptimizer.analyze_content U self content keywords
  = SEOOptimizer.analyze_content U self content keywords'.
Proof.
  intros E. unfold SEOOptimizer.analyze_content; cbv zeta.
  rewrite (analyze_keywords_distinct U self content keywords),
    (analyze_keywords_distinct U self content keywords'), E.
  reflexivity.
Qed.

(** The theorem at a list that repeats its first keyword. *)
Lemma report_depends_on_distinct_keywords_witness :
  first_occurrences [py "seo"; py "ai"; py "seo"] = first_occurrences [py "seo"; py "ai"]
  /\ SEOOptimizer.analyze_content tables SEOOptimizer.seo_optimizer Spec.text_title_ai
       [py "seo"; py "ai"; py "seo"]
     = SEOOptimizer.analyze_content tables SEOOptimizer.seo_optimizer Spec.text_title_ai
         [py "seo"; py "ai"].
Proof.
  split; [reflexivity|].
  apply (@report_depends_on_distinct_keywords tables SEOOptimizer.seo_optimizer
           Spec.text_title_ai [py "seo"; py "ai"; py "seo"] [py "seo"; py "ai"]).
  reflexivity.
Defined.

(** The score as the clamped sum of the penalties. *)
Lemma seo_score_formula
      (U : Unicode) (self : SEOOptimizer.Self) (content : str) (keywords : list str) :
  let a := SEOOptimizer.analysis (SEOOptimizer.analyze_content U self content keywords) in
  SEOOptimizer.seo_score (SEOOptimizer.analyze_content U self content keywords)
  = Spec.clamp
      (100 - Spec.word_count_penalty (SEOOptimizer.word_count a)
       - Spec.total (map Spec.keyword_penalty
                         (Dict.values (SEOOptimizer.keyword_analysis a)))
       - Spec.structure_penalty (SEOOptimizer.structure a))%Z.
Proof.
  cbv zeta. unfold SEOOptimizer.analyze_content; cbv zeta.
  cbn [SEOOptimizer.seo_score SEOOptimizer.analysis SEOOptimizer.word_count
       SEOOptimizer.structure SEOOptimizer.keyword_analysis].
  unfold SEOOptimizer._calculate_seo_score; cbv zeta.
  cbn [SEOOptimizer.word_count SEOOptimizer.structure SEOOptimizer.keyword_analysis].
  rewrite fold_deduct.
  unfold Spec.clamp, Spec.word_count_penalty, Spec.structure_penalty.
  destruct (SEOOptimizer._count_words U content <? 500)%nat;
    [|destruct (SEOOptimizer._count_words U content <? 800)%nat];
    destruct (SEOOptimizer.has_proper_hierarchy (SEOOptimizer._analyze_structure U content));
    destruct (SEOOptimizer.link_count (SEOOptimizer._analyze_structure U content) <? 2)%nat;
    simpl negb; cbv iota; f_equal; f_equal; lia.
Qed.

Lemma keyword_penalty_range (data : SEOOptimizer.KeywordStat) :
  (0 <= Spec.keyword_penalty data <= 25)%Z.
Proof. unfold Spec.keyword_penalty. split_ifs; lia. Qed.

Lemma total_penalties_range (entries : list SEOOptimizer.KeywordStat) :
  (0 <= Spec.total (map Spec.keyword_penalty entries)
   <= 25 * Z.of_nat (length entries))%Z.
Proof.
  induction entries as [|d entries IH]; [simpl; lia|].
  cbn [map Spec.total fold_right length]. fold (Spec.total (map Spec.keyword_penalty entries)).
  pose proof (keyword_penalty_range d). lia.
Qed.

Lemma total_snoc (xs : list Z) (x : Z) : Spec.total (xs ++ [x]) = (Spec.total xs + x)%Z.
Proof.
  unfold Spec.total. induction xs as [|y xs IH]; simpl; [lia | rewrite IH; lia].
Qed.

Lemma word_count_penalty_range (n : nat) : (0 <= Spec.word_count_penalty n <= 30)%Z.
Proof. unfold Spec.word_count_penalty. split_ifs; lia. Qed.

Lemma structure_penalty_range (s : SEOOptimizer.Structure) :
  (0 <= Spec.structure_penalty s <= 15)%Z.
Proof. unfold Spec.structure_penalty. split_ifs; lia. Qed.

(** X2: the score is at most 70 for a text under 500 words and at most 85
    for one under 800 words, whatever the keywords and the structure; and
    it is at least 55 minus 25 for each distinct keyword. *)
Theorem seo_score_bounds
        (U : Unicode) (self : SEOOptimizer.Self) (content : str) (keywords : list str) :
  let r := SEOOptimizer.analyze_content U self content keywords in
  let words := SEOOptimizer.word_count (SEOOptimizer.analysis r) in
  ((words < 500)%nat -> (SEOOptimizer.seo_score r <= 70)%Z)
  /\ ((words < 800)%nat -> (SEOOptimizer.seo_score r <= 85)%Z)
  /\ (55 - 25 * Z.of_nat (length (first_occurrences keywords))
      <= SEOOptimizer.seo_score r)%Z.
Proof.
  cbv zeta. rewrite seo_score_formula; cbv zeta.
  set (a := SEOOptimizer.analysis (SEOOptimizer.analyze_content U self content keywords)).
  pose proof (total_penalties_range (Dict.values (SEOOptimizer.keyword_analysis a))) as T.
  pose proof (structure_penalty_range (SEOOptimizer.structure a)) as S.
  pose proof (word_count_penalty_range (SEOOptimizer.word_count a)) as W.
  assert (L : length (Dict.values (SEOOptimizer.keyword_analysis a))
              = length (first_occurrences keywords)).
  { subst a. unfold SEOOptimizer.analyze_content; cbv zeta.
    cbn [SEOOptimizer.analysis SEOOptimizer.keyword_analysis].
    rewrite analyze_keywords_entries. unfold Dict.values. rewrite !length_map. reflexivity. }
  rewrite L in T. unfold Spec.clamp.
  repeat split.
  - intros H. unfold Spec.word_count_penalty in *.
    destruct (Nat.ltb_spec (SEOOptimizer.word_count a) 500); lia.
  - intros H. unfold Spec.word_count_penalty in *.
    destruct (Nat.ltb_spec (SEOOptimizer.word_count a) 500);
      [|destruct (Nat.ltb_spec (SEOOptimizer.word_count a) 800)]; lia.
  - lia.
Qed.

(** The theorem at the empty text, which has no words. *)
Lemma seo_score_bounds_witness :
  let r := SEOOptimizer.analyze_content tables SEOOptimizer.seo_optimizer [] [py "seo"] in
  (SEOOptimizer.word_count (SEOOptimizer.analysis r) < 500)%nat
  /\ (30 <= SEOOptimizer.seo_score r <= 70)%Z.
Proof.
  cbv zeta.
  destruct (@seo_score_bounds tables SEOOptimizer.seo_optimizer [] [py "seo"])
    as [A [_ B]].
  assert (W : (SEOOptimizer.word_count
                 (SEOOptimizer.analysis
                    (SEOOptimizer.analyze_content tables SEOOptimizer.seo_optimizer []
                                                  [py "seo"])) < 500)%nat)
    by (vm_compute; lia).
  split; [exact W|]. split; [exact B | exact (A W)].
Defined.

(** X3: a further keyword never raises the score. *)
Theorem one_more_keyword_never_raises_score
        (U : Unicode) (self : SEOOptimizer.Self) (content : str)
        (keywords : list str) (keyword : str) :
  (SEOOptimizer.seo_score (SEOOptimizer.analyze_content U self content (keywords ++ [keyword]))
   <= SEOOptimizer.seo_score (SEOOptimizer.analyze_content U self content keywords))%Z.
Proof.
  rewrite !seo_score_formula; cbv zeta.
  unfold SEOOptimizer.analyze_content; cbv zeta.
  cbn [SEOOptimizer.analysis SEOOptimizer.word_count SEOOptimizer.structure
       SEOOptimizer.keyword_analysis].
  rewrite !analyze_keywords_entries, first_occurrences_snoc.
  unfold Dict.values. rewrite !map_map. cbn [snd].
  unfold add_key. destruct (existsb (str_eqb keyword) (first_occurrences keywords)).
  - lia.
  - rewrite map_app. cbn [map].
    rewrite total_snoc.
    match goal with
    | |- context [Spec.keyword_penalty ?d] => pose proof (keyword_penalty_range d)
    end.
    unfold Spec.clamp. lia.
Qed.

(** ** Penalties and recommendations *)

Lemma recommendations_formula
      (U : Unicode) (self : SEOOptimizer.Self) (content : str) (keywords : list str) :
  let a := SEOOptimizer.analysis (SEOOptimizer.analyze_content U self content keywords) in
  SEOOptimizer.recommendations a
  = Spec.messages_before (SEOOptimizer.word_count a)
    ++ flat_map (SEOOptimizer.recommend_keyword []) (SEOOptimizer.keyword_analysis a)
    ++ Spec.messages_after (SEOOptimizer.structure a) (SEOOptimizer.readability a).
Proof.
  cbv zeta. unfold SEOOptimizer.analyze_content; cbv zeta.
  cbn [SEOOptimizer.analysis SEOOptimizer.word_count SEOOptimizer.recommendations
       SEOOptimizer.structure SEOOptimizer.readability SEOOptimizer.keyword_analysis].
  unfold SEOOptimizer._generate_recommendations; cbv zeta.
  cbn [SEOOptimizer.word_count SEOOptimizer.structure SEOOptimizer.keyword_analysis
       SEOOptimizer.readability].
  rewrite append_if_elif, !append_if, fold_recommend.
  unfold Spec.messages_before, Spec.messages_after.
  rewrite <- !app_assoc. reflexivity.
Qed.

Lemma assess_in_statuses (self : SEOOptimizer.Self) (density : Q) (count : nat) :
  In (SEOOptimizer._assess_keyword_usage self density count) Spec.statuses.
Proof.
  unfold SEOOptimizer._assess_keyword_usage, Spec.statuses. split_ifs; simpl; tauto.
Qed.

(** An entry that adds no message costs nothing. *)
Lemma silent_entry_is_free (keyword : str) (data : SEOOptimizer.KeywordStat) :
  In (SEOOptimizer.status data) Spec.statuses ->
  SEOOptimizer.recommend_keyword [] (keyword, data) = [] ->
  Spec.keyword_penalty data = 0%Z.
Proof.
  intros S. unfold SEOOptimizer.recommend_keyword, Spec.keyword_penalty; cbv zeta.
  destruct (SEOOptimizer.in_first_paragraph data); simpl negb; cbv iota.
  - destruct S as [<-|[<-|[<-|[<-|[]]]]]; cbn -[app];
      destruct (negb (SEOOptimizer.in_headings data)); cbn;
      try discriminate; reflexivity.
  - intros H. exfalso. revert H.
    destruct (str_eqb (SEOOptimizer.status data) (py "missing"));
      [|destruct (str_eqb (SEOOptimizer.status data) (py "too_low"));
        [|destruct (str_eqb (SEOOptimizer.status data) (py "too_high"))]];
      destruct (negb (SEOOptimizer.in_headings data)); cbn; discriminate.
Qed.

Lemma flat_map_nil (A B : Type) (f : A -> list B) (l : list A) :
  flat_map f l = [] -> forall x, In x l -> f x = [].
Proof.
  induction l as [|y l IH]; simpl; [tauto|].
  intros H x [->|Hx]; apply app_eq_nil in H; [tauto | apply IH; tauto].
Qed.

(** X4: every deduction from the score comes with a recommendation: a
    report without recommendations has the score 100. *)
Theorem no_recommendation_means_full_score
        (U : Unicode) (self : SEOOptimizer.Self) (content : str) (keywords : list str) :
  let r := SEOOptimizer.analyze_content U self content keywords in
  SEOOptimizer.recommendations (SEOOptimizer.analysis r) = [] ->
  SEOOptimizer.seo_score r = 100%Z.
Proof.
  cbv zeta. rewrite recommendations_formula, seo_score_formula; cbv zeta.
  intros H. apply app_eq_nil in H. destruct H as [B H].
  apply app_eq_nil in H. destruct H as [K A].
  assert (W : Spec.word_count_penalty
                (SEOOptimizer.word_count
                   (SEOOptimizer.analysis
                      (SEOOptimizer.analyze_content U self content keywords))) = 0%Z).
  { revert B. unfold Spec.messages_before, Spec.word_count_penalty.
    destruct (Nat.ltb_spec (SEOOptimizer.word_count
                              (SEOOptimizer.analysis
                                 (SEOOptimizer.analyze_content U self content keywords))) 800);
      [discriminate|].
    intros _. destruct (Nat.ltb_spec (SEOOptimizer.word_count
                              (SEOOptimizer.analysis
                                 (SEOOptimizer.analyze_content U self content keywords))) 500);
      [lia | reflexivity]. }
  assert (S : Spec.structure_penalty
                (SEOOptimizer.structure
                   (SEOOptimizer.analysis
                      (SEOOptimizer.analyze_content U self content keywords))) = 0%Z).
  { unfold SEOOptimizer.analyze_content in A |- *; cbv zeta in A |- *.
    cbn [SEOOptimizer.analysis SEOOptimizer.structure SEOOptimizer.readability] in A |- *.
    unfold Spec.messages_after, Spec.structure_penalty, SEOOptimizer._analyze_structure
      in A |- *; cbv zeta in A |- *.
    cbn [SEOOptimizer.h1_count SEOOptimizer.h2_count SEOOptimizer.link_count
         SEOOptimizer.has_lists SEOOptimizer.has_proper_hierarchy] in A |- *.
    set (h1 := length (Re.findall (SEOOptimizer.re_h1 U) content)) in *.
    set (h2 := length (Re.findall (SEOOptimizer.re_h2 U) content)) in *.
    set (links := length (Re.findall SEOOptimizer.re_link content)) in *.
    apply app_eq_nil in A. destruct A as [A1 A].
    apply app_eq_nil in A. destruct A as [A2 A].
    apply app_eq_nil in A. destruct A as [_ A].
    apply app_eq_nil in A. destruct A as [A4 _].
    destruct (Nat.eqb_spec h1 0); [discriminate A1|].
    destruct (Nat.ltb_spec 1 h1); [discriminate A1|].
    destruct (Nat.ltb_spec h2 2); [discriminate A2|].
    destruct (Nat.ltb_spec links 2); [discriminate A4|].
    replace (h1 =? 1)%nat with true by (symmetry; apply Nat.eqb_eq; lia).
    replace (2 <=? h2)%nat with true by (symmetry; apply Nat.leb_le; lia).
    reflexivity. }
  assert (T : Spec.total
                (map Spec.keyword_penalty
                     (Dict.values
                        (SEOOptimizer.keyword_analysis
                           (SEOOptimizer.analysis
                              (SEOOptimizer.analyze_content U self content keywords)))))
              = 0%Z).
  { revert K. unfold SEOOptimizer.analyze_content; cbv zeta.
    cbn [SEOOptimizer.analysis SEOOptimizer.keyword_analysis].
    rewrite analyze_keywords_entries. intros K.
    unfold Dict.values. rewrite !map_map. cbn [snd].
    induction (first_occurrences keywords) as [|k ks IH]; [reflexivity|].
    cbn [map flat_map] in *. apply app_eq_nil in K. destruct K as [K1 K2].
    unfold Spec.total in *. cbn [fold_right]. rewrite (IH K2).
    rewrite (@silent_entry_is_free k); [reflexivity | | exact K1].
    cbn [SEOOptimizer.keyword_entry SEOOptimizer.status]. apply assess_in_statuses. }
  rewrite W, S, T. reflexivity.
Qed.

(** The theorem at a text the optimizer has nothing to say about. *)
Lemma no_recommendation_means_full_score_witness :
  let r := SEOOptimizer.analyze_content tables SEOOptimizer.seo_optimizer
             Spec.text_without_issues [py "seo"] in
  SEOOptimizer.recommendations (SEOOptimizer.analysis r) = []
  /\ SEOOptimizer.seo_score r = 100%Z.
Proof.
  cbv zeta.
  assert (R : SEOOptimizer.recommendations
                (SEOOptimizer.analysis
                   (SEOOptimizer.analyze_content tables SEOOptimizer.seo_optimizer
                      Spec.text_without_issues [py "seo"])) = [])
    by (vm_compute; reflexivity).
  split; [exact R|].
  exact (@no_recommendation_means_full_score tables SEOOptimizer.seo_optimizer
           Spec.text_without_issues [py "seo"] R).
Defined.

(** ** What an entry of [keyword_analysis] can say *)

Lemma startswith_length (p s : str) :
  Str.startswith p s = true -> (length p <= length s)%nat.
Proof.
  intros H. destruct (startswith_app _ _ H) as [t ->]. rewrite length_app. lia.
Qed.

(** The occurrences [count] finds do not overlap. *)
Lemma count_from_bound (sub : str) (s : str) :
  forall skip, (skip <= length s)%nat ->
    (Str.count_from sub skip s * length sub + skip <= length s)%nat.
Proof.
  induction s as [|c s IH]; intros skip H; cbn [Str.count_from].
  - simpl in *. lia.
  - destruct skip as [|k].
    + destruct (Str.startswith sub (c :: s)) eqn:E.
      * apply startswith_length in E. simpl length in *.
        destruct sub as [|x sub]; [simpl; lia|].
        simpl length in *.
        replace (S (length sub) - 1)%nat with (length sub) by lia.
        specialize (IH (length sub) ltac:(lia)). nia.
      * specialize (IH 0%nat ltac:(lia)). simpl length. lia.
    + simpl length in *. specialize (IH k ltac:(lia)). lia.
Qed.

Lemma count_bound (s sub : str) :
  sub <> [] -> (Str.count s sub * length sub <= length s)%nat.
Proof.
  intros H. unfold Str.count. destruct sub as [|x sub]; [congruence|].
  pose proof (@count_from_bound (x :: sub) s 0%nat ltac:(lia)). lia.
Qed.

(** X5: every entry of [keyword_analysis] has one of the four statuses; a
    keyword found in the first paragraph is counted at least once and is
    never "missing"; the occurrences counted do not overlap, so the count
    times the keyword's length is at most the length of the lower-cased
    text, and the count is never more than that length plus one. *)
Theorem keyword_entry_invariants
        (U : Unicode) (self : SEOOptimizer.Self) (content : str)
        (keywords : list str) (keyword : str) (data : SEOOptimizer.KeywordStat) :
  Dict.get (SEOOptimizer.keyword_analysis
              (SEOOptimizer.analysis (SEOOptimizer.analyze_content U self content keywords)))
           keyword = Some data ->
  In (SEOOptimizer.status data) Spec.statuses
  /\ (SEOOptimizer.in_first_paragraph data = true ->
      (1 <= SEOOptimizer.count data)%nat /\ SEOOptimizer.status data <> py "missing")
  /\ (lower U keyword <> [] ->
      (SEOOptimizer.count data * length (lower U keyword) <= length (lower U content))%nat)
  /\ (SEOOptimizer.count data <= length (lower U content) + 1)%nat.
Proof.
  intros G.
  unfold SEOOptimizer.analyze_content in G; cbv zeta in G.
  cbn [SEOOptimizer.analysis SEOOptimizer.keyword_analysis] in G.
  apply get_keyword_entry_inv in G. subst data.
  cbn [SEOOptimizer.keyword_entry SEOOptimizer.status SEOOptimizer.count
       SEOOptimizer.in_first_paragraph].
  split; [apply assess_in_statuses|]. split; [|split].
  - intros C. apply contains_firstn, contains_count in C.
    split; [lia|]. rewrite assess_missing. lia.
  - apply count_bound.
  - destruct (lower U keyword) as [|x sub] eqn:E.
    + rewrite count_empty. lia.
    + pose proof (@count_bound (lower U content) (x :: sub) ltac:(discriminate)) as B.
      simpl length in B. nia.
Qed.

(** The theorem at the example text of the specification. *)
Lemma keyword_entry_invariants_witness :
  exists data,
    Dict.get (SEOOptimizer.keyword_analysis
                (SEOOptimizer.analysis
                   (SEOOptimizer.analyze_content tables SEOOptimizer.seo_optimizer
                                                 Spec.text_title_ai [py "AI"])))
             (py "AI") = Some data
    /\ In (SEOOptimizer.status data) Spec.statuses
    /\ (SEOOptimizer.count data <= length (lower tables Spec.text_title_ai) + 1)%nat.
Proof.
  eexists. split; [vm_compute; reflexivity|].
  match goal with
  | |- In (SEOOptimizer.status ?d) _ /\ _ =>
      destruct (@keyword_entry_invariants tables SEOOptimizer.seo_optimizer
                  Spec.text_title_ai [py "AI"] (py "AI") d) as [A [_ [_ B]]];
        [vm_compute; reflexivity | split; [exact A | exact B]]
  end.
Defined.

(** X6: keywords are matched without regard to case, but listed as
    written: two keywords that differ only in case get two entries with
    equal statistics, and the penalties of both are deducted. *)
Theorem case_variants_are_separate_entries
        (U : Unicode) (self : SEOOptimizer.Self) (content : str) (k1 k2 : str) :
  lower U k1 = lower U k2 ->
  k1 <> k2 ->
  let r := SEOOptimizer.analyze_content U self content [k1; k2] in
  let a := SEOOptimizer.analysis r in
  exists data,
    SEOOptimizer.keyword_analysis a = [(k1, data); (k2, data)]
    /\ SEOOptimizer.seo_score r
       = Spec.clamp (100 - Spec.word_count_penalty (SEOOptimizer.word_count a)
                     - 2 * Spec.keyword_penalty data
                     - Spec.structure_penalty (SEOOptimizer.structure a))%Z.
Proof.
  intros L N; cbv zeta.
  exists (SEOOptimizer.keyword_entry U self content (lower U content)
            (SEOOptimizer._count_words U content) k1).
  assert (K : SEOOptimizer.keyword_analysis
                (SEOOptimizer.analysis (SEOOptimizer.analyze_content U self content [k1; k2]))
              = [(k1, SEOOptimizer.keyword_entry U self content (lower U content)
                        (SEOOptimizer._count_words U content) k1);
                 (k2, SEOOptimizer.keyword_entry U self content (lower U content)
                        (SEOOptimizer._count_words U content) k1)]).
  { unfold SEOOptimizer.analyze_content; cbv zeta.
    cbn [SEOOptimizer.analysis SEOOptimizer.keyword_analysis].
    rewrite analyze_keywords_entries. cbn [first_occurrences filter].
    assert (E : str_eqb k2 k1 = false) by (apply str_eqb_neq; congruence).
    rewrite E. cbn [negb map].
    unfold SEOOptimizer.keyword_entry. rewrite L. reflexivity. }
  split; [exact K|].
  rewrite seo_score_formula; cbv zeta. rewrite K.
  cbn [Dict.values map snd Spec.total fold_right]. f_equal. lia.
Qed.

(** The theorem at the keywords "AI" and "ai". *)
Lemma case_variants_are_separate_entries_witness :
  lower tables (py "AI") = lower tables (py "ai")
  /\ py "AI" <> py "ai"
  /\ length (SEOOptimizer.keyword_analysis
               (SEOOptimizer.analysis
                  (SEOOptimizer.analyze_content tables SEOOptimizer.seo_optimizer
                                                Spec.text_title_ai [py "AI"; py "ai"])))
     = 2%nat.
Proof.
  split; [reflexivity|]. split; [discriminate|].
  destruct (@case_variants_are_separate_entries tables SEOOptimizer.seo_optimizer
              Spec.text_title_ai (py "AI") (py "ai")) as [data [K _]];
    [reflexivity | discriminate |].
  rewrite K. reflexivity.
Defined.

(** ** The ranges of the scores *)

Lemma within_b_sound (lo hi : Z) (q : Q) :
  Spec.within_b lo hi q = true -> Spec.within lo hi q.
Proof.
  unfold Spec.within_b, Spec.within.
  rewrite !andb_true_iff, !Z.leb_le, Qeq_bool_iff.
  intros [[H1 H2] H3]. exists (Qfloor (q * 2)). auto.
Qed.

Ltac ranged := apply within_b_sound; vm_compute; reflexivity.

Section DimensionRanges.
Variable U : Unicode.
Variable content : str.

Lemma engagement_range : Spec.within 10 18 (ContentScorer._score_engagement U content).
Proof. unfold ContentScorer._score_engagement; cbv zeta. split_ifs; ranged. Qed.

Lemma structure_range : Spec.within 10 20 (ContentScorer._score_structure U content).
Proof. unfold ContentScorer._score_structure; cbv zeta. split_ifs; ranged. Qed.

Lemma clarity_range : Spec.within 10 18 (ContentScorer._score_clarity U content).
Proof.
  unfold ContentScorer._score_clarity; cbv zeta.
  destruct (ContentScorer.stripped_sentences U content); split_ifs; ranged.
Qed.

Lemma actionability_range : Spec.within 10 20 (ContentScorer._score_actionability U content).
Proof.
  unfold ContentScorer._score_actionability; cbv zeta.
  match goal with |- context [Py.of_nat ?n] => generalize n end.
  intros n. destruct (Nat.lt_ge_cases n 4) as [H|H].
  - destruct n as [|[|[|[|n]]]]; [split_ifs; ranged .. | lia].
  - rewrite (@min_cap 2.0 0.5 4 n); [split_ifs; ranged | | | exact H].
    + vm_compute; discriminate.
    + vm_compute; discriminate.
Qed.

Lemma professionalism_range :
  Spec.within 10 18 (ContentScorer._score_professionalism U content).
Proof. unfold ContentScorer._score_professionalism; cbv zeta. split_ifs; ranged. Qed.

Lemma hook_range : Spec.within 10 20 (ContentScorer._score_hook U content).
Proof. unfold ContentScorer._score_hook; cbv zeta. split_ifs; ranged. Qed.

Lemma linkedin_engagement_range :
  Spec.within 10 20 (ContentScorer._score_linkedin_engagement U content).
Proof. unfold ContentScorer._score_linkedin_engagement; cbv zeta. split_ifs; ranged. Qed.

Lemma cta_range : Spec.within 10 20 (ContentScorer._score_cta U content).
Proof.
  unfold ContentScorer._score_cta; cbv zeta.
  match goal with |- context [Py.of_nat ?n] => generalize n end.
  intros n. destruct (Nat.lt_ge_cases n 2) as [H|H].
  - destruct n as [|[|n]]; [split_ifs; ranged .. | lia].
  - rewrite (@min_cap 3.0 1.5 2 n); [split_ifs; ranged | | | exact H].
    + vm_compute; discriminate.
    + vm_compute; discriminate.
Qed.

Lemma formatting_range : Spec.within 6 20 (ContentScorer._score_linkedin_formatting content).
Proof.
  unfold ContentScorer._score_linkedin_formatting; cbv zeta. split_ifs; ranged.
Qed.

End DimensionRanges.

Lemma within_bounds (lo hi : Z) (q : Q) :
  Spec.within lo hi q -> lo # 2 <= q /\ q <= hi # 2.
Proof.
  intros [h [[H1 H2] E]]. rewrite E. unfold Qle; simpl. lia.
Qed.

Lemma mean_of_five_within (l1 h1 l2 h2 l3 h3 l4 h4 l5 h5 : Z) (a b c d e : Q) :
  Spec.within l1 h1 a -> Spec.within l2 h2 b -> Spec.within l3 h3 c ->
  Spec.within l4 h4 d -> Spec.within l5 h5 e ->
  exists h : Z, (l1 + l2 + l3 + l4 + l5 <= h <= h1 + h2 + h3 + h4 + h5)%Z
                /\ Py.sum [a; b; c; d; e] / Py.of_nat 5 == h # 10.
Proof.
  intros [ha [Ha Ea]] [hb [Hb Eb]] [hc [Hc Ec]] [hd [Hd Ed]] [he [He Ee]].
  exists (ha + hb + hc + hd + he)%Z. split; [lia|].
  unfold Py.sum; simpl fold_left. rewrite Ea, Eb, Ec, Ed, Ee.
  unfold Py.of_nat, Qeq, Qdiv, Qmult, Qplus, Qinv; simpl. lia.
Qed.

Lemma mean_of_three_within (l1 h1 l2 h2 l3 h3 : Z) (a b c : Q) :
  Spec.within l1 h1 a -> Spec.within l2 h2 b -> Spec.within l3 h3 c ->
  exists h : Z, (l1 + l2 + l3 <= h <= h1 + h2 + h3)%Z
                /\ Py.sum [a; b; c] / Py.of_nat 3 == h # 6.
Proof.
  intros [ha [Ha Ea]] [hb [Hb Eb]] [hc [Hc Ec]].
  exists (ha + hb + hc)%Z. split; [lia|].
  unfold Py.sum; simpl fold_left. rewrite Ea, Eb, Ec.
  unfold Py.of_nat, Qeq, Qdiv, Qmult, Qplus, Qinv; simpl. lia.
Qed.

Lemma rounded_tenths_range (h : Z) :
  (46 <= h <= 100)%Z -> 4.6 <= Py.round (h # 10) 1 /\ Py.round (h # 10) 1 <= 10.
Proof.
  intros H.
  assert (G : forallb (fun h => (h <? 46)%Z || Spec.rounded_mean_within 10 4.6 10 h)
                      (Spec.upto 100) = true)
    by (vm_compute; reflexivity).
  assert (I : In h (Spec.upto 100)) by (apply (upto_in 100); lia).
  rewrite forallb_forall in G. specialize (G h I).
  destruct (Z.ltb_spec h 46); [lia|]. cbn [orb] in G.
  unfold Spec.rounded_mean_within in G. apply andb_true_iff in G.
  rewrite !Qle_bool_iff in G. exact G.
Qed.

Lemma rounded_sixths_range (h : Z) :
  (30 <= h <= 54)%Z -> 4.6 <= Py.round (h # 6) 1 /\ Py.round (h # 6) 1 <= 10.
Proof.
  intros H.
  assert (G : forallb (fun h => (h <? 30)%Z || Spec.rounded_mean_within 6 4.6 10 h)
                      (Spec.upto 54) = true)
    by (vm_compute; reflexivity).
  assert (I : In h (Spec.upto 54)) by (apply (upto_in 54); lia).
  rewrite forallb_forall in G. specialize (G h I).
  destruct (Z.ltb_spec h 30); [lia|]. cbn [orb] in G.
  unfold Spec.rounded_mean_within in G. apply andb_true_iff in G.
  rewrite !Qle_bool_iff in G. exact G.
Qed.

Lemma at_least_five (lo hi : Z) (q : Q) :
  Spec.within lo hi q -> (10 <=? lo)%Z = true -> 3 <= q /\ 5 <= q.
Proof.
  intros [h [[H1 H2] E]] L. apply Z.leb_le in L. rewrite E. unfold Qle; simpl. lia.
Qed.

(** X7: no dimension score is below 3.0, and none but "formatting" is
    below 5.0, so the lower clamp [max(0.0, score)] never takes effect;
    [overall_score] lies between 4.6 and 10 for every text and selector. *)
Theorem score_floors_and_overall_range
        (U : Unicode) (now content content_type : str) :
  let r := ContentScorer.score_content U now content content_type in
  Forall (fun item : str * Q =>
            3 <= snd item /\ (fst item <> py "formatting" -> 5 <= snd item))
         (ContentScorer.dimension_scores r)
  /\ 4.6 <= ContentScorer.overall_score r
  /\ ContentScorer.overall_score r <= 10.
Proof.
  cbv zeta. unfold ContentScorer.score_content.
  pose proof (at_least_five (engagement_range U content) eq_refl) as E.
  pose proof (at_least_five (structure_range U content) eq_refl) as S.
  pose proof (at_least_five (clarity_range U content) eq_refl) as C.
  pose proof (at_least_five (actionability_range U content) eq_refl) as A.
  pose proof (at_least_five (professionalism_range U content) eq_refl) as P.
  pose proof (at_least_five (hook_range U content) eq_refl) as H.
  pose proof (at_least_five (linkedin_engagement_range U content) eq_refl) as L.
  pose proof (at_least_five (cta_range U content) eq_refl) as T.
  destruct (within_bounds (formatting_range content)) as [F _].
  destruct (str_eqb content_type (py "blog"));
    [|destruct (str_eqb content_type (py "linkedin"))];
    cbn [ContentScorer.overall_score ContentScorer.dimension_scores
         ContentScorer._score_blog_content ContentScorer._score_linkedin_content
         ContentScorer._score_general_content].
  - split; [repeat constructor; cbn [fst snd]; tauto|].
    destruct (mean_of_five_within (engagement_range U content) (structure_range U content)
                (clarity_range U content) (actionability_range U content)
                (professionalism_range U content)) as [h [B Eq]].
    match goal with |- _ <= ?o /\ _ =>
      assert (R : o = Py.round (h # 10) 1) by (apply round_comp; exact Eq); rewrite R
    end. apply rounded_tenths_range. lia.
  - split.
    + repeat constructor; cbn [fst snd]; try tauto.
      eapply Qle_trans; [|exact F]. vm_compute; discriminate.
    + destruct (mean_of_five_within (hook_range U content)
                  (linkedin_engagement_range U content)
                  (professionalism_range U content) (cta_range U content)
                  (formatting_range content)) as [h [B Eq]].
      match goal with |- _ <= ?o /\ _ =>
      assert (R : o = Py.round (h # 10) 1) by (apply round_comp; exact Eq); rewrite R
    end. apply rounded_tenths_range. lia.
  - split; [repeat constructor; cbn [fst snd]; tauto|].
    destruct (mean_of_three_within (clarity_range U content) (engagement_range U content)
                (professionalism_range U content)) as [h [B Eq]].
    match goal with |- _ <= ?o /\ _ =>
      assert (R : o = Py.round (h # 6) 1) by (apply round_comp; exact Eq); rewrite R
    end. apply rounded_sixths_range. lia.
Qed.

(** ** The hook and the first line *)

Lemma hd_split_line (s cur : str) :
  hd [] (Str.split_from [NL] 0 cur s) = rev cur ++ Spec.first_line s.
Proof.
  revert cur; induction s as [|c s IH]; intros cur; cbn [Str.split_from Spec.first_line].
  - rewrite app_nil_r. reflexivity.
  - cbn [Str.startswith]. rewrite N.eqb_sym.
    destruct (N.eqb c NL); cbn [andb hd].
    + rewrite app_nil_r. reflexivity.
    + rewrite IH. simpl. rewrite <- app_assoc. reflexivity.
Qed.

Lemma first_line_idem (s : str) : Spec.first_line (Spec.first_line s) = Spec.first_line s.
Proof.
  induction s as [|c s IH]; simpl; [reflexivity|].
  destruct (N.eqb c NL) eqn:E; simpl; [reflexivity|]. rewrite E, IH. reflexivity.
Qed.

Lemma hook_first_line (content : str) :
  match content with
  | [] => []
  | _ :: _ => hd [] (Str.split content [NL])
  end = Spec.first_line content.
Proof.
  destruct content as [|c s]; [reflexivity|].
  unfold Str.split. rewrite hd_split_line. reflexivity.
Qed.

(** X8: the hook score looks at the first line only: a text and its first
    line alone have the same hook score. *)
Theorem hook_depends_on_first_line (U : Unicode) (content : str) :
  ContentScorer._score_hook U content
  = ContentScorer._score_hook U (Spec.first_line content).
Proof.
  unfold ContentScorer._score_hook; cbv zeta.
  rewrite !hook_first_line, first_line_idem. reflexivity.
Qed.

(** ** Strengths and improvements *)

Lemma or_default_length (xs : list str) (fallback : str) :
  length (ContentScorer.or_default xs fallback) = Nat.max 1 (length xs).
Proof. destruct xs as [|x [|y xs]]; reflexivity. Qed.

Lemma flat_map_select_length (A B : Type) (test : A -> bool) (f : A -> B) (l : list A) :
  length (flat_map (fun x => if test x then [f x] else []) l) = length (filter test l).
Proof.
  induction l as [|x l IH]; simpl; [reflexivity|].
  destruct (test x); simpl; rewrite IH; reflexivity.
Qed.

Lemma identify_strengths_length (U : Unicode) (scores : Dict.t Q) :
  length (ContentScorer._identify_strengths U scores)
  = Nat.max 1 (Spec.qualifying (fun q => Py.geb q 8.0) scores).
Proof.
  unfold ContentScorer._identify_strengths, Spec.qualifying; cbv zeta.
  rewrite or_default_length. f_equal.
  rewrite <- (flat_map_select_length (fun item : str * Q => Py.geb (snd item) 8.0)
                (fun item : str * Q => title U (Str.replace_char 95 32 (fst item)))).
  f_equal. apply flat_map_ext. intros [dimension score]. reflexivity.
Qed.

Lemma identify_improvements_length (scores : Dict.t Q) :
  length (ContentScorer._identify_improvements scores)
  = Nat.max 1 (Spec.qualifying (fun q => Py.ltb q 6.0) scores).
Proof.
  unfold ContentScorer._identify_improvements, Spec.qualifying; cbv zeta.
  rewrite or_default_length. f_equal.
  rewrite <- (flat_map_select_length (fun item : str * Q => Py.ltb (snd item) 6.0)
                (fun item : str * Q => py "Improve " ++ Str.replace_char 95 32 (fst item))).
  f_equal. apply flat_map_ext. intros [dimension score]. reflexivity.
Qed.

Lemma strong_is_not_weak (q : Q) : Py.geb q 8.0 = true -> Py.ltb q 6.0 = false.
Proof.
  unfold Py.geb, Py.ltb. intros H. apply Qle_bool_iff in H.
  apply negb_false_iff, Qle_bool_iff. eapply Qle_trans; [|exact H].
  vm_compute; discriminate.
Qed.

Lemma qualifying_disjoint (scores : Dict.t Q) :
  (Spec.qualifying (fun q => Py.geb q 8.0) scores
   + Spec.qualifying (fun q => Py.ltb q 6.0) scores <= length scores)%nat.
Proof.
  unfold Spec.qualifying. induction scores as [|[k q] l IH]; simpl; [lia|].
  destruct (Py.geb q 8.0) eqn:E.
  - rewrite (strong_is_not_weak _ E). simpl. lia.
  - destruct (Py.ltb q 6.0); simpl; lia.
Qed.

Lemma flat_map_select (A B : Type) (test : A -> bool) (f : A -> B) (l : list A) :
  flat_map (fun x => if test x then [f x] else []) l = map f (filter test l).
Proof.
  induction l as [|x l IH]; simpl; [reflexivity|].
  destruct (test x); simpl; rewrite IH; reflexivity.
Qed.

Lemma or_default_lines (line : str -> str) (dimensions : list str) (fallback : str) :
  ContentScorer.or_default (map line dimensions) fallback
  = Spec.lines_or_fallback line dimensions fallback.
Proof. destruct dimensions; reflexivity. Qed.

Lemma replace_char_spaced (dimension : str) :
  Str.replace_char 95 32 dimension = Spec.spaced dimension.
Proof.
  unfold Spec.spaced, Str.replace_char.
  induction dimension as [|c s IH]; simpl; [reflexivity|].
  rewrite <- IH. reflexivity.
Qed.

Lemma identify_strengths_lines (U : Unicode) (scores : Dict.t Q) :
  ContentScorer._identify_strengths U scores
  = Spec.lines_or_fallback (fun dimension => title U (Spec.spaced dimension))
      (Spec.dimensions_where (fun q => Py.geb q 8.0) scores)
      (py "Good baseline quality").
Proof.
  unfold ContentScorer._identify_strengths, Spec.dimensions_where; cbv zeta.
  rewrite <- or_default_lines, map_map. f_equal.
  rewrite <- (flat_map_select (fun item : str * Q => Py.geb (snd item) 8.0)).
  apply flat_map_ext. intros [dimension score]. cbn [fst snd].
  rewrite replace_char_spaced. reflexivity.
Qed.

Lemma identify_improvements_lines (scores : Dict.t Q) :
  ContentScorer._identify_improvements scores
  = Spec.lines_or_fallback (fun dimension => py "Improve " ++ Spec.spaced dimension)
      (Spec.dimensions_where (fun q => Py.ltb q 6.0) scores)
      (py "Minor refinements only").
Proof.
  unfold ContentScorer._identify_improvements, Spec.dimensions_where; cbv zeta.
  rewrite <- or_default_lines, map_map. f_equal.
  rewrite <- (flat_map_select (fun item : str * Q => Py.ltb (snd item) 6.0)).
  apply flat_map_ext. intros [dimension score]. cbn [fst snd].
  rewrite replace_char_spaced. reflexivity.
Qed.

Lemma dimensions_where_in (test : Q -> bool) (scores : Dict.t Q) (dimension : str) :
  In dimension (Spec.dimensions_where test scores)
  <-> exists score, In (dimension, score) scores /\ test score = true.
Proof.
  unfold Spec.dimensions_where. rewrite in_map_iff. split.
  - intros [[d q] [E I]]. apply filter_In in I. cbn [fst snd] in *. subst d.
    exists q. exact I.
  - intros [q [I T]]. exists (dimension, q). split; [reflexivity|].
    apply filter_In. split; [exact I | exact T].
Qed.

(** X9: a blog or LinkedIn report has [strengths] and [improvements].
    [strengths] has one line for each dimension scoring at least 8.0, in
    the order of [dimension_scores]: the dimension with its underscores
    turned into spaces, in title case; when no dimension scores that high
    it is the single line "Good baseline quality".  [improvements] has the
    line "Improve " followed by the dimension, underscores turned into
    spaces, for each dimension scoring below 6.0, or else the single line
    "Minor refinements only".  A dimension is named in a list exactly when
    its score qualifies, so neither list is empty, no dimension is named
    in both, and together they have at most 6 lines.  A report of the
    general variant has neither key. *)
Theorem strengths_and_improvements_shape
        (U : Unicode) (now content content_type : str) :
  let r := ContentScorer.score_content U now content content_type in
  let scores := ContentScorer.dimension_scores r in
  let strong := Spec.dimensions_where (fun q => Py.geb q 8.0) scores in
  let weak := Spec.dimensions_where (fun q => Py.ltb q 6.0) scores in
  if str_eqb content_type (py "blog") || str_eqb content_type (py "linkedin")
  then exists s i,
      ContentScorer.strengths r = Some s
      /\ ContentScorer.improvements r = Some i
      /\ s = Spec.lines_or_fallback (fun dimension => title U (Spec.spaced dimension))
               strong (py "Good baseline quality")
      /\ i = Spec.lines_or_fallback (fun dimension => py "Improve " ++ Spec.spaced dimension)
               weak (py "Minor refinements only")
      /\ (forall dimension : str,
             (In dimension strong
              <-> exists score, In (dimension, score) scores /\ 8 <= score)
             /\ (In dimension weak
                 <-> exists score, In (dimension, score) scores /\ score < 6))
      /\ (forall dimension : str, In dimension strong -> ~ In dimension weak)
      /\ length s = Nat.max 1 (length strong)
      /\ length i = Nat.max 1 (length weak)
      /\ (length s + length i <= 6)%nat
  else ContentScorer.strengths r = None /\ ContentScorer.improvements r = None.
Proof.
  cbv zeta.
  assert (G : forall scores : Dict.t Q,
             NoDup (Dict.keys scores) -> (length scores <= 5)%nat ->
             let strong := Spec.dimensions_where (fun q => Py.geb q 8.0) scores in
             let weak := Spec.dimensions_where (fun q => Py.ltb q 6.0) scores in
             (forall dimension : str,
                 (In dimension strong
                  <-> exists score, In (dimension, score) scores /\ 8 <= score)
                 /\ (In dimension weak
                     <-> exists score, In (dimension, score) scores /\ score < 6))
             /\ (forall dimension : str, In dimension strong -> ~ In dimension weak)
             /\ length (ContentScorer._identify_strengths U scores)
                = Nat.max 1 (length strong)
             /\ length (ContentScorer._identify_improvements scores)
                = Nat.max 1 (length weak)
             /\ (length (ContentScorer._identify_strengths U scores)
                 + length (ContentScorer._identify_improvements scores) <= 6)%nat).
  { intros scores N L; cbv zeta.
    assert (M : forall dimension : str,
               (In dimension (Spec.dimensions_where (fun q => Py.geb q 8.0) scores)
                <-> exists score, In (dimension, score) scores /\ 8 <= score)
               /\ (In dimension (Spec.dimensions_where (fun q => Py.ltb q 6.0) scores)
                   <-> exists score, In (dimension, score) scores /\ score < 6)).
    { intros dimension. rewrite !dimensions_where_in. split.
      - split; intros [q [I T]]; exists q; (split; [exact I|]).
        + unfold Py.geb in T. apply Qle_bool_iff in T.
          eapply Qle_trans; [|exact T]. vm_compute; discriminate.
        + unfold Py.geb. apply Qle_bool_iff.
          eapply Qle_trans; [|exact T]. vm_compute; discriminate.
      - split; intros [q [I T]]; exists q; (split; [exact I|]).
        + unfold Py.ltb in T. apply negb_true_iff in T.
          destruct (Qlt_le_dec q 6) as [Lt | Ge]; [exact Lt|].
          assert (B : Qle_bool 6.0 q = true).
          { apply Qle_bool_iff. eapply Qle_trans; [|exact Ge]. vm_compute; discriminate. }
          congruence.
        + unfold Py.ltb. apply negb_true_iff.
          destruct (Qle_bool 6.0 q) eqn:B; [|reflexivity].
          apply Qle_bool_iff in B. exfalso. apply (Qlt_not_le _ _ T).
          eapply Qle_trans; [|exact B]. vm_compute; discriminate. }
    split; [exact M|]. split.
    - intros dimension S W.
      apply (proj1 (M dimension)) in S. apply (proj2 (M dimension)) in W.
      destruct S as [q1 [I1 S]]. destruct W as [q2 [I2 W]].
      assert (E : q1 = q2).
      { clear - N I1 I2. unfold Dict.keys in N.
        induction scores as [|[k q] l IH]; simpl in *; [tauto|].
        inversion N as [|? ? Hk Hl]; subst.
        destruct I1 as [E1 | I1]; destruct I2 as [E2 | I2].
        - congruence.
        - inversion E1; subst. exfalso. apply Hk.
          apply in_map_iff. exists (dimension, q2). auto.
        - inversion E2; subst. exfalso. apply Hk.
          apply in_map_iff. exists (dimension, q1). auto.
        - apply IH; assumption. }
      subst q2. apply (Qlt_not_le _ _ W). eapply Qle_trans; [|exact S].
      vm_compute; discriminate.
    - rewrite identify_strengths_length, identify_improvements_length.
      unfold Spec.dimensions_where, Spec.qualifying. rewrite !length_map.
      split; [reflexivity|]. split; [reflexivity|].
      pose proof (qualifying_disjoint scores) as D. unfold Spec.qualifying in D. lia. }
  unfold ContentScorer.score_content.
  destruct (str_eqb content_type (py "blog"));
    [|destruct (str_eqb content_type (py "linkedin"))];
    cbn [orb ContentScorer.strengths ContentScorer.improvements
         ContentScorer.dimension_scores
         ContentScorer._score_blog_content ContentScorer._score_linkedin_content
         ContentScorer._score_general_content];
    [| |split; reflexivity];
    (eexists; eexists; split; [reflexivity|]; split; [reflexivity|]);
    (split; [apply identify_strengths_lines|]);
    (split; [apply identify_improvements_lines|]);
    apply G;
    [vm_compute; repeat constructor; simpl; intuition discriminate | simpl; lia
    |vm_compute; repeat constructor; simpl; intuition discriminate | simpl; lia].
Qed.

(** The lines of two LinkedIn reports: of a text that scores at least 8.0
    on four dimensions and 7.0 on formatting, and of the empty text. *)
Example lines_of_two_reports :
  let r := ContentScorer.score_content tables (py "2024-01-01T00:00:00")
             Spec.text_engaging (py "linkedin") in
  let e := ContentScorer.score_content tables (py "2024-01-01T00:00:00")
             [] (py "linkedin") in
  ContentScorer.strengths r
  = Some [py "Hook Strength"; py "Engagement Potential"; py "Professionalism";
          py "Call To Action"]
  /\ ContentScorer.improvements r = Some [py "Minor refinements only"]
  /\ ContentScorer.strengths e = Some [py "Professionalism"]
  /\ ContentScorer.improvements e
     = Some [py "Improve engagement potential"; py "Improve call to action";
             py "Improve formatting"].
Proof. vm_compute. repeat split; reflexivity. Qed.

Lemma grade_a_plus (overall : Q) :
  ContentScorer._get_grade overall = py "A+" <-> 9 <= overall.
Proof.
  unfold ContentScorer._get_grade, Py.geb.
  destruct (Qle_bool 9.0 overall) eqn:E.
  - apply Qle_bool_iff in E. split; [intros _|reflexivity].
    eapply Qle_trans; [|exact E]. vm_compute; discriminate.
  - split.
    + split_ifs; intros H; vm_compute in H; discriminate H.
    + intros H. assert (G : Qle_bool 9.0 overall = true).
      { apply Qle_bool_iff. eapply Qle_trans; [|exact H]. vm_compute; discriminate. }
      congruence.
Qed.

Lemma grade_c_minus (overall : Q) :
  ContentScorer._get_grade overall = py "C-" <-> overall < 5.5.
Proof.
  unfold ContentScorer._get_grade, Py.geb.
  destruct (Qle_bool 5.5 overall) eqn:E.
  - split.
    + split_ifs; intros H; vm_compute in H; discriminate H.
    + intros H. apply Qle_bool_iff in E. exfalso.
      exact (Qlt_not_le _ _ H E).
  - assert (L : overall < 5.5).
    { apply Qnot_le_lt. intros H. apply Qle_bool_iff in H. congruence. }
    split; [intros _; exact L|intros _].
    assert (F : forall t, 5.5 <= t -> Qle_bool t overall = false).
    { intros t Ht. destruct (Qle_bool t overall) eqn:G; [|reflexivity].
      apply Qle_bool_iff in G. exfalso.
      exact (Qlt_not_le _ _ L (Qle_trans _ _ _ Ht G)). }
    rewrite !F by (vm_compute; discriminate). reflexivity.
Qed.

Lemma not_weak (h : Z) (q : Q) : q == h # 2 -> (12 <= h)%Z -> Py.ltb q 6.0 = false.
Proof.
  intros E H. unfold Py.ltb. apply negb_false_iff, Qle_bool_iff.
  rewrite E. unfold Qle; simpl. lia.
Qed.

Lemma not_strong (h : Z) (q : Q) : q == h # 2 -> (h < 16)%Z -> Py.geb q 8.0 = false.
Proof.
  intros E H. unfold Py.geb. destruct (Qle_bool 8.0 q) eqn:G; [|reflexivity].
  apply Qle_bool_iff in G. rewrite E in G. unfold Qle in G; simpl in G. lia.
Qed.

(** X10: in a blog report the grade A+ goes with no improvement to name
    (the list is the fallback line), and the grade C- with no strength to
    name. *)
Theorem blog_grade_extremes (U : Unicode) (now content : str) :
  let r := ContentScorer.score_content U now content (py "blog") in
  (ContentScorer.grade r = py "A+" ->
   ContentScorer.improvements r = Some [py "Minor refinements only"])
  /\ (ContentScorer.grade r = py "C-" ->
      ContentScorer.strengths r = Some [py "Good baseline quality"]).
Proof.
  cbv zeta. unfold ContentScorer.score_content. rewrite str_eqb_refl.
  cbn [ContentScorer.grade ContentScorer.improvements ContentScorer.strengths
       ContentScorer._score_blog_content].
  destruct (engagement_range U content) as [h1 [B1 E1]].
  destruct (structure_range U content) as [h2 [B2 E2]].
  destruct (clarity_range U content) as [h3 [B3 E3]].
  destruct (actionability_range U content) as [h4 [B4 E4]].
  destruct (professionalism_range U content) as [h5 [B5 E5]].
  assert (M : Py.sum
                (Dict.values
                   [(py "engagement", ContentScorer._score_engagement U content);
                    (py "structure", ContentScorer._score_structure U content);
                    (py "clarity", ContentScorer._score_clarity U content);
                    (py "actionability", ContentScorer._score_actionability U content);
                    (py "professionalism", ContentScorer._score_professionalism U content)])
              / Py.of_nat 5 == (h1 + h2 + h3 + h4 + h5) # 10).
  { unfold Py.sum; simpl fold_left. rewrite E1, E2, E3, E4, E5.
    unfold Py.of_nat, Qeq, Qdiv, Qmult, Qplus, Qinv; simpl. lia. }
  split; intros G.
  - apply grade_a_plus in G. cbn [length] in G. rewrite M in G.
    unfold Qle in G; simpl in G.
    unfold ContentScorer._identify_improvements; cbn [flat_map app].
    rewrite (not_weak E1), (not_weak E2), (not_weak E3), (not_weak E4), (not_weak E5)
      by lia.
    reflexivity.
  - apply grade_c_minus in G. cbn [length] in G. rewrite M in G.
    unfold Qlt in G; simpl in G.
    unfold ContentScorer._identify_strengths; cbn [flat_map app].
    rewrite (not_strong E1), (not_strong E2), (not_strong E3), (not_strong E4),
      (not_strong E5) by lia.
    reflexivity.
Qed.

(** The theorem at a post with every rewarded feature and at one long
    sentence with six exclamation marks. *)
Lemma blog_grade_extremes_witness :
  let best := ContentScorer.score_content tables [] Spec.text_model_post (py "blog") in
  let worst := ContentScorer.score_content tables [] Spec.text_weak_post (py "blog") in
  ContentScorer.grade best = py "A+"
  /\ ContentScorer.improvements best = Some [py "Minor refinements only"]
  /\ ContentScorer.grade worst = py "C-"
  /\ ContentScorer.strengths worst = Some [py "Good baseline quality"].
Proof.
  cbv zeta.
  assert (A : ContentScorer.grade
                (ContentScorer.score_content tables [] Spec.text_model_post (py "blog"))
              = py "A+") by (vm_compute; reflexivity).
  assert (C : ContentScorer.grade
                (ContentScorer.score_content tables [] Spec.text_weak_post (py "blog"))
              = py "C-") by (vm_compute; reflexivity).
  split; [exact A|].
  split; [exact (proj1 (@blog_grade_extremes tables [] Spec.text_model_post) A)|].
  split; [exact C|].
  exact (proj2 (@blog_grade_extremes tables [] Spec.text_weak_post) C).
Defined.

(** * The keyword fields of the interface *)

Lemma lstrip_hd (f : char -> bool) (s : str) :
  match Str.lstrip f s with
  | [] => True
  | c :: _ => f c = false
  end.
Proof.
  induction s as [|c s IH]; simpl; [exact I|].
  destruct (f c) eqn:E; [exact IH | exact E].
Qed.

Lemma lstrip_suffix (f : char -> bool) (s : str) :
  exists p, s = p ++ Str.lstrip f s.
Proof.
  induction s as [|c s [p IH]]; simpl.
  - exists []. reflexivity.
  - destruct (f c).
    + exists (c :: p). simpl. f_equal. exact IH.
    + exists []. reflexivity.
Qed.

Lemma lstrip_fixed (f : char -> bool) (s : str) :
  match s with
  | [] => True
  | c :: _ => f c = false
  end -> Str.lstrip f s = s.
Proof. destruct s as [|c s]; simpl; [reflexivity|]. intros ->. reflexivity. Qed.

Lemma strip_stripped (f : char -> bool) (s : str) : Spec.stripped f (Str.strip f s).
Proof.
  unfold Spec.stripped, Str.strip. split.
  - destruct (lstrip_suffix f (rev (Str.lstrip f s))) as [p E].
    set (l := Str.lstrip f (rev (Str.lstrip f s))) in *.
    assert (T : Str.lstrip f s = rev l ++ rev p).
    { rewrite <- rev_app_distr, <- E, rev_involutive. reflexivity. }
    pose proof (lstrip_hd f s) as H. rewrite T in H.
    destruct (rev l) as [|c r]; [exact I | exact H].
  - rewrite rev_involutive. apply lstrip_hd.
Qed.

Lemma stripped_fixed (f : char -> bool) (k : str) :
  Spec.stripped f k -> Str.strip f k = k.
Proof.
  intros [H1 H2]. unfold Str.strip.
  rewrite (lstrip_fixed f k H1), (lstrip_fixed f (rev k) H2). apply rev_involutive.
Qed.

Lemma strip_incl (f : char -> bool) (s : str) (c : char) :
  In c (Str.strip f s) -> In c s.
Proof.
  unfold Str.strip. rewrite <- in_rev. intros H.
  destruct (lstrip_suffix f (rev (Str.lstrip f s))) as [p E].
  assert (G : In c (rev (Str.lstrip f s))) by (rewrite E; apply in_or_app; auto).
  rewrite <- in_rev in G.
  destruct (lstrip_suffix f s) as [q E']. rewrite E'. apply in_or_app; auto.
Qed.

Lemma split_char_no_sep (c : char) (s : str) :
  forall cur, ~ In c cur ->
    Forall (fun seg => ~ In c seg) (Str.split_from [c] 0 cur s).
Proof.
  induction s as [|x s IH]; intros cur H; cbn [Str.split_from Str.startswith length Nat.sub].
  - constructor; [|constructor]. rewrite <- in_rev. exact H.
  - destruct (N.eqb_spec c x) as [E|E]; cbn [andb].
    + constructor; [rewrite <- in_rev; exact H|]. apply IH. simpl; tauto.
    + apply IH. simpl. intros [G|G]; [congruence | tauto].
Qed.

(** X11: every keyword the keyword fields deliver is non-empty, free of
    commas and of white space at either end (stripping it again changes
    nothing); so when the blog tab runs the SEO analysis there is at least
    one keyword and the empty keyword is not among the entries. *)
Theorem parsed_keywords_are_clean (U : Unicode) (content text : str) :
  Forall (fun k => Spec.clean_keyword U k /\ Str.strip (isspace U) k = k)
         (App.parse_keywords U text)
  /\ match App.blog_tab_seo U content text with
     | None => App.parse_keywords U text = []
     | Some r =>
         App.parse_keywords U text <> []
         /\ ~ In [] (Dict.keys (SEOOptimizer.keyword_analysis (SEOOptimizer.analysis r)))
     end.
Proof.
  assert (C : Forall (fun k => Spec.clean_keyword U k /\ Str.strip (isspace U) k = k)
                     (App.parse_keywords U text)).
  { unfold App.parse_keywords. apply Forall_forall. intros k Hk.
    apply in_map_iff in Hk. destruct Hk as [seg [<- Hseg]].
    apply filter_In in Hseg. destruct Hseg as [Hin Hne].
    apply negb_true_iff, str_eqb_neq in Hne.
    pose proof (strip_stripped (isspace U) seg) as S.
    split; [|apply stripped_fixed, S].
    split; [exact Hne|]. split; [|exact S].
    intros Hc. apply strip_incl in Hc.
    pose proof (@split_char_no_sep 44%N text [] ltac:(simpl; tauto)) as F.
    rewrite Forall_forall in F. exact (F seg Hin Hc). }
  split; [exact C|].
  unfold App.blog_tab_seo; cbv zeta.
  destruct (App.parse_keywords U text) as [|k ks] eqn:E; [reflexivity|].
  split; [discriminate|].
  unfold SEOOptimizer.analyze_content; cbv zeta.
  cbn [SEOOptimizer.analysis SEOOptimizer.keyword_analysis].
  rewrite analyze_keywords_entries. unfold Dict.keys. rewrite map_map. cbn [fst].
  rewrite map_id, first_occurrences_in. intros H.
  rewrite Forall_forall in C. destruct (C [] H) as [[N _] _]. congruence.
Qed.

Lemma split_char_join (U : Unicode) (ks : list str) :
  Forall (Spec.clean_keyword U) ks ->
  forall k cur, ~ In 44%N k ->
    Str.split_from [44%N] 0 cur (Str.join [44%N; 32%N] (k :: ks))
    = (rev cur ++ k) :: map (fun k' => 32%N :: k') ks.
Proof.
  assert (One : forall k t cur, ~ In 44%N k ->
            Str.split_from [44%N] 0 cur (k ++ 44%N :: t)
            = (rev cur ++ k) :: Str.split_from [44%N] 0 [] t).
  { induction k as [|x k IH]; intros t cur H.
    - simpl. rewrite app_nil_r. reflexivity.
    - cbn [app Str.split_from Str.startswith].
      destruct (N.eqb_spec 44 x) as [E|E]; [exfalso; apply H; simpl; auto|].
      cbn [andb]. rewrite IH by (simpl in H; tauto).
      simpl. rewrite <- app_assoc. reflexivity. }
  assert (Last : forall k cur, ~ In 44%N k ->
            Str.split_from [44%N] 0 cur k = [rev cur ++ k]).
  { induction k as [|x k IH]; intros cur H.
    - simpl. rewrite app_nil_r. reflexivity.
    - cbn [Str.split_from Str.startswith].
      destruct (N.eqb_spec 44 x) as [E|E]; [exfalso; apply H; simpl; auto|].
      cbn [andb]. rewrite IH by (simpl in H; tauto).
      simpl. rewrite <- app_assoc. reflexivity. }
  induction 1 as [|k' ks [_ [Hk' _]] Hks IH]; intros k cur Hk.
  - simpl. apply Last, Hk.
  - change (Str.join [44%N; 32%N] (k :: k' :: ks))
      with (k ++ 44%N :: 32%N :: Str.join [44%N; 32%N] (k' :: ks)).
    rewrite One by exact Hk.
    cbn [Str.split_from Str.startswith N.eqb Pos.eqb andb].
    rewrite IH by exact Hk'. reflexivity.
Qed.

(** X12: writing clean keywords into a field, separated by a comma and a
    space, and reading the field back gives the same keywords in the same
    order. *)
Theorem parse_keywords_of_joined (U : Unicode) (ks : list str) :
  isspace U 32%N = true ->
  Forall (Spec.clean_keyword U) ks ->
  App.parse_keywords U (Str.join (py ", ") ks) = ks.
Proof.
  intros Sp H. unfold App.parse_keywords, Str.split.
  change (py ",") with [44%N]. change (py ", ") with [44%N; 32%N].
  destruct H as [|k ks [Nk [Ck Sk]] Hks]; [reflexivity|].
  rewrite (@split_char_join U); [|exact Hks|exact Ck]. cbn [rev app filter map].
  rewrite (stripped_fixed Sk).
  assert (E : str_eqb k [] = false) by (apply str_eqb_neq; exact Nk).
  rewrite E. cbn [negb map]. rewrite (stripped_fixed Sk). f_equal.
  induction Hks as [|k' ks' [Nk' [Ck' Sk']] Hks' IH]; [reflexivity|].
  cbn [map filter].
  assert (T : Str.strip (isspace U) (32%N :: k') = k').
  { unfold Str.strip. cbn [Str.lstrip]. rewrite Sp. apply (stripped_fixed Sk'). }
  rewrite T.
  assert (E' : str_eqb k' [] = false) by (apply str_eqb_neq; exact Nk').
  rewrite E'. cbn [negb map]. rewrite T, IH. reflexivity.
Qed.

(** The theorem at the keywords of the field's placeholder. *)
Lemma parse_keywords_of_joined_witness :
  App.parse_keywords tables (py "AI, content marketing, automation")
  = [py "AI"; py "content marketing"; py "automation"].
Proof.
  apply (@parse_keywords_of_joined tables
           [py "AI"; py "content marketing"; py "automation"]).
  - reflexivity.
  - repeat constructor; try discriminate; vm_compute; intuition discriminate.
Defined.

(** * The document store *)

(** ** The stable sort by decreasing key *)

Section SortDesc.
Variable A : Type.
Variable key : A -> nat.

Lemma insert_desc_in (x y : A) (l : list A) :
  In y (PyList.insert_desc key x l) <-> y = x \/ In y l.
Proof.
  induction l as [|z l IH]; simpl; [intuition auto|].
  destruct (key x <? key z)%nat; simpl; [rewrite IH|]; intuition auto.
Qed.

Lemma sort_desc_in (y : A) (l : list A) : In y (PyList.sort_desc key l) <-> In y l.
Proof.
  induction l as [|x l IH]; simpl; [tauto|].
  rewrite insert_desc_in, IH. intuition auto.
Qed.

Lemma insert_desc_length (x : A) (l : list A) :
  length (PyList.insert_desc key x l) = S (length l).
Proof.
  induction l as [|z l IH]; simpl; [reflexivity|].
  destruct (key x <? key z)%nat; simpl; [rewrite IH|]; reflexivity.
Qed.

Lemma sort_desc_length (l : list A) : length (PyList.sort_desc key l) = length l.
Proof.
  induction l as [|x l IH]; simpl; [reflexivity|].
  rewrite insert_desc_length, IH. reflexivity.
Qed.

Lemma insert_desc_sorted (x : A) (l : list A) :
  StronglySorted (fun a b => (key b <= key a)%nat) l ->
  StronglySorted (fun a b => (key b <= key a)%nat) (PyList.insert_desc key x l).
Proof.
  induction 1 as [|z l Hs IH Hz]; simpl.
  - repeat constructor.
  - destruct (Nat.ltb_spec (key x) (key z)).
    + constructor; [exact IH|]. apply Forall_forall. intros y Hy.
      apply insert_desc_in in Hy. destruct Hy as [->|Hy]; [lia|].
      rewrite Forall_forall in Hz. auto.
    + constructor; [constructor; assumption|].
      constructor; [lia|]. eapply Forall_impl; [|exact Hz]. simpl. intros; lia.
Qed.

Lemma sort_desc_sorted (l : list A) :
  StronglySorted (fun a b => (key b <= key a)%nat) (PyList.sort_desc key l).
Proof.
  induction l as [|x l IH]; simpl; [constructor | apply insert_desc_sorted, IH].
Qed.

(** Elements with the same key keep their order. *)
Lemma insert_desc_stable (k : nat) (x : A) (l : list A) :
  filter (fun a => key a =? k)%nat (PyList.insert_desc key x l)
  = filter (fun a => key a =? k)%nat (x :: l).
Proof.
  induction l as [|z l IH]; [reflexivity|].
  cbn [PyList.insert_desc]. destruct (Nat.ltb_spec (key x) (key z)); [|reflexivity].
  cbn [filter] in *. rewrite IH.
  destruct (Nat.eqb_spec (key x) k); destruct (Nat.eqb_spec (key z) k);
    try reflexivity. lia.
Qed.

Lemma sort_desc_stable (k : nat) (l : list A) :
  filter (fun a => key a =? k)%nat (PyList.sort_desc key l)
  = filter (fun a => key a =? k)%nat l.
Proof.
  induction l as [|x l IH]; [reflexivity|].
  cbn [PyList.sort_desc fold_right]. rewrite insert_desc_stable.
  cbn [filter]. fold (PyList.sort_desc key l). rewrite IH. reflexivity.
Qed.

Lemma firstn_incl (k : nat) (l : list A) (x : A) : In x (firstn k l) -> In x l.
Proof.
  intros H. rewrite <- (firstn_skipn k l). apply in_or_app; left; exact H.
Qed.

Lemma upto_incl (n : Z) (l : list A) (x : A) : In x (PyList.upto n l) -> In x l.
Proof. unfold PyList.upto. destruct (0 <=? n)%Z; apply firstn_incl. Qed.

Lemma firstn_strongly_sorted (R : A -> A -> Prop) (n : nat) (l : list A) :
  StronglySorted R l -> StronglySorted R (firstn n l).
Proof.
  intros H; revert n. induction H as [|x l Hs IH Hx]; intros n.
  - rewrite firstn_nil. constructor.
  - destruct n; simpl; constructor; [apply IH|].
    apply Forall_forall. intros y Hy. rewrite Forall_forall in Hx. apply Hx.
    rewrite <- (firstn_skipn n l). apply in_or_app; auto.
Qed.

Lemma upto_sorted (R : A -> A -> Prop) (n : Z) (l : list A) :
  StronglySorted R l -> StronglySorted R (PyList.upto n l).
Proof.
  unfold PyList.upto. destruct (0 <=? n)%Z; apply firstn_strongly_sorted.
Qed.

Lemma upto_length (n : Z) (l : list A) :
  (0 <= n)%Z -> (Z.of_nat (length (PyList.upto n l)) <= n)%Z.
Proof.
  intros H. unfold PyList.upto. destruct (Z.leb_spec 0 n); [|lia].
  rewrite length_firstn. lia.
Qed.

Lemma upto_all (n : Z) (l : list A) :
  (Z.of_nat (length l) <= n)%Z -> PyList.upto n l = l.
Proof.
  intros H. unfold PyList.upto. destruct (Z.leb_spec 0 n); [|lia].
  apply firstn_all2. lia.
Qed.

End SortDesc.

(** ** Adding documents *)

Lemma type_exclusive (v : option value) :
  is_str v (py "brand_voice") = true -> is_str v (py "research") = false.
Proof.
  destruct v as [[| t | | | |]|]; simpl; try discriminate.
  intros H. apply str_eqb_eq in H. subst t. reflexivity.
Qed.

Lemma add_entry_fields (self : VectorStore.Self) (item : str * Dict.t value * str) :
  let self' := VectorStore.add_entry self item in
  VectorStore.documents self' = VectorStore.documents self ++ [Spec.entry_of item]
  /\ VectorStore.brand_voice_docs self'
     = VectorStore.brand_voice_docs self
       ++ filter (Spec.has_type (py "brand_voice")) [Spec.entry_of item]
  /\ VectorStore.research_docs self'
     = VectorStore.research_docs self
       ++ filter (Spec.has_type (py "research")) [Spec.entry_of item].
Proof.
  destruct item as [[doc meta] doc_id].
  unfold VectorStore.add_entry, Spec.has_type, Spec.entry_of; cbv zeta.
  cbn [filter VectorStore.metadata VectorStore.documents VectorStore.brand_voice_docs
       VectorStore.research_docs].
  destruct (is_str (Dict.get meta (py "type")) (py "brand_voice")) eqn:B.
  - rewrite (type_exclusive _ B).
    cbn [VectorStore.documents VectorStore.brand_voice_docs VectorStore.research_docs].
    rewrite app_nil_r. auto.
  - destruct (is_str (Dict.get meta (py "type")) (py "research"));
      cbn [VectorStore.documents VectorStore.brand_voice_docs VectorStore.research_docs];
      rewrite ?app_nil_r; auto.
Qed.

Lemma fold_add_entry_fields (items : list (str * Dict.t value * str)) :
  forall self,
    let self' := fold_left VectorStore.add_entry items self in
    let added := map Spec.entry_of items in
    VectorStore.documents self' = VectorStore.documents self ++ added
    /\ VectorStore.brand_voice_docs self'
       = VectorStore.brand_voice_docs self ++ filter (Spec.has_type (py "brand_voice")) added
    /\ VectorStore.research_docs self'
       = VectorStore.research_docs self ++ filter (Spec.has_type (py "research")) added.
Proof.
  induction items as [|item items IH]; intros self; cbv zeta.
  - simpl. rewrite !app_nil_r. auto.
  - cbn [fold_left map]. destruct (IH (VectorStore.add_entry self item)) as [D [B R]].
    destruct (add_entry_fields self item) as [D1 [B1 R1]].
    rewrite D, B, R, D1, B1, R1.
    change (Spec.entry_of item :: map Spec.entry_of items)
      with ([Spec.entry_of item] ++ map Spec.entry_of items).
    rewrite !filter_app, <- !app_assoc. auto.
Qed.

(** X13: [add_documents] only appends: the store keeps what it had, in
    order, and gains one entry for each position that all three lists
    have (what the longer lists have beyond the shortest is dropped);
    entries typed "brand_voice" or "research" are appended to the list of
    their type as well. *)
Theorem add_documents_appends
        (self : VectorStore.Self) (documents : list str)
        (metadatas : list (Dict.t value)) (ids : list str) :
  let self' := VectorStore.add_documents self documents metadatas ids in
  let added := map Spec.entry_of (combine (combine documents metadatas) ids) in
  VectorStore.documents self' = VectorStore.documents self ++ added
  /\ VectorStore.brand_voice_docs self'
     = VectorStore.brand_voice_docs self ++ filter (Spec.has_type (py "brand_voice")) added
  /\ VectorStore.research_docs self'
     = VectorStore.research_docs self ++ filter (Spec.has_type (py "research")) added
  /\ length added
     = Nat.min (Nat.min (length documents) (length metadatas)) (length ids).
Proof.
  cbv zeta. unfold VectorStore.add_documents.
  destruct (fold_add_entry_fields (combine (combine documents metadatas) ids) self)
    as [D [B R]].
  repeat split; try assumption.
  rewrite length_map, !length_combine. reflexivity.
Qed.

(** X14: in every store that calls of [add_documents] make of the empty
    store, [brand_voice_docs] is exactly the entries of [documents] typed
    "brand_voice", in their order, and [research_docs] those typed
    "research". *)
Theorem typed_lists_mirror_documents (self : VectorStore.Self) :
  Spec.reachable self ->
  VectorStore.brand_voice_docs self
  = filter (Spec.has_type (py "brand_voice")) (VectorStore.documents self)
  /\ VectorStore.research_docs self
     = filter (Spec.has_type (py "research")) (VectorStore.documents self).
Proof.
  induction 1 as [|self documents metadatas ids Hr [IHb IHr]]; [split; reflexivity|].
  unfold VectorStore.add_documents.
  destruct (fold_add_entry_fields (combine (combine documents metadatas) ids) self)
    as [D [B R]].
  rewrite D, B, R, !filter_app, IHb, IHr. auto.
Qed.

(** The theorem at a store with one example and one piece of research. *)
Lemma typed_lists_mirror_documents_witness :
  let self := VectorStore.store_research
                (VectorStore.add_brand_voice_example VectorStore.__init__
                   (py "We keep it plain.") (py "brand_voice_1"))
                (py "ai") (py "AI helps writers.") (py "serper_api") (py "research_1") in
  Spec.reachable self
  /\ map VectorStore.id (VectorStore.research_docs self) = [py "research_1"]
  /\ VectorStore.research_docs self
     = filter (Spec.has_type (py "research")) (VectorStore.documents self).
Proof.
  cbv zeta.
  assert (R : Spec.reachable
                (VectorStore.store_research
                   (VectorStore.add_brand_voice_example VectorStore.__init__
                      (py "We keep it plain.") (py "brand_voice_1"))
                   (py "ai") (py "AI helps writers.") (py "serper_api")
                   (py "research_1"))).
  { unfold VectorStore.store_research, VectorStore.add_brand_voice_example.
    repeat constructor. }
  split; [exact R|]. split; [reflexivity|].
  exact (proj2 (typed_lists_mirror_documents R)).
Defined.

(** ** Searching *)

Lemma scored_docs_in (U : Unicode) (query : str) (docs : list VectorStore.Entry)
      (sc : nat) (e : VectorStore.Entry) :
  In (sc, e) (VectorStore.scored_docs U query docs)
  <-> In e docs
      /\ sc = VectorStore.score U (lower U query) (VectorStore.document e)
      /\ (1 <= sc)%nat.
Proof.
  unfold VectorStore.scored_docs; cbv zeta. rewrite in_flat_map. split.
  - intros [x [Hx H]].
    destruct (Nat.ltb_spec 0 (VectorStore.score U (lower U query) (VectorStore.document x)));
      [|destruct H].
    destruct H as [H|[]]. inversion H; subst. auto.
  - intros [He [-> H1]]. exists e. split; [exact He|].
    destruct (Nat.ltb_spec 0 (VectorStore.score U (lower U query) (VectorStore.document e)));
      [left; reflexivity | lia].
Qed.

Lemma top_docs_in (U : Unicode) (self : VectorStore.Self) (query : str) (n : Z)
      (fd : option (Dict.t value)) (item : nat * VectorStore.Entry) :
  In item (VectorStore.top_docs U self query n fd) ->
  In item (VectorStore.scored_docs U query (VectorStore.filtered_docs self fd)).
Proof.
  unfold VectorStore.top_docs; cbv zeta. intros H.
  apply upto_incl in H. apply sort_desc_in in H. exact H.
Qed.

Lemma strongly_sorted_map (A B : Type) (R : A -> A -> Prop) (R' : B -> B -> Prop)
      (f : A -> B) (l : list A) :
  (forall a b, In a l -> In b l -> R a b -> R' (f a) (f b)) ->
  StronglySorted R l -> StronglySorted R' (map f l).
Proof.
  intros H S. induction S as [|x l Hs IH Hx]; simpl; constructor.
  - apply IH. intros a b Ha Hb. apply H; simpl; auto.
  - apply Forall_forall. intros y Hy. apply in_map_iff in Hy.
    destruct Hy as [a [<- Ha]]. rewrite Forall_forall in Hx.
    apply H; simpl; auto.
Qed.

(** X15: [search] returns three parallel lists, one position per entry
    found; each entry found is in the list searched and has a word of the
    query in its document (both lower-cased); the entries come in order
    of decreasing number of query words they contain; there are at most
    [n_results] of them when that is not negative; and a query without a
    word finds nothing. *)
Theorem search_results
        (U : Unicode) (self : VectorStore.Self) (query : str) (n_results : Z)
        (filter_dict : option (Dict.t value)) :
  let r := VectorStore.search U self query n_results filter_dict in
  let found := map snd (VectorStore.top_docs U self query n_results filter_dict) in
  let hits e := VectorStore.score U (lower U query) (VectorStore.document e) in
  VectorStore.Results.documents r = [map VectorStore.document found]
  /\ VectorStore.Results.metadatas r = [map VectorStore.metadata found]
  /\ VectorStore.Results.ids r = [map VectorStore.id found]
  /\ Forall (fun e => In e (VectorStore.filtered_docs self filter_dict)
                      /\ Spec.matches U query (VectorStore.document e)) found
  /\ StronglySorted (fun a b => (hits b <= hits a)%nat) found
  /\ ((0 <= n_results)%Z -> (Z.of_nat (length found) <= n_results)%Z)
  /\ (Text.split_whitespace U (lower U query) = [] -> found = []).
Proof.
  cbv zeta. unfold VectorStore.search; cbv zeta.
  cbn [VectorStore.Results.documents VectorStore.Results.metadatas VectorStore.Results.ids].
  rewrite !map_map.
  split; [reflexivity|]. split; [reflexivity|]. split; [reflexivity|].
  split; [|split; [|split]].
  - apply Forall_forall. intros e He. apply in_map_iff in He.
    destruct He as [[sc e'] [<- H]]. apply top_docs_in, scored_docs_in in H.
    destruct H as [H1 [H2 H3]]. cbn [snd]. split; [exact H1|].
    unfold Spec.matches. rewrite <- H2. exact H3.
  - apply (@strongly_sorted_map _ _ (fun a b => (fst b <= fst a)%nat)).
    + intros [s1 e1] [s2 e2] H1 H2. apply top_docs_in, scored_docs_in in H1.
      apply top_docs_in, scored_docs_in in H2. cbn [fst snd].
      destruct H1 as [_ [<- _]]. destruct H2 as [_ [<- _]]. auto.
    + unfold VectorStore.top_docs; cbv zeta. apply upto_sorted, sort_desc_sorted.
  - intros H. rewrite length_map. unfold VectorStore.top_docs; cbv zeta.
    apply upto_length, H.
  - intros H.
    destruct (VectorStore.top_docs U self query n_results filter_dict)
      as [|[sc e] rest] eqn:E; [reflexivity|].
    assert (G : In (sc, e) (VectorStore.top_docs U self query n_results filter_dict))
      by (rewrite E; left; reflexivity).
    apply top_docs_in, scored_docs_in in G. destruct G as [_ [G1 G2]].
    unfold VectorStore.score in G1. rewrite H in G1. simpl in G1. lia.
Qed.

(** X16: when [n_results] is at least the number of documents searched,
    every document with a word of the query is found, and documents with
    the same number of hits come in the order they were added. *)
Theorem search_is_complete_and_stable
        (U : Unicode) (self : VectorStore.Self) (query : str) (n_results : Z)
        (filter_dict : option (Dict.t value)) (k : nat) :
  (Z.of_nat (length (VectorStore.filtered_docs self filter_dict)) <= n_results)%Z ->
  (1 <= k)%nat ->
  let hits e := VectorStore.score U (lower U query) (VectorStore.document e) in
  filter (fun e => hits e =? k)%nat
         (map snd (VectorStore.top_docs U self query n_results filter_dict))
  = filter (fun e => hits e =? k)%nat (VectorStore.filtered_docs self filter_dict).
Proof.
  intros Hn Hk; cbv zeta. unfold VectorStore.top_docs; cbv zeta.
  set (docs := VectorStore.filtered_docs self filter_dict) in *.
  assert (L : (length (VectorStore.scored_docs U query docs) <= length docs)%nat).
  { unfold VectorStore.scored_docs; cbv zeta. clear.
    induction docs as [|e docs IH]; simpl; [lia|].
    rewrite length_app. destruct (0 <? _)%nat; simpl; lia. }
  rewrite upto_all by (rewrite sort_desc_length; lia).
  assert (F : forall l : list (nat * VectorStore.Entry),
             (forall sc e, In (sc, e) l ->
                sc = VectorStore.score U (lower U query) (VectorStore.document e)) ->
             filter (fun e => VectorStore.score U (lower U query) (VectorStore.document e)
                              =? k)%nat (map snd l)
             = map snd (filter (fun item => fst item =? k)%nat l)).
  { induction l as [|[sc e] l IH]; intros H; [reflexivity|].
    cbn [map filter fst snd]. rewrite <- (H sc e) by (left; reflexivity).
    rewrite IH by (intros; apply H; right; assumption).
    destruct (sc =? k)%nat; reflexivity. }
  rewrite F.
  - rewrite sort_desc_stable. unfold VectorStore.scored_docs; cbv zeta. clear -Hk.
    induction docs as [|e docs IH]; [reflexivity|].
    cbn [flat_map filter]. rewrite filter_app, map_app, IH.
    destruct (Nat.ltb_spec 0 (VectorStore.score U (lower U query) (VectorStore.document e))).
    + cbn [filter fst]. destruct (_ =? k)%nat; reflexivity.
    + cbn [filter map app].
      destruct (Nat.eqb_spec (VectorStore.score U (lower U query) (VectorStore.document e)) k);
        [lia | reflexivity].
  - intros sc e H. apply sort_desc_in, scored_docs_in in H. tauto.
Qed.

(** The theorem at a query for "writers", which both pieces of research of
    the example store contain. *)
Lemma search_results_witness :
  let found := map snd (VectorStore.top_docs tables Spec.example_store (py "Writers write")
                          5 (Some [(py "type", VStr (py "research"))])) in
  (0 <= 5)%Z
  /\ map VectorStore.id found = [py "r1"; py "r2"]
  /\ (Z.of_nat (length found) <= 5)%Z.
Proof.
  cbv zeta. split; [lia|]. split; [vm_compute; reflexivity|].
  destruct (@search_results tables Spec.example_store (py "Writers write") 5
              (Some [(py "type", VStr (py "research"))]))
    as [_ [_ [_ [_ [_ [L _]]]]]].
  apply L. lia.
Defined.

(** The theorem at the same query, for the documents with one hit. *)
Lemma search_is_complete_and_stable_witness :
  let fd := Some [(py "type", VStr (py "research"))] in
  let hits e := VectorStore.score tables (lower tables (py "Writers like"))
                                  (VectorStore.document e) in
  (Z.of_nat (length (VectorStore.filtered_docs Spec.example_store fd)) <= 5)%Z
  /\ (1 <= 1)%nat
  /\ map VectorStore.id
         (filter (fun e => hits e =? 1)%nat
                 (map snd (VectorStore.top_docs tables Spec.example_store
                             (py "Writers like") 5 fd)))
     = [py "r1"].
Proof.
  cbv zeta.
  assert (N : (Z.of_nat (length (VectorStore.filtered_docs Spec.example_store
                                   (Some [(py "type", VStr (py "research"))]))) <= 5)%Z)
    by (vm_compute; discriminate).
  split; [exact N|]. split; [lia|].
  rewrite (@search_is_complete_and_stable tables Spec.example_store (py "Writers like") 5
             (Some [(py "type", VStr (py "research"))]) 1 N (le_n 1)).
  vm_compute. reflexivity.
Defined.

(** ** Research stored and retrieved *)

Lemma store_research_fields (self : VectorStore.Self) (topic content source doc_id : str) :
  let e := {| VectorStore.id := doc_id; VectorStore.document := content;
              VectorStore.metadata := [(py "type", VStr (py "research"));
                                       (py "topic", VStr topic);
                                       (py "source", VStr source)] |} in
  VectorStore.research_docs (VectorStore.store_research self topic content source doc_id)
  = VectorStore.research_docs self ++ [e].
Proof. reflexivity. Qed.

Lemma scored_docs_app (U : Unicode) (query : str) (l1 l2 : list VectorStore.Entry) :
  VectorStore.scored_docs U query (l1 ++ l2)
  = VectorStore.scored_docs U query l1 ++ VectorStore.scored_docs U query l2.
Proof. unfold VectorStore.scored_docs; cbv zeta. apply flat_map_app. Qed.

(** X17: research that has been stored is found by every query with a
    word that occurs in its content, whatever topic it was stored under,
    provided [n_results] exceeds the number of research documents stored
    before; for a query without such a word the new document changes
    nothing in the result. *)
Theorem stored_research_is_retrievable
        (U : Unicode) (self : VectorStore.Self)
        (topic content source doc_id query : str) (n_results : Z) :
  let self' := VectorStore.store_research self topic content source doc_id in
  let r := VectorStore.retrieve_research U self' query n_results in
  (Spec.matches U query content ->
   (Z.of_nat (length (VectorStore.research_docs self)) < n_results)%Z ->
   In doc_id (hd [] (VectorStore.Results.ids r))
   /\ In content (hd [] (VectorStore.Results.documents r)))
  /\ (~ Spec.matches U query content ->
      r = VectorStore.retrieve_research U self query n_results).
Proof.
  cbv zeta. split.
  - intros M N.
    unfold VectorStore.retrieve_research, VectorStore.search; cbv zeta.
    cbn [VectorStore.Results.ids VectorStore.Results.documents hd].
    set (e := {| VectorStore.id := doc_id; VectorStore.document := content;
                 VectorStore.metadata := [(py "type", VStr (py "research"));
                                          (py "topic", VStr topic);
                                          (py "source", VStr source)] |}).
    assert (T : In (VectorStore.score U (lower U query) content, e)
                   (VectorStore.top_docs U
                      (VectorStore.store_research self topic content source doc_id)
                      query n_results (Some [(py "type", VStr (py "research"))]))).
    { unfold VectorStore.top_docs; cbv zeta.
      change (VectorStore.filtered_docs
                (VectorStore.store_research self topic content source doc_id)
                (Some [(py "type", VStr (py "research"))]))
        with (VectorStore.research_docs self ++ [e]).
      rewrite upto_all.
      - apply sort_desc_in, scored_docs_in. split; [apply in_or_app; simpl; auto|].
        split; [reflexivity | exact M].
      - rewrite sort_desc_length.
        assert (L : forall l, (length (VectorStore.scored_docs U query l) <= length l)%nat).
        { unfold VectorStore.scored_docs; cbv zeta.
          induction l as [|x l IH]; simpl; [lia|].
          rewrite length_app. destruct (0 <? _)%nat; simpl; lia. }
        specialize (L (VectorStore.research_docs self ++ [e])).
        rewrite length_app in L. simpl in L. lia. }
    split.
    + apply in_map_iff. exists (VectorStore.score U (lower U query) content, e). auto.
    + apply in_map_iff. exists (VectorStore.score U (lower U query) content, e). auto.
  - intros M.
    unfold VectorStore.retrieve_research, VectorStore.search, VectorStore.top_docs; cbv zeta.
    change (VectorStore.filtered_docs
              (VectorStore.store_research self topic content source doc_id)
              (Some [(py "type", VStr (py "research"))]))
      with (VectorStore.research_docs self
            ++ [{| VectorStore.id := doc_id; VectorStore.document := content;
                   VectorStore.metadata := [(py "type", VStr (py "research"));
                                            (py "topic", VStr topic);
                                            (py "source", VStr source)] |}]).
    change (VectorStore.filtered_docs self (Some [(py "type", VStr (py "research"))]))
      with (VectorStore.research_docs self).
    rewrite scored_docs_app.
    assert (Z0 : forall e, VectorStore.document e = content ->
                   VectorStore.scored_docs U query [e] = []).
    { intros e He. unfold VectorStore.scored_docs; cbv zeta. cbn [flat_map]. rewrite He.
      unfold Spec.matches in M.
      destruct (Nat.ltb_spec 0 (VectorStore.score U (lower U query) content));
        [lia | reflexivity]. }
    rewrite Z0 by reflexivity. rewrite app_nil_r. reflexivity.
Qed.

(** The theorem at research on lists, stored under the topic "seo" and
    asked for by "lists" and by "seo". *)
Lemma stored_research_is_retrievable_witness :
  let self' := VectorStore.store_research VectorStore.__init__ (py "seo")
                 (py "Writers like lists.") (py "serper_api") (py "r2") in
  Spec.matches tables (py "lists") (py "Writers like lists.")
  /\ VectorStore.Results.ids (VectorStore.retrieve_research tables self' (py "lists") 5)
     = [[py "r2"]]
  /\ ~ Spec.matches tables (py "seo") (py "Writers like lists.")
  /\ VectorStore.retrieve_research tables self' (py "seo") 5
     = VectorStore.retrieve_research tables VectorStore.__init__ (py "seo") 5.
Proof.
  cbv zeta.
  assert (M : Spec.matches tables (py "lists") (py "Writers like lists."))
    by (vm_compute; lia).
  assert (N : ~ Spec.matches tables (py "seo") (py "Writers like lists."))
    by (vm_compute; lia).
  split; [exact M|]. split; [vm_compute; reflexivity|]. split; [exact N|].
  exact (proj2 (@stored_research_is_retrievable tables VectorStore.__init__ (py "seo")
                  (py "Writers like lists.") (py "serper_api") (py "r2") (py "seo") 5) N).
Defined.

(** ** Brand voice examples *)

(** X18: [get_brand_voice_examples(n)] returns the documents of the first
    [n] brand voice entries; once the store has [n] of them, an example
    added later is never among those returned. *)
Theorem later_examples_are_not_returned
        (self : VectorStore.Self) (content doc_id : str) (n_examples : Z) :
  (0 <= n_examples <= Z.of_nat (length (VectorStore.brand_voice_docs self)))%Z ->
  VectorStore.get_brand_voice_examples
    (VectorStore.add_brand_voice_example self content doc_id) n_examples
  = VectorStore.get_brand_voice_examples self n_examples.
Proof.
  intros H. unfold VectorStore.get_brand_voice_examples, PyList.upto.
  destruct (Z.leb_spec 0 n_examples); [|lia].
  change (VectorStore.brand_voice_docs
            (VectorStore.add_brand_voice_example self content doc_id))
    with (VectorStore.brand_voice_docs self
          ++ [{| VectorStore.id := doc_id; VectorStore.document := content;
                 VectorStore.metadata := [(py "type", VStr (py "brand_voice"))] |}]).
  rewrite firstn_app.
  replace (Z.to_nat n_examples - length (VectorStore.brand_voice_docs self))%nat
    with 0%nat by lia.
  rewrite firstn_O, app_nil_r. reflexivity.
Qed.

(** The theorem at the example store, which has three examples. *)
Lemma later_examples_are_not_returned_witness :
  (0 <= 3 <= Z.of_nat (length (VectorStore.brand_voice_docs Spec.example_store)))%Z
  /\ VectorStore.get_brand_voice_examples
       (VectorStore.add_brand_voice_example Spec.example_store (py "A fourth.") (py "bv4")) 3
     = [py "We keep it plain."; py "Short words win."; py "No jargon."].
Proof.
  assert (H : (0 <= 3 <= Z.of_nat (length (VectorStore.brand_voice_docs
                                            Spec.example_store)))%Z)
    by (vm_compute; split; discriminate).
  split; [exact H|].
  rewrite (@later_examples_are_not_returned Spec.example_store (py "A fourth.") (py "bv4")
             3 H).
  reflexivity.
Defined.

(** * Routing without the model, and the summary of a result *)

(** X19: the routing by keywords never names a secondary agent and names
    one of the four agents; it names the LinkedIn agent exactly when the
    lower-cased query has "linkedin" and one of "blog", "article", "write",
    "post" (so "linkedin" alone is not enough); a query with one of these
    four words goes to the blog or the LinkedIn agent whatever else it
    has; and research is skipped only for the image agent, or for the
    LinkedIn agent when the query lacks "research". *)
Theorem fallback_routing (U : Unicode) (user_query : str) :
  let q := lower U user_query in
  let r := RouterAgent.route_query_fallback U user_query in
  let writes :=
    RouterAgent.any_word (map py ["blog"; "article"; "write"; "post"]%string) q in
  RouterAgent.secondary_agents r = []
  /\ In (RouterAgent.primary_agent r) Spec.agents
  /\ (RouterAgent.primary_agent r = py "linkedin_agent"
      <-> writes = true /\ Str.contains (py "linkedin") q = true)
  /\ (RouterAgent.content_type r = py "linkedin"
      <-> RouterAgent.primary_agent r = py "linkedin_agent")
  /\ (writes = true ->
      In (RouterAgent.primary_agent r) [py "blog_agent"; py "linkedin_agent"])
  /\ (RouterAgent.requires_research r = false ->
      RouterAgent.primary_agent r = py "image_agent"
      \/ (RouterAgent.primary_agent r = py "linkedin_agent"
          /\ Str.contains (py "research") q = false)).
Proof.
  cbv zeta. unfold RouterAgent.route_query_fallback; cbv zeta.
  destruct (RouterAgent.any_word (map py ["blog"; "article"; "write"; "post"]%string)
                                 (lower U user_query)) eqn:W;
    [destruct (Str.contains (py "linkedin") (lower U user_query)) eqn:L
    |destruct (RouterAgent.any_word (map py ["image"; "visual"; "graphic"; "picture"]%string)
                                    (lower U user_query)) eqn:I;
     [|destruct (RouterAgent.any_word
                   (map py ["research"; "find"; "search"; "analyze"]%string)
                   (lower U user_query)) eqn:R]];
    cbn [RouterAgent.secondary_agents RouterAgent.primary_agent
         RouterAgent.content_type RouterAgent.requires_research];
    (split; [reflexivity|]);
    (split; [vm_compute; tauto|]);
    (split; [split; [intros E; try discriminate E; auto
                    |intros [E1 E2]; try discriminate E1; try discriminate E2; reflexivity]|]);
    (split; [split; intros E; try discriminate E; reflexivity|]);
    (split; [intros E; try discriminate E; vm_compute; tauto|]);
    intros E; try discriminate E; auto.
Qed.

(** X20: the summary of a result depends only on which of the keys
    "research", "blog", "linkedin" and "image" its outputs have; it is
    never empty, it is "Processed request" exactly when the outputs have
    none of them (a missing "outputs" counts as empty), and otherwise it
    has one part for each key present, " | " between two parts. *)
Theorem result_summary (V : Type) (result : Dict.t (Dict.t V)) :
  let outputs_of (result : Dict.t (Dict.t V)) :=
    match Dict.get result (py "outputs") with
    | Some outputs => outputs
    | None => []
    end in
  let present (result : Dict.t (Dict.t V)) :=
    filter (ContentOrchestrator.has_key (outputs_of result)) Spec.summary_keys in
  let summary := ContentOrchestrator._create_result_summary result in
  summary <> []
  /\ (summary = py "Processed request" <-> present result = [])
  /\ (present result <> [] ->
      (Str.count summary (py " | ") + 1 = length (present result))%nat)
  /\ (forall result' : Dict.t (Dict.t V),
         present result' = present result ->
         ContentOrchestrator._create_result_summary result' = summary).
Proof.
  cbv zeta.
  assert (F : forall r : Dict.t (Dict.t V),
             let o := match Dict.get r (py "outputs") with
                      | Some outputs => outputs
                      | None => []
                      end in
             exists b1 b2 b3 b4,
               ContentOrchestrator.has_key o (py "research") = b1
               /\ ContentOrchestrator.has_key o (py "blog") = b2
               /\ ContentOrchestrator.has_key o (py "linkedin") = b3
               /\ ContentOrchestrator.has_key o (py "image") = b4).
  { intros r; cbv zeta. repeat eexists. }
  assert (S : forall r : Dict.t (Dict.t V),
             let o := match Dict.get r (py "outputs") with
                      | Some outputs => outputs
                      | None => []
                      end in
             forall b1 b2 b3 b4,
               ContentOrchestrator.has_key o (py "research") = b1 ->
               ContentOrchestrator.has_key o (py "blog") = b2 ->
               ContentOrchestrator.has_key o (py "linkedin") = b3 ->
               ContentOrchestrator.has_key o (py "image") = b4 ->
               ContentOrchestrator._create_result_summary r
               = ContentOrchestrator._create_result_summary
                   [(py "outputs",
                     (if b1 then [(py "research", [])] else [])
                     ++ (if b2 then [(py "blog", [])] else [])
                     ++ (if b3 then [(py "linkedin", [])] else [])
                     ++ (if b4 then [(py "image", @nil (str * V))] else []))]
               /\ filter (ContentOrchestrator.has_key o) Spec.summary_keys
                  = (if b1 then [py "research"] else [])
                    ++ (if b2 then [py "blog"] else [])
                    ++ (if b3 then [py "linkedin"] else [])
                    ++ (if b4 then [py "image"] else [])).
  { intros r; cbv zeta; intros b1 b2 b3 b4 H1 H2 H3 H4.
    unfold ContentOrchestrator._create_result_summary at 1; cbv zeta.
    unfold Spec.summary_keys. cbn [map filter].
    rewrite H1, H2, H3, H4.
    destruct b1, b2, b3, b4; split; reflexivity. }
  destruct (F result) as [b1 [b2 [b3 [b4 [H1 [H2 [H3 H4]]]]]]].
  destruct (S result b1 b2 b3 b4 H1 H2 H3 H4) as [E P].
  rewrite E, P.
  split; [|split; [|split]].
  - destruct b1, b2, b3, b4; vm_compute; discriminate.
  - destruct b1, b2, b3, b4; vm_compute; split; intros Q; try discriminate Q; reflexivity.
  - intros N. destruct b1, b2, b3, b4; try (exfalso; apply N; reflexivity);
      vm_compute; reflexivity.
  - intros result' Q.
    destruct (F result') as [c1 [c2 [c3 [c4 [G1 [G2 [G3 G4]]]]]]].
    destruct (S result' c1 c2 c3 c4 G1 G2 G3 G4) as [E' P'].
    rewrite E'. rewrite P' in Q.
    destruct b1, b2, b3, b4, c1, c2, c3, c4; try reflexivity;
      vm_compute in Q; discriminate Q.
Qed.

(** The routing of a request for a LinkedIn post that also has "image". *)
Lemma fallback_routing_witness :
  let r := RouterAgent.route_query_fallback tables
             (py "Write a LinkedIn post with an image") in
  RouterAgent.primary_agent r = py "linkedin_agent"
  /\ RouterAgent.content_type r = py "linkedin"
  /\ RouterAgent.secondary_agents r = [].
Proof.
  cbv zeta.
  pose proof (@fallback_routing tables (py "Write a LinkedIn post with an image")) as T.
  cbv zeta in T. destruct T as [S [_ [P [C _]]]].
  assert (A : RouterAgent.primary_agent
                (RouterAgent.route_query_fallback tables
                   (py "Write a LinkedIn post with an image")) = py "linkedin_agent")
    by (apply P; split; vm_compute; reflexivity).
  split; [exact A|]. split; [apply C; exact A | exact S].
Defined.

(** The summary of a result with research, a blog post and a header image:
    the key "blog_image" adds no part. *)
Lemma result_summary_witness :
  let result : Dict.t (Dict.t str) :=
    [(py "routing", []);
     (py "outputs", [(py "research", []); (py "blog", []); (py "blog_image", [])])] in
  (Str.count (ContentOrchestrator._create_result_summary result) (py " | ") + 1 = 2)%nat
  /\ @ContentOrchestrator._create_result_summary str
       [(py "outputs", [(py "blog", []); (py "research", [])])]
     = ContentOrchestrator._create_result_summary result.
Proof.
  cbv zeta.
  pose proof (@result_summary str
                [(py "routing", []);
                 (py "outputs", [(py "research", []); (py "blog", []);
                                 (py "blog_image", [])])]) as T.
  cbv zeta in T. destruct T as [_ [_ [N S]]].
  split.
  - rewrite N by (vm_compute; discriminate). vm_compute; reflexivity.
  - apply S. vm_compute; reflexivity.
Defined.

(** * The brand voice *)

Lemma dict_get_set (V : Type) (d : Dict.t V) (k k' : str) (v : V) :
  Dict.get (Dict.set d k v) k' = if str_eqb k k' then Some v else Dict.get d k'.
Proof.
  induction d as [|[k0 v0] d IH]; simpl; [reflexivity|].
  destruct (str_eqb k0 k) eqn:E0; simpl.
  - apply str_eqb_eq in E0; subst k0. destruct (str_eqb k k'); reflexivity.
  - rewrite IH. destruct (str_eqb k0 k') eqn:E1; [|reflexivity].
    destruct (str_eqb k k') eqn:E2; [|reflexivity].
    apply str_eqb_eq in E1, E2. subst. rewrite str_eqb_refl in E0. discriminate.
Qed.

Lemma dict_keys_set (V : Type) (d : Dict.t V) (k : str) (v : V) :
  In k (Dict.keys d) -> Dict.keys (Dict.set d k v) = Dict.keys d.
Proof.
  unfold Dict.keys. induction d as [|[k0 v0] d IH]; simpl; [tauto|].
  intros [-> | H].
  - rewrite str_eqb_refl. reflexivity.
  - destruct (str_eqb k0 k); simpl; [reflexivity | rewrite IH by exact H; reflexivity].
Qed.

Lemma get_or_set (d : Dict.t str) (k k' v default : str) :
  BrandVoice.get_or (Dict.set d k v) k' default
  = if str_eqb k k' then v else BrandVoice.get_or d k' default.
Proof.
  unfold BrandVoice.get_or. rewrite dict_get_set. destruct (str_eqb k k'); reflexivity.
Qed.

(** X21: the tone analysis always has the keys "formality", "emotion",
    "voice" and "perspective", in this order; after a guideline is added
    under [category], the analysis has the guideline at [category] when
    this is one of the four keys, and is otherwise as before: a guideline
    of any other category never shows in it. *)
Theorem tone_analysis_after_guideline
        (self : BrandVoice.Self) (category guideline key : str) :
  let self' := BrandVoice.add_brand_guideline self category guideline in
  Dict.keys (BrandVoice.get_tone_analysis self') = Spec.tone_keys
  /\ Dict.get (BrandVoice.get_tone_analysis self') key
     = (if str_eqb category key && existsb (str_eqb key) Spec.tone_keys
        then Some guideline
        else Dict.get (BrandVoice.get_tone_analysis self) key)
  /\ (existsb (str_eqb category) Spec.tone_keys = false ->
      BrandVoice.get_tone_analysis self' = BrandVoice.get_tone_analysis self).
Proof.
  cbv zeta. unfold BrandVoice.get_tone_analysis, BrandVoice.add_brand_guideline.
  cbn [BrandVoice.brand_guidelines]. rewrite !get_or_set.
  split; [reflexivity|]. split.
  - unfold Spec.tone_keys. cbn [Dict.get map existsb].
    destruct (str_eqb (py "formality") key) eqn:K1;
      [apply str_eqb_eq in K1; subst key; rewrite str_eqb_refl;
       destruct (str_eqb category (py "formality")); reflexivity|].
    destruct (str_eqb (py "emotion") key) eqn:K2;
      [apply str_eqb_eq in K2; subst key; rewrite str_eqb_refl, orb_true_r;
       destruct (str_eqb category (py "emotion")); reflexivity|].
    destruct (str_eqb (py "voice") key) eqn:K3;
      [apply str_eqb_eq in K3; subst key; rewrite str_eqb_refl, !orb_true_r;
       destruct (str_eqb category (py "voice")); reflexivity|].
    destruct (str_eqb (py "perspective") key) eqn:K4;
      [apply str_eqb_eq in K4; subst key; rewrite str_eqb_refl, !orb_true_r;
       destruct (str_eqb category (py "perspective")); reflexivity|].
    rewrite (str_eqb_sym key (py "formality")), (str_eqb_sym key (py "emotion")),
      (str_eqb_sym key (py "voice")), (str_eqb_sym key (py "perspective")),
      K1, K2, K3, K4.
    rewrite andb_false_r. reflexivity.
  - unfold Spec.tone_keys. cbn [map existsb]. intros H.
    repeat (apply orb_false_iff in H; destruct H as [? H]).
    repeat match goal with E : str_eqb _ _ = false |- _ => rewrite E; clear E end.
    reflexivity.
Qed.

(** The theorem at a guideline for the voice and at one for the audience. *)
Lemma tone_analysis_after_guideline_witness :
  existsb (str_eqb (py "audience")) Spec.tone_keys = false
  /\ BrandVoice.get_tone_analysis
       (BrandVoice.add_brand_guideline BrandVoice.__init__ (py "audience") (py "founders"))
     = BrandVoice.get_tone_analysis BrandVoice.__init__
  /\ Dict.get (BrandVoice.get_tone_analysis
                 (BrandVoice.add_brand_guideline BrandVoice.__init__
                    (py "voice") (py "passive"))) (py "voice")
     = Some (py "passive").
Proof.
  assert (H : existsb (str_eqb (py "audience")) Spec.tone_keys = false) by reflexivity.
  split; [exact H|]. split.
  - exact (proj2 (proj2 (@tone_analysis_after_guideline BrandVoice.__init__
                           (py "audience") (py "founders") (py "voice"))) H).
  - exact (proj1 (proj2 (@tone_analysis_after_guideline BrandVoice.__init__
                           (py "voice") (py "passive") (py "voice")))).
Defined.

Lemma join_not_empty (sep p : str) (rest : list str) :
  p <> [] -> Str.join sep (p :: rest) <> [].
Proof.
  destruct p as [|c p]; [congruence|]. intros _. destruct rest; simpl; discriminate.
Qed.

Lemma join_startswith (sep p : str) (rest : list str) :
  Str.startswith p (Str.join sep (p :: rest)) = true.
Proof.
  assert (S : forall a b : str, Str.startswith a (a ++ b) = true).
  { induction a as [|x a IH]; intros b; simpl; [reflexivity|].
    rewrite N.eqb_refl. apply IH. }
  destruct rest; simpl; [|apply S].
  rewrite <- (app_nil_r p) at 2. apply S.
Qed.

(** X22: the brand voice prompt is the empty string exactly when there is
    no guideline and the store has no brand voice example; with a
    guideline it starts with the heading of the guidelines, and with
    examples only it starts with a newline and the heading of the
    examples. *)
Theorem prompt_empty_iff (self : BrandVoice.Self) (vector_store : VectorStore.Self) :
  let prompt := BrandVoice.get_brand_voice_prompt self vector_store in
  (prompt = [] <-> BrandVoice.brand_guidelines self = []
                   /\ VectorStore.brand_voice_docs vector_store = [])
  /\ (BrandVoice.brand_guidelines self <> [] ->
      Str.startswith (py "## Brand Voice Guidelines:") prompt = true)
  /\ (BrandVoice.brand_guidelines self = [] ->
      VectorStore.brand_voice_docs vector_store <> [] ->
      Str.startswith (NL :: py "## Brand Voice Examples:") prompt = true).
Proof.
  cbv zeta. unfold BrandVoice.get_brand_voice_prompt; cbv zeta.
  unfold VectorStore.get_brand_voice_examples, PyList.upto.
  change (0 <=? 3)%Z with true. cbv iota.
  destruct (BrandVoice.brand_guidelines self) as [|g gs];
    destruct (VectorStore.brand_voice_docs vector_store) as [|d ds].
  - cbn. split; [tauto|]. split; [congruence | intros _ N; congruence].
  - change (map VectorStore.document (firstn (Z.to_nat 3) (d :: ds)))
      with (VectorStore.document d
            :: map VectorStore.document (firstn 2 ds)).
    cbn [app]. split; [|split].
    + split; [intros E; exfalso; revert E; apply join_not_empty; discriminate
             |intros [_ E]; discriminate E].
    + congruence.
    + intros _ _. apply join_startswith.
  - cbn [firstn map app]. split; [|split].
    + split; [intros E; exfalso; revert E; apply join_not_empty; discriminate
             |intros [E _]; discriminate E].
    + intros _. apply join_startswith.
    + congruence.
  - change (map VectorStore.document (firstn (Z.to_nat 3) (d :: ds)))
      with (VectorStore.document d
            :: map VectorStore.document (firstn 2 ds)).
    cbn [app]. split; [|split].
    + split; [intros E; exfalso; revert E; apply join_not_empty; discriminate
             |intros [E _]; discriminate E].
    + intros _. apply join_startswith.
    + congruence.
Qed.

(** The theorem at the example store and no guideline. *)
Lemma prompt_empty_iff_witness :
  BrandVoice.brand_guidelines BrandVoice.__init__ = []
  /\ VectorStore.brand_voice_docs Spec.example_store <> []
  /\ Str.startswith (NL :: py "## Brand Voice Examples:")
       (BrandVoice.get_brand_voice_prompt BrandVoice.__init__ Spec.example_store) = true
  /\ BrandVoice.get_brand_voice_prompt BrandVoice.__init__ VectorStore.__init__ = [].
Proof.
  assert (G : BrandVoice.brand_guidelines BrandVoice.__init__ = []) by reflexivity.
  assert (D : VectorStore.brand_voice_docs Spec.example_store <> [])
    by (vm_compute; discriminate).
  split; [exact G|]. split; [exact D|]. split.
  - exact (proj2 (proj2 (@prompt_empty_iff BrandVoice.__init__ Spec.example_store)) G D).
  - apply (proj1 (@prompt_empty_iff BrandVoice.__init__ VectorStore.__init__)).
    split; reflexivity.
Defined.

Lemma add_example_content_fields
      (uuid : str) (self : BrandVoice.Self) (vector_store : VectorStore.Self)
      (content : str) :
  let r := BrandVoice.add_example_content uuid self vector_store content in
  BrandVoice.examples (fst r) = BrandVoice.examples self ++ [content]
  /\ BrandVoice.brand_guidelines (fst r) = BrandVoice.brand_guidelines self
  /\ map VectorStore.document (VectorStore.brand_voice_docs (snd r))
     = map VectorStore.document (VectorStore.brand_voice_docs vector_store) ++ [content]
  /\ VectorStore.research_docs (snd r) = VectorStore.research_docs vector_store.
Proof.
  cbv zeta. unfold BrandVoice.add_example_content; cbv zeta. cbn [fst snd].
  cbn [BrandVoice.examples BrandVoice.brand_guidelines].
  change (VectorStore.brand_voice_docs
            (VectorStore.add_brand_voice_example vector_store content
               (py "brand_voice_" ++ uuid)))
    with (VectorStore.brand_voice_docs vector_store
          ++ [{| VectorStore.id := py "brand_voice_" ++ uuid;
                 VectorStore.document := content;
                 VectorStore.metadata := [(py "type", VStr (py "brand_voice"))] |}]).
  rewrite map_app. repeat split; reflexivity.
Qed.

Lemma train_from_content_fields (content_samples : list str) :
  forall (uuids : list str) (self : BrandVoice.Self) (vector_store : VectorStore.Self),
    length uuids = length content_samples ->
    let r := BrandVoice.train_from_content uuids self vector_store content_samples in
    BrandVoice.examples (fst r) = BrandVoice.examples self ++ content_samples
    /\ BrandVoice.brand_guidelines (fst r) = BrandVoice.brand_guidelines self
    /\ map VectorStore.document (VectorStore.brand_voice_docs (snd r))
       = map VectorStore.document (VectorStore.brand_voice_docs vector_store)
         ++ content_samples
    /\ VectorStore.research_docs (snd r) = VectorStore.research_docs vector_store.
Proof.
  induction content_samples as [|content samples IH]; intros uuids self vector_store L;
    cbv zeta.
  - destruct uuids; [|discriminate L]. simpl. rewrite !app_nil_r. auto.
  - destruct uuids as [|uuid uuids]; [discriminate L|].
    cbn [BrandVoice.train_from_content].
    destruct (add_example_content_fields uuid self vector_store content)
      as [E [G [B R]]].
    destruct (BrandVoice.add_example_content uuid self vector_store content)
      as [self1 store1].
    cbn [fst snd] in E, G, B, R.
    assert (L' : length uuids = length samples) by (simpl in L; lia).
    destruct (IH uuids self1 store1 L') as [E' [G' [B' R']]].
    rewrite E', G', B', R', E, G, B, R, <- !app_assoc. auto.
Qed.

Lemma firstn_map_app (A B : Type) (f : A -> B) (n : nat) (l l' : list A) (extra : list B) :
  (n <= length l)%nat ->
  map f l' = map f l ++ extra ->
  map f (firstn n l') = map f (firstn n l).
Proof.
  intros L E. rewrite <- !firstn_map, E, firstn_app.
  rewrite length_map. replace (n - length l)%nat with 0%nat by lia.
  rewrite firstn_O, app_nil_r. reflexivity.
Qed.

(** X23: training on content samples appends them to [examples] and
    stores each as a brand voice example, in their order, leaving the tone
    analysis as it was; once the store holds three brand voice examples
    the prompt does not change any more, since it quotes the first three
    of the store. *)
Theorem training_after_three_examples
        (uuids content_samples : list str)
        (self : BrandVoice.Self) (vector_store : VectorStore.Self) :
  length uuids = length content_samples ->
  let r := BrandVoice.train_from_content uuids self vector_store content_samples in
  BrandVoice.examples (fst r) = BrandVoice.examples self ++ content_samples
  /\ map VectorStore.document (VectorStore.brand_voice_docs (snd r))
     = map VectorStore.document (VectorStore.brand_voice_docs vector_store)
       ++ content_samples
  /\ BrandVoice.get_tone_analysis (fst r) = BrandVoice.get_tone_analysis self
  /\ ((3 <= length (VectorStore.brand_voice_docs vector_store))%nat ->
      BrandVoice.get_brand_voice_prompt (fst r) (snd r)
      = BrandVoice.get_brand_voice_prompt self vector_store).
Proof.
  intros L; cbv zeta.
  destruct (train_from_content_fields content_samples uuids self vector_store L)
    as [E [G [B _]]].
  split; [exact E|]. split; [exact B|]. split.
  - unfold BrandVoice.get_tone_analysis. rewrite G. reflexivity.
  - intros T. unfold BrandVoice.get_brand_voice_prompt; cbv zeta.
    unfold VectorStore.get_brand_voice_examples, PyList.upto.
    change (0 <=? 3)%Z with true. cbv iota.
    rewrite G, (@firstn_map_app _ _ VectorStore.document (Z.to_nat 3) _ _ _ T B).
    reflexivity.
Qed.

(** The theorem at the example store, which has three examples, and two
    more samples. *)
Lemma training_after_three_examples_witness :
  let r := BrandVoice.train_from_content [py "u1"; py "u2"] BrandVoice.__init__
             Spec.example_store [py "A fourth."; py "A fifth."] in
  (3 <= length (VectorStore.brand_voice_docs Spec.example_store))%nat
  /\ BrandVoice.examples (fst r) = [py "A fourth."; py "A fifth."]
  /\ BrandVoice.get_brand_voice_prompt (fst r) (snd r)
     = BrandVoice.get_brand_voice_prompt BrandVoice.__init__ Spec.example_store.
Proof.
  cbv zeta.
  assert (T : (3 <= length (VectorStore.brand_voice_docs Spec.example_store))%nat)
    by (vm_compute; lia).
  pose proof (@training_after_three_examples [py "u1"; py "u2"]
                [py "A fourth."; py "A fifth."] BrandVoice.__init__ Spec.example_store
                eq_refl) as H.
  cbv zeta in H. destruct H as [E [_ [_ P]]].
  split; [exact T|]. split; [exact E | exact (P T)].
Defined.

(** * The session data *)

Lemma set_user_preference_some (sd : Dict.t value) (preferences : Dict.t value)
      (key : str) (v : value) :
  Dict.get sd (py "user_preferences") = Some (VDict preferences) ->
  ConversationMemory.set_user_preference sd key v
  = Some (Dict.set sd (py "user_preferences") (VDict (Dict.set preferences key v))).
Proof. intros H. unfold ConversationMemory.set_user_preference. rewrite H. reflexivity. Qed.

Lemma get_in_dict_keys (V : Type) (d : Dict.t V) (k : str) :
  In k (Dict.keys d) <-> Dict.get d k <> None.
Proof.
  unfold Dict.keys. induction d as [|[k0 v0] d IH]; simpl; [tauto|].
  destruct (str_eqb k0 k) eqn:E.
  - apply str_eqb_eq in E. split; [discriminate | auto].
  - apply str_eqb_neq in E. rewrite <- IH. tauto.
Qed.

Lemma session_invariant (sd : Dict.t value) :
  Spec.session sd ->
  Dict.keys sd = Spec.session_keys
  /\ exists preferences, Dict.get sd (py "user_preferences") = Some (VDict preferences).
Proof.
  induction 1 as [now | sd b _ [K [p P]] | sd pr _ [K [p P]]
                  | sd sd' k v _ [K [p P]] S | now sd _ _].
  - split; [reflexivity | exists []; reflexivity].
  - unfold ConversationMemory.set_brand_voice. split.
    + rewrite dict_keys_set; [exact K | rewrite K; vm_compute; tauto].
    + exists p. rewrite dict_get_set. exact P.
  - unfold ConversationMemory.set_current_project. split.
    + rewrite dict_keys_set; [exact K | rewrite K; vm_compute; tauto].
    + exists p. rewrite dict_get_set. exact P.
  - rewrite (set_user_preference_some _ _ _ P) in S. injection S as <-. split.
    + rewrite dict_keys_set; [exact K | rewrite K; vm_compute; tauto].
    + exists (Dict.set p k v). rewrite dict_get_set, str_eqb_refl. reflexivity.
  - split; [reflexivity | exists []; reflexivity].
Qed.

(** X24: whatever methods have been called, the session data has exactly
    its four initial keys, and "user_preferences" holds a dictionary.  So
    setting and getting a preference never raise, and the defaults of
    [get_brand_voice] (the empty string) and [get_current_project] (the
    empty dictionary) are never what is returned for a missing key: the
    getters return the stored value, which is [None] in a fresh or a
    cleared session. *)
Theorem session_keys_are_fixed (sd : Dict.t value) :
  Spec.session sd ->
  Dict.keys sd = Spec.session_keys
  /\ (forall (key : str) (v : value),
         ConversationMemory.set_user_preference sd key v <> None)
  /\ (forall (key : str) (default : value),
         ConversationMemory.get_user_preference sd key default <> None)
  /\ Dict.get sd (py "brand_voice") = Some (ConversationMemory.get_brand_voice sd)
  /\ Dict.get sd (py "current_project") = Some (ConversationMemory.get_current_project sd)
  /\ (forall now : str,
         ConversationMemory.get_brand_voice (ConversationMemory.clear now sd) = VNone
         /\ ConversationMemory.get_current_project (ConversationMemory.clear now sd)
            = VNone).
Proof.
  intros S. destruct (session_invariant S) as [K [p P]].
  split; [exact K|]. split; [|split; [|split; [|split]]].
  - intros key v. rewrite (set_user_preference_some _ _ _ P). discriminate.
  - intros key default. unfold ConversationMemory.get_user_preference. rewrite P.
    discriminate.
  - unfold ConversationMemory.get_brand_voice, ConversationMemory.get_or.
    assert (I : In (py "brand_voice") (Dict.keys sd)) by (rewrite K; vm_compute; tauto).
    apply get_in_dict_keys in I.
    destruct (Dict.get sd (py "brand_voice")); [reflexivity | congruence].
  - unfold ConversationMemory.get_current_project, ConversationMemory.get_or.
    assert (I : In (py "current_project") (Dict.keys sd))
      by (rewrite K; vm_compute; tauto).
    apply get_in_dict_keys in I.
    destruct (Dict.get sd (py "current_project")); [reflexivity | congruence].
  - intros now. split; reflexivity.
Qed.

(** The theorem at a session with a brand voice and one preference. *)
Lemma session_keys_are_fixed_witness :
  let sd := Dict.set (ConversationMemory.set_brand_voice
                        (ConversationMemory.fresh_session_data (py "2024-01-01T00:00:00"))
                        (py "plain"))
                     (py "user_preferences") (VDict [(py "tone", VStr (py "warm"))]) in
  Spec.session sd
  /\ Dict.keys sd = Spec.session_keys
  /\ Dict.get sd (py "brand_voice") = Some (ConversationMemory.get_brand_voice sd).
Proof.
  cbv zeta.
  assert (S : Spec.session
                (Dict.set (ConversationMemory.set_brand_voice
                             (ConversationMemory.fresh_session_data
                                (py "2024-01-01T00:00:00"))
                             (py "plain"))
                          (py "user_preferences") (VDict [(py "tone", VStr (py "warm"))]))).
  { eapply Spec.session_preference with (key := py "tone") (v := VStr (py "warm")).
    - apply Spec.session_brand_voice. apply Spec.session_fresh.
    - reflexivity. }
  split; [exact S|].
  destruct (session_keys_are_fixed S) as [K [_ [_ [B _]]]].
  split; [exact K | exact B].
Defined.

(** X25: a preference that has been set is what [get_user_preference]
    returns for its key, whatever the default; for every other key the
    answer is as before; and setting a preference changes neither the
    brand voice nor the current project of the session. *)
Theorem preference_round_trip
        (sd : Dict.t value) (preferences : Dict.t value) (key : str) (v : value) :
  Dict.get sd (py "user_preferences") = Some (VDict preferences) ->
  exists sd',
    ConversationMemory.set_user_preference sd key v = Some sd'
    /\ (forall default : value,
           ConversationMemory.get_user_preference sd' key default = Some v)
    /\ (forall (key' : str) (default : value),
           key' <> key ->
           ConversationMemory.get_user_preference sd' key' default
           = ConversationMemory.get_user_preference sd key' default)
    /\ ConversationMemory.get_brand_voice sd' = ConversationMemory.get_brand_voice sd
    /\ ConversationMemory.get_current_project sd'
       = ConversationMemory.get_current_project sd.
Proof.
  intros P. eexists. split; [apply (set_user_preference_some _ _ _ P)|].
  unfold ConversationMemory.get_user_preference, ConversationMemory.get_brand_voice,
    ConversationMemory.get_current_project, ConversationMemory.get_or.
  rewrite !dict_get_set, str_eqb_refl, P.
  split; [|split; [|split]].
  - intros default. rewrite dict_get_set, str_eqb_refl. reflexivity.
  - intros key' default N. rewrite dict_get_set.
    assert (E : str_eqb key key' = false) by (apply str_eqb_neq; congruence).
    rewrite E. reflexivity.
  - reflexivity.
  - reflexivity.
Qed.

(** The theorem at a fresh session. *)
Lemma preference_round_trip_witness :
  exists sd',
    ConversationMemory.set_user_preference
      (ConversationMemory.fresh_session_data (py "2024-01-01T00:00:00"))
      (py "tone") (VStr (py "warm")) = Some sd'
    /\ ConversationMemory.get_user_preference sd' (py "tone") VNone
       = Some (VStr (py "warm")).
Proof.
  destruct (@preference_round_trip
              (ConversationMemory.fresh_session_data (py "2024-01-01T00:00:00"))
              [] (py "tone") (VStr (py "warm")) eq_refl) as [sd' [S [G _]]].
  exists sd'. split; [exact S | apply G].
Defined.

(** X26: the history string of the last [last_n] messages.  For a positive
    [last_n] the messages before the last [last_n] do not matter; asked
    for the last 0 messages, the method returns the whole history, as it
    does for every [last_n] from the length of the history on; and a
    negative [last_n] drops that many messages from the front. *)
Theorem history_string_window (old recent : list ConversationMemory.Message) :
  let n := Z.of_nat (length recent) in
  (recent <> [] ->
   ConversationMemory.get_history_string (old ++ recent) n
   = ConversationMemory.get_history_string recent n)
  /\ (forall last_n : Z,
         (n <= last_n)%Z ->
         ConversationMemory.get_history_string recent last_n
         = ConversationMemory.get_history_string recent 0)
  /\ ConversationMemory.get_history_string (old ++ recent) (- Z.of_nat (length old))
     = ConversationMemory.get_history_string recent 0.
Proof.
  cbv zeta. unfold ConversationMemory.get_history_string, PyList.last; cbv zeta.
  split; [|split].
  - intros N. destruct recent as [|m recent]; [congruence|].
    destruct (Z.ltb_spec 0 (Z.of_nat (length (m :: recent)))) as [_ | H];
      [|simpl length in H; lia].
    rewrite Nat2Z.id, length_app.
    replace (length old + length (m :: recent) - length (m :: recent))%nat
      with (length old + 0)%nat by lia.
    rewrite skipn_app, Nat.add_0_r, skipn_all, Nat.sub_diag, Nat.sub_diag. reflexivity.
  - intros last_n H. change (0 <? 0)%Z with false. cbv iota.
    change (Z.to_nat (- 0)) with 0%nat. rewrite skipn_O.
    destruct (Z.ltb_spec 0 last_n) as [P | P].
    + replace (length recent - Z.to_nat last_n)%nat with 0%nat by lia. reflexivity.
    + assert (L : length recent = 0%nat) by lia.
      destruct recent; [|discriminate L]. rewrite skipn_nil. reflexivity.
  - change (0 <? 0)%Z with false. cbv iota.
    change (Z.to_nat (- 0)) with 0%nat. rewrite skipn_O.
    destruct (Z.ltb_spec 0 (- Z.of_nat (length old))) as [P | P]; [lia|].
    rewrite Z.opp_involutive, Nat2Z.id, skipn_app, skipn_all, Nat.sub_diag. reflexivity.
Qed.

(** The theorem at a history of three messages and the last two. *)
Lemma history_string_window_witness :
  let user (content : str) :=
    {| ConversationMemory.is_human := true; ConversationMemory.content := content |} in
  let assistant (content : str) :=
    {| ConversationMemory.is_human := false; ConversationMemory.content := content |} in
  ConversationMemory.get_history_string
    [user (py "Write a post"); assistant (py "Generated blog post"); user (py "Shorter")] 2
  = py "Assistant: Generated blog post" ++ NL :: py "User: Shorter".
Proof.
  cbv zeta.
  etransitivity;
    [exact (proj1 (@history_string_window
                     [{| ConversationMemory.is_human := true;
                         ConversationMemory.content := py "Write a post" |}]
                     [{| ConversationMemory.is_human := false;
                         ConversationMemory.content := py "Generated blog post" |};
                      {| ConversationMemory.is_human := true;
                         ConversationMemory.content := py "Shorter" |}])
                  ltac:(discriminate))
    |vm_compute; reflexivity].
Defined.
